(** * testcode2 driver script ([bin/testcode.py]): a shallow embedding

    The script drives a regression-test harness: it runs tests (possibly
    concurrently, gated by a bounded semaphore), compares outputs against
    benchmarks, diffs them, promotes outputs to new benchmarks and reports
    an aggregate status.

    The sequential actions ([compare_tests], [diff_tests], [make_benchmarks],
    [end_status], the dispatch part of [run_tests]) are embedded in a small
    state-and-exception monad over the interpreter state: the list of [Test]
    objects, the operating-system state, standard input and output and a log
    of the calls made to collaborators that live outside the script.  The
    concurrent part of [run_tests] (one thread per test, executing
    [run_test_worker]) is embedded as a labelled transition system over the
    shared [threading.BoundedSemaphore] and [threading.Lock]. *)

From Stdlib Require Import ZArith Lia DecimalString.
From stdpp Require Import base list strings gmap.

Open Scope Z_scope.

(** ** Python helpers *)

(** [sum(...)] over integers. *)
Definition sumZ (l : list Z) : Z := foldr Z.add 0 l.

(** ['%s' % n] and ['%d' % n] for an integer. *)
Definition str_of_Z (z : Z) : string := NilZero.string_of_int (Z.to_int z).

(** Truth value of a string-or-[None] option such as [cluster_queue]. *)
Definition truthy (o : option string) : bool :=
  match o with
  | Some s => negb (String.eqb s "")
  | None => false
  end.

(** Exceptions that the embedded code can raise. *)
Inductive exn :=
| TestCodeError (err : string)   (* testcode2.exceptions.TestCodeError *)
| ValueError                     (* max() of an empty sequence *)
| EOFError                       (* input() at end of input *)
| IndexError                     (* a test object that is not in the list *)
| NoSectionError (section : string)   (* configparser.NoSectionError *)
| OSError (file : string).       (* a file or directory that cannot be opened *)

(** [max(...)] over integers: raises [ValueError] on an empty sequence. *)
Definition py_max (l : list Z) : exn + Z :=
  match l with
  | [] => inl ValueError
  | x :: l' => inr (foldl Z.max x l')
  end.

(** ** Data model *)

(** The version-control handle of a test program: [vcs_kind] is the
    attribute [vcs.vcs] (the name of the version control system, [None] when
    unknown) and [code_id] is what [vcs.get_code_id()] returns. *)
Record VCS := mkVCS {
  vcs_kind : option string;
  code_id : string
}.

Record TestProgram := mkTestProgram {
  exe : string;
  test_id : string;
  benchmark : string;
  vcs : option VCS;
  submit_template : option string
}.

(** Modelled from the spec: the class [Test] of the [testcode2] library is
    not part of the script.  The fields are the attributes the script reads
    or writes; [status] is the mutable triple (passed, warned, ran) that
    [get_status()] returns. *)
Record Test := mkTest {
  path : string;
  inputs_args : list (string * string);
  nprocs : Z;
  min_nprocs : Z;
  max_nprocs : Z;
  override_nprocs : bool;
  test_program : TestProgram;
  status : Z * Z * Z
}.

Definition get_status (test : Test) : Z * Z * Z := status test.

Definition set_nprocs (n : Z) (test : Test) : Test :=
  mkTest (path test) (inputs_args test) n (min_nprocs test) (max_nprocs test)
         (override_nprocs test) (test_program test) (status test).

Definition set_benchmark (b : string) (p : TestProgram) : TestProgram :=
  mkTestProgram (exe p) (test_id p) b (vcs p) (submit_template p).

Definition set_test_id (t : string) (p : TestProgram) : TestProgram :=
  mkTestProgram (exe p) t (benchmark p) (vcs p) (submit_template p).

Definition set_test_program (p : TestProgram) (test : Test) : Test :=
  mkTest (path test) (inputs_args test) (nprocs test) (min_nprocs test)
         (max_nprocs test) (override_nprocs test) p (status test).

(** ** Initialisation: the processor count of each test *)

(** Body of the loop [for test in tests] of [init_tests]. *)
Definition init_test_nprocs (nprocs_opt : Z) (test : Test) : Test :=
  let test := if negb (override_nprocs test)
              then set_nprocs nprocs_opt test else test in
  let test := if nprocs test <? min_nprocs test
              then set_nprocs (min_nprocs test) test else test in
  let test := if nprocs test >? max_nprocs test
              then set_nprocs (max_nprocs test) test else test in
  test.

(** The block "Set number of processors..." of [init_tests]. *)
Definition init_tests_nprocs (nprocs_opt : Z) (tests : list Test) : list Test :=
  if nprocs_opt >=? 0 then map (init_test_nprocs nprocs_opt) tests else tests.

(** What [init_tests] obtains from the configuration parsers and selectors
    of [testcode2.config], none of which is part of the script. *)
Record ConfigParsers (UserOptions Categories : Type) := mkConfigParsers {
  parse_userconfig :
    string -> list (string * string) -> option string ->
    list (string * list (string * string)) ->
    UserOptions * list (string * TestProgram);
  parse_jobconfig :
    string -> UserOptions -> list (string * TestProgram) ->
    list (string * list (string * string)) ->
    list Test * Categories;
  select_tests : list Test -> Categories -> list string -> string -> list Test;
  get_unique_test_id : list Test -> bool -> UserOptions -> string;
  userconfig_dir : string -> string
}.
Arguments parse_userconfig {_ _}.
Arguments parse_jobconfig {_ _}.
Arguments select_tests {_ _}.
Arguments get_unique_test_id {_ _}.
Arguments userconfig_dir {_ _}.

(** [init_tests].  A test refers to its program by reference, and the final
    loop assigns the same [test_id] to every program, so the assignment is
    visible through [test.test_program] of every test. *)
Definition init_tests {U C} (cfg : ConfigParsers U C)
    (userconfig jobconfig : string) (test_id_opt : option string)
    (reuse_id : bool) (executables : list (string * string))
    (categories : list string) (nprocs_opt : Z)
    (benchmark_opt : option string)
    (userconfig_options jobconfig_options :
       list (string * list (string * string)))
  : U * list (string * TestProgram) * list Test :=
  let '(user_options, test_programs) :=
    parse_userconfig cfg userconfig executables test_id_opt
                     userconfig_options in
  let test_programs :=
    match benchmark_opt with
    | Some b =>
        if truthy benchmark_opt
        then map (fun kp => (fst kp, set_benchmark b (snd kp))) test_programs
        else test_programs
    | None => test_programs
    end in
  let '(tests, test_categories) :=
    parse_jobconfig cfg jobconfig user_options test_programs
                    jobconfig_options in
  let tests := init_tests_nprocs nprocs_opt tests in
  let tests :=
    match categories with
    | [] => tests
    | _ => select_tests cfg tests test_categories categories
                        (userconfig_dir cfg userconfig)
    end in
  if truthy test_id_opt then (user_options, test_programs, tests)
  else
    let tid := get_unique_test_id cfg tests reuse_id user_options in
    (user_options,
     map (fun kp => (fst kp, set_test_id tid (snd kp))) test_programs,
     map (fun t => set_test_program (set_test_id tid (test_program t)) t)
         tests).

(** ** The interpreter state and the monad of the sequential actions *)

(** Calls to collaborators outside the script, in the order they are made. *)
Inductive call :=
| CallRunTest (i : nat) (verbose : bool) (cluster_queue : option string)
| CallVerifyJob (i : nat) (inp args : string) (verbose : bool)
| CallCreateNewBenchmarks (i : nat) (benchmark : string) (since : Z)
| CallGetCodeId (key : string)
| CallInput (prompt : string)
| CallPopen (cmd : string)
| CallConfigRead (file : string)
| CallConfigWrite (file : string) (benchmark : string).

(** The collaborators themselves, over an operating-system state [W].

    [ext_run_test] gives the test object and the operating system as
    [test.run_test] leaves them, and [ext_run_test_raises] the exception with
    which it ends, if it does not return.  For the userconfig file,
    [config_has_section w file section] tells whether [config.read(file)]
    finds the section ([config.set] raises [NoSectionError] otherwise),
    [open_write_raises w file] is the exception of [open(file, 'w')], if
    any, and [config_update] writes the file back with the new benchmark.
    [ext_verify_job], [ext_create_new_benchmarks] and the version-control
    handle of a program are taken to return. *)
Record Externals (W : Type) := mkExternals {
  FILESTEM_test : string;
  FILESTEM_benchmark : string;
  testcode_filename : string -> string -> string -> string -> string;
  path_join : string -> string -> string;
  path_exists : W -> string -> bool;
  getcwd : W -> string;
  chdir : string -> W -> W;
  popen_wait : string -> W -> W;
  ext_run_test : Test -> bool -> option string -> W -> Test * W;
  ext_verify_job : Test -> string -> string -> bool -> W -> Test * W;
  ext_create_new_benchmarks : Test -> string -> Z -> W -> Test * W;
  config_update : string -> string -> W -> W;
  ext_run_test_raises : Test -> bool -> option string -> W -> option exn;
  config_has_section : W -> string -> string -> bool;
  open_write_raises : W -> string -> option exn
}.
Arguments FILESTEM_test {_}.
Arguments FILESTEM_benchmark {_}.
Arguments testcode_filename {_}.
Arguments path_join {_}.
Arguments path_exists {_}.
Arguments getcwd {_}.
Arguments chdir {_}.
Arguments popen_wait {_}.
Arguments ext_run_test {_}.
Arguments ext_verify_job {_}.
Arguments ext_create_new_benchmarks {_}.
Arguments config_update {_}.
Arguments ext_run_test_raises {_}.
Arguments config_has_section {_}.
Arguments open_write_raises {_}.

Record State (W : Type) := mkState {
  st_tests : list Test;
  st_world : W;
  st_stdin : list string;
  st_stdout : list string;
  st_calls : list call
}.
Arguments mkState {_}.
Arguments st_tests {_}.
Arguments st_world {_}.
Arguments st_stdin {_}.
Arguments st_stdout {_}.
Arguments st_calls {_}.

Definition M (W A : Type) : Type := State W -> (exn + A) * State W.

Section Monad.
Context {W : Type}.

Definition ret {A} (a : A) : M W A := fun st => (inr a, st).

Definition bind {A B} (m : M W A) (f : A -> M W B) : M W B :=
  fun st =>
    match m st with
    | (inl e, st') => (inl e, st')
    | (inr a, st') => f a st'
    end.

Definition raise {A} (e : exn) : M W A := fun st => (inl e, st).

Definition get_tests : M W (list Test) := fun st => (inr (st_tests st), st).

Definition get_world : M W W := fun st => (inr (st_world st), st).

Definition set_world (w : W) : M W unit :=
  fun st =>
    (inr tt, mkState (st_tests st) w (st_stdin st) (st_stdout st)
                     (st_calls st)).

(** The test object at position [i] of the list of tests. *)
Definition get_test (i : nat) : M W Test :=
  fun st =>
    match st_tests st !! i with
    | Some test => (inr test, st)
    | None => (inl IndexError, st)
    end.

(** In-place mutation of the test object at position [i]. *)
Definition set_test (i : nat) (test : Test) : M W unit :=
  fun st =>
    (inr tt, mkState (<[i:=test]> (st_tests st)) (st_world st) (st_stdin st)
                     (st_stdout st) (st_calls st)).

Definition print (line : string) : M W unit :=
  fun st =>
    (inr tt, mkState (st_tests st) (st_world st) (st_stdin st)
                     (st_stdout st ++ [line]) (st_calls st)).

Definition log (c : call) : M W unit :=
  fun st =>
    (inr tt, mkState (st_tests st) (st_world st) (st_stdin st)
                     (st_stdout st) (st_calls st ++ [c])).

(** [testcode2.compatibility.compat_input]: one line of standard input. *)
Definition compat_input (prompt : string) : M W string :=
  fun st =>
    let calls := st_calls st ++ [CallInput prompt] in
    match st_stdin st with
    | [] =>
        (inl EOFError,
         mkState (st_tests st) (st_world st) [] (st_stdout st) calls)
    | line :: rest =>
        (inr line,
         mkState (st_tests st) (st_world st) rest (st_stdout st) calls)
    end.
End Monad.

Notation "x <- m ;; k" := (bind m (fun x => k))
  (at level 100, m at next level, right associativity).
Notation "m ;;; k" := (bind m (fun _ => k))
  (at level 100, right associativity).

Section Loops.
Context {W : Type}.

(** [for x in l: body(x)]. *)
Fixpoint for_each {A} (l : list A) (body : A -> M W unit) : M W unit :=
  match l with
  | [] => ret tt
  | x :: l' => body x ;;; for_each l' body
  end.

(** [for x in l: acc = body(x, acc)], for a loop that updates a local. *)
Fixpoint for_fold {A S} (l : list A) (body : A -> S -> M W S) (acc : S)
  : M W S :=
  match l with
  | [] => ret acc
  | x :: l' => acc' <- body x acc ;; for_fold l' body acc'
  end.
End Loops.

(** ** Actions *)

(** What [run_tests] hands over to the threads it starts: the value of the
    [BoundedSemaphore] and the tests, one thread per test in list order. *)
Record launch := mkLaunch {
  capacity : Z;
  jobs : list Test
}.

(** [ans != 'y' and ans != 'n']. *)
Definition not_y_or_n (ans : string) : bool :=
  negb (String.eqb ans "y") && negb (String.eqb ans "n").

(** [while ans != 'y' and ans != 'n': ans = compat_input(prompt)], on the
    lines still to be read: the calls made, the final answer or the
    [EOFError] of [compat_input], and the lines left. *)
Fixpoint ask_loop (prompt ans : string) (stdin : list string)
  : list call * (exn + string) * list string :=
  if not_y_or_n ans then
    match stdin with
    | [] => ([CallInput prompt], inl EOFError, [])
    | line :: rest =>
        let '(calls, r, rest') := ask_loop prompt line rest in
        (CallInput prompt :: calls, r, rest')
    end
  else ([], inr ans, stdin).

(** [vcs[key] = code_id] on a dictionary kept in insertion order. *)
Fixpoint dict_set (key value : string) (d : list (string * string))
  : list (string * string) :=
  match d with
  | [] => [(key, value)]
  | (k, v) :: d' =>
      if String.eqb k key then (k, value) :: d'
      else (k, v) :: dict_set key value d'
  end.

(** The benchmark label from the code identifiers. *)
Definition benchmark_label (vcs_ids : list (string * string)) : string :=
  match vcs_ids with
  | [(_, id)] => id
  | _ => String.concat "." (map (fun kv => fst kv +:+ "-" +:+ snd kv) vcs_ids)
  end.

Definition confirm_prompt : string := "Create new benchmarks? [y/n] ".

Section Actions.
Context {W : Type} (E : Externals W).

(** [test.run_test(verbose, cluster_queue)] called from the main thread:
    whatever it raises escapes the caller, which has no handler. *)
Definition run_test (i : nat) (verbose : bool) (cluster_queue : option string)
  : M W unit :=
  test <- get_test i ;;
  w <- get_world ;;
  log (CallRunTest i verbose cluster_queue) ;;;
  set_test i (fst (ext_run_test E test verbose cluster_queue w)) ;;;
  set_world (snd (ext_run_test E test verbose cluster_queue w)) ;;;
  match ext_run_test_raises E test verbose cluster_queue w with
  | Some e => raise e
  | None => ret tt
  end.

(** [test.verify_job(inp, args, verbose)]. *)
Definition verify_job (i : nat) (inp args : string) (verbose : bool)
  : M W unit :=
  test <- get_test i ;;
  w <- get_world ;;
  log (CallVerifyJob i inp args verbose) ;;;
  set_test i (fst (ext_verify_job E test inp args verbose w)) ;;;
  set_world (snd (ext_verify_job E test inp args verbose w)).

(** [test.create_new_benchmarks(benchmark, copy_files_since)]. *)
Definition create_new_benchmarks (benchmark : string) (since : Z) (i : nat)
  : M W unit :=
  test <- get_test i ;;
  w <- get_world ;;
  log (CallCreateNewBenchmarks i benchmark since) ;;;
  set_test i (fst (ext_create_new_benchmarks E test benchmark since w)) ;;;
  set_world (snd (ext_create_new_benchmarks E test benchmark since w)).

(** [run_tests], up to the point where the threads are started: the result
    is [Some l] when threads are launched with the semaphore of [l], and
    [None] when the tests have been run straight through. *)
Definition run_tests (verbose : bool) (cluster_queue : option string)
    (tot_nprocs : Z) : M W (option launch) :=
  tests <- get_tests ;;
  let tot_nprocs :=
    if (tot_nprocs <=? 0) && truthy cluster_queue
    then sumZ (map nprocs tests) else tot_nprocs in
  if tot_nprocs >? 0 then
    match py_max (map nprocs tests) with
    | inl e => raise e
    | inr max_test_nprocs =>
        if max_test_nprocs >? tot_nprocs then
          raise (TestCodeError
            ("Number of available cores less than the number required by "
             +:+ "the largest test: at least " +:+ str_of_Z max_test_nprocs
             +:+ " needed, " +:+ str_of_Z tot_nprocs +:+ " available."))
        else ret (Some (mkLaunch tot_nprocs tests))
    end
  else
    for_each (seq 0 (length tests))
             (fun i => run_test i verbose cluster_queue) ;;;
    ret None.

(** The name of the test output file of a sub-run, as [compare_tests]
    builds it. *)
Definition compare_test_file (test : Test) (inp args : string) : string :=
  let test_file :=
    testcode_filename E (FILESTEM_test E) (test_id (test_program test))
                      inp args in
  path_join E (path test) test_file.

(** Body of the inner loop of [compare_tests]; the result is the new value
    of [nskipped]. *)
Definition compare_subrun (verbose : bool) (i : nat)
    (inp_args : string * string) (nskipped : Z) : M W Z :=
  test <- get_test i ;;
  let test_file := compare_test_file test (fst inp_args) (snd inp_args) in
  w <- get_world ;;
  if path_exists E w test_file then
    verify_job i (fst inp_args) (snd inp_args) verbose ;;;
    ret nskipped
  else
    (if verbose
     then print ("Skipping comparison.  Test file does not exist: "
                 +:+ test_file +:+ "." +:+ String (Ascii.ascii_of_nat 10) "")
     else ret tt) ;;;
    ret (nskipped + 1).

Definition compare_test (verbose : bool) (i : nat) (nskipped : Z) : M W Z :=
  test <- get_test i ;;
  for_fold (inputs_args test) (compare_subrun verbose i) nskipped.

Definition compare_tests (verbose : bool) : M W Z :=
  tests <- get_tests ;;
  for_fold (seq 0 (length tests)) (compare_test verbose) 0.

(** Body of the inner loop of [diff_tests]. *)
Definition diff_subrun (diff_program : string) (verbose : bool) (i : nat)
    (inp_args : string * string) : M W unit :=
  test <- get_test i ;;
  let benchmark_file :=
    testcode_filename E (FILESTEM_benchmark E)
                      (benchmark (test_program test))
                      (fst inp_args) (snd inp_args) in
  let test_file :=
    testcode_filename E (FILESTEM_test E) (test_id (test_program test))
                      (fst inp_args) (snd inp_args) in
  (if verbose
   then print ("Diffing " +:+ benchmark_file +:+ " and " +:+ test_file
               +:+ " in " +:+ path test +:+ ".")
   else ret tt) ;;;
  w <- get_world ;;
  if negb (path_exists E w test_file)
     || negb (path_exists E w benchmark_file) then
    if verbose
    then print ("Skipping diff: " +:+ test_file +:+ " does not exist.")
    else ret tt
  else
    let diff_cmd :=
      diff_program +:+ " " +:+ benchmark_file +:+ " " +:+ test_file in
    log (CallPopen diff_cmd) ;;;
    set_world (popen_wait E diff_cmd w).

Definition diff_test (diff_program : string) (verbose : bool) (i : nat)
  : M W unit :=
  test <- get_test i ;;
  w <- get_world ;;
  let cwd := getcwd E w in
  set_world (chdir E (path test) w) ;;;
  for_each (inputs_args test) (diff_subrun diff_program verbose i) ;;;
  w' <- get_world ;;
  set_world (chdir E cwd w').

Definition diff_tests (diff_program : string) (verbose : bool) : M W unit :=
  tests <- get_tests ;;
  for_each (seq 0 (length tests)) (diff_test diff_program verbose).
End Actions.

(** [program.vcs and program.vcs.vcs]. *)
Definition under_vcs (program : TestProgram) : option VCS :=
  match vcs program with
  | Some v => if truthy (vcs_kind v) then Some v else None
  | None => None
  end.

(** The sums [npassed], [nwarning] and [nran] over the status triples. *)
Definition npassed_of (tests : list Test) : Z :=
  sumZ (map (fun st => fst (fst st)) (map get_status tests)).
Definition nwarning_of (tests : list Test) : Z :=
  sumZ (map (fun st => snd (fst st)) (map get_status tests)).
Definition nran_of (tests : list Test) : Z :=
  sumZ (map (fun st => snd st) (map get_status tests)).

Section Promotion.
Context {W : Type} (E : Externals W).

(** The confirmation loop, reading from standard input. *)
Definition ask (prompt ans : string) : M W string :=
  fun st =>
    let '(calls, r, rest) := ask_loop prompt ans (st_stdin st) in
    (r, mkState (st_tests st) (st_world st) rest (st_stdout st)
                (st_calls st ++ calls)).

(** Body of the loop "Get vcs info". *)
Definition vcs_info (key_program : string * TestProgram)
    (vcs_ids : list (string * string)) : M W (list (string * string)) :=
  let key := fst key_program in
  match under_vcs (snd key_program) with
  | Some v =>
      log (CallGetCodeId key) ;;;
      ret (dict_set key (code_id v) vcs_ids)
  | None =>
      print "Program not under (known) version control system" ;;;
      id <- compat_input ("Enter revision id for " +:+ key +:+ ": ") ;;
      ret (dict_set key id vcs_ids)
  end.

(** "update userconfig file": [config.read] ignores a file that it cannot
    read (one that it can read is taken to be well formed),
    [config.set('user', 'benchmark', benchmark)] raises [NoSectionError]
    when no section [user] has been read, and the file is opened for writing
    only after that. *)
Definition update_userconfig (userconfig : option string)
    (benchmark : string) : M W unit :=
  match userconfig with
  | Some file =>
      if truthy userconfig then
        print ("Setting new benchmark in userconfig to be " +:+ benchmark
               +:+ ".") ;;;
        log (CallConfigRead file) ;;;
        w <- get_world ;;
        if negb (config_has_section E w file "user")
        then raise (NoSectionError "user")
        else
          match open_write_raises E w file with
          | Some e => raise e
          | None =>
              log (CallConfigWrite file benchmark) ;;;
              set_world (config_update E file benchmark w)
          end
      else ret tt
  | None => ret tt
  end.

(** What [make_benchmarks] does once it is past the question whether all
    tests passed. *)
Definition promote (test_programs : list (string * TestProgram))
    (userconfig : option string) (copy_files_since : Z) : M W unit :=
  vcs_ids <- for_fold test_programs vcs_info [] ;;
  let benchmark := benchmark_label vcs_ids in
  tests <- get_tests ;;
  for_each (seq 0 (length tests))
           (create_new_benchmarks E benchmark copy_files_since) ;;;
  update_userconfig userconfig benchmark.

Definition make_benchmarks (test_programs : list (string * TestProgram))
    (userconfig : option string) (copy_files_since : Z) : M W unit :=
  tests <- get_tests ;;
  let npassed := npassed_of tests in
  let nwarning := nwarning_of tests in
  let nran := nran_of tests in
  if negb (npassed =? nran) then
    print "Not all tests passed." ;;;
    ans <- ask confirm_prompt "" ;;
    if negb (String.eqb ans "y") then ret tt
    else promote test_programs userconfig copy_files_since
  else promote test_programs userconfig copy_files_since.
End Promotion.

Section Status.
Context {W : Type}.

Definition end_status (skipped : Z) (verbose : bool) : M W Z :=
  tests <- get_tests ;;
  let npassed := npassed_of tests in
  let nwarning := nwarning_of tests in
  let nran := nran_of tests in
  let npassed := npassed + nwarning in
  let warning := if nwarning =? 1 then "warning" else "warnings" in
  let test := if nran =? 1 then "test" else "tests" in
  let add_info_msg :=
    if negb (skipped =? 0) && negb (nwarning =? 0) then
      " (" +:+ str_of_Z nwarning +:+ " " +:+ warning +:+ ", "
      +:+ str_of_Z skipped +:+ " skipped)"
    else if negb (skipped =? 0) then
      " (" +:+ str_of_Z skipped +:+ " skipped)"
    else if negb (nwarning =? 0) then
      " (" +:+ str_of_Z nwarning +:+ " " +:+ warning +:+ ")"
    else "" in
  let msg prefix :=
    "All done.  " +:+ prefix +:+ str_of_Z npassed +:+ " out of "
    +:+ str_of_Z nran +:+ " " +:+ test +:+ " passed" +:+ add_info_msg
    +:+ "." in
  (if verbose then
     if npassed =? nran then print (msg "") else print (msg "ERROR: only ")
   else
     print (" [" +:+ str_of_Z npassed +:+ "/" +:+ str_of_Z nran
            +:+ add_info_msg +:+ "]")) ;;;
  let ret_val := if negb (nran =? npassed) then 1 else 0 in
  ret ret_val.
End Status.

(** ** The worker threads of [run_tests] *)

(** The operations of [run_test_worker] on the shared semaphore and lock, and
    the call of [test.run_test]. *)
Inductive instr :=
| LockAcquire    (* semaphore_lock.acquire() *)
| SemAcquire     (* semaphore.acquire() *)
| LockRelease    (* semaphore_lock.release() *)
| RunTest        (* test.run_test(verbose, cluster_queue) *)
| SemRelease.    (* semaphore.release() *)

(** [nprocs_used = max(1, test.nprocs)]. *)
Definition nprocs_used (test : Test) : nat := Z.to_nat (Z.max 1 (nprocs test)).

(** The body of [run_test_worker], with both [for i in range(nprocs_used)]
    loops unrolled. *)
Definition run_test_worker (test : Test) : list instr :=
  [LockAcquire]
  ++ replicate (nprocs_used test) SemAcquire
  ++ [LockRelease]
  ++ [RunTest]
  ++ replicate (nprocs_used test) SemRelease.

(** A thread is between two operations of its worker ([Ready]), inside
    [test.run_test] ([InRunTest]), or dead after an uncaught exception
    ([Raised]). *)
Inductive phase := Ready | InRunTest | Raised.

Record thread := mkThread {
  th_test : Test;
  pc : nat;              (* index of the next operation of the worker *)
  th_phase : phase;
  acquired : Z;          (* calls of semaphore.acquire() that returned *)
  released : Z           (* calls of semaphore.release() that returned *)
}.

Record sys := mkSys {
  sem_value : Z;         (* the counter of the BoundedSemaphore *)
  sem_initial : Z;       (* its initial value, the bound *)
  lock_held : bool;      (* threading.Lock *)
  started : nat;         (* threads on which job.start() has been called *)
  threads : list thread
}.

Definition initial (l : launch) : sys :=
  mkSys (capacity l) (capacity l) false 0
        (map (fun test => mkThread test 0 Ready 0 0) (jobs l)).

Definition set_thread (i : nat) (th : thread) (s : sys) : sys :=
  mkSys (sem_value s) (sem_initial s) (lock_held s) (started s)
        (<[i:=th]> (threads s)).

Definition next (th : thread) : thread :=
  mkThread (th_test th) (S (pc th)) Ready (acquired th) (released th).

Definition with_phase (ph : phase) (th : thread) : thread :=
  mkThread (th_test th) (pc th) ph (acquired th) (released th).

(** One operation of thread [i]; [None] when the thread is blocked. *)
Definition exec_instr (i : nat) (th : thread) (s : sys) (ins : instr)
  : option sys :=
  match ins with
  | LockAcquire =>
      if lock_held s then None
      else Some (mkSys (sem_value s) (sem_initial s) true (started s)
                       (<[i:=next th]> (threads s)))
  | SemAcquire =>
      if sem_value s >? 0 then
        Some (mkSys (sem_value s - 1) (sem_initial s) (lock_held s) (started s)
                (<[i:=mkThread (th_test th) (S (pc th)) Ready
                               (acquired th + 1) (released th)]> (threads s)))
      else None
  | LockRelease =>
      if lock_held s then
        Some (mkSys (sem_value s) (sem_initial s) false (started s)
                    (<[i:=next th]> (threads s)))
      else Some (set_thread i (with_phase Raised th) s)
  | RunTest => Some (set_thread i (with_phase InRunTest th) s)
  | SemRelease =>
      if sem_value s >=? sem_initial s then
        (* ValueError: Semaphore released too many times *)
        Some (set_thread i (with_phase Raised th) s)
      else
        Some (mkSys (sem_value s + 1) (sem_initial s) (lock_held s) (started s)
                (<[i:=mkThread (th_test th) (S (pc th)) Ready
                               (acquired th) (released th + 1)]> (threads s)))
  end.

(** Moves of the system: the main thread starts the next job; a started
    thread performs its next operation or returns from [test.run_test];
    [test.run_test] raises in a thread. *)
Inductive label :=
| Start
| Step (i : nat)
| Raise (i : nat).

Definition step (l : label) (s : sys) : option sys :=
  match l with
  | Start =>
      if (started s <? length (threads s))%nat
      then Some (mkSys (sem_value s) (sem_initial s) (lock_held s)
                       (S (started s)) (threads s))
      else None
  | Step i =>
      if (i <? started s)%nat then
        match threads s !! i with
        | Some th =>
            match th_phase th with
            | Raised => None
            | InRunTest => Some (set_thread i (next th) s)
            | Ready =>
                match run_test_worker (th_test th) !! pc th with
                | Some ins => exec_instr i th s ins
                | None => None
                end
            end
        | None => None
        end
      else None
  | Raise i =>
      if (i <? started s)%nat then
        match threads s !! i with
        | Some th =>
            match th_phase th with
            | InRunTest => Some (set_thread i (with_phase Raised th) s)
            | _ => None
            end
        | None => None
        end
      else None
  end.

(** A schedule is a sequence of moves; [run] is [None] as soon as a move of
    the schedule is not possible. *)
Fixpoint run (sched : list label) (s : sys) : option sys :=
  match sched with
  | [] => Some s
  | l :: sched' =>
      match step l s with
      | Some s' => run sched' s'
      | None => None
      end
  end.

Definition in_run_test (th : thread) : bool :=
  match th_phase th with InRunTest => true | _ => false end.

(** Units committed to the tests that are executing. *)
Definition committed (s : sys) : Z :=
  sumZ (map (fun th => if in_run_test th
                       then Z.of_nat (nprocs_used (th_test th)) else 0)
            (threads s)).

(** Units a thread holds. *)
Definition held (th : thread) : Z := acquired th - released th.

(** The worker has performed all its operations. *)
Definition finished (th : thread) : Prop :=
  th_phase th = Ready /\ pc th = length (run_test_worker (th_test th)).

(** [test.run_test] has returned in the thread. *)
Definition returned (th : thread) : Prop :=
  th_phase th = Ready /\ (S (S (nprocs_used (th_test th))) < pc th)%nat.

(** The bookkeeping of a thread agrees with its position in the worker:
    before [test.run_test] it has acquired one unit per [semaphore.acquire()]
    it is past, afterwards it has released one unit per
    [semaphore.release()] it is past. *)
Definition thread_ok (th : thread) : Prop :=
  let n := Z.of_nat (nprocs_used (th_test th)) in
  let p := Z.of_nat (pc th) in
  acquired th = Z.min (Z.max (p - 1) 0) n /\
  released th = Z.max (p - (n + 3)) 0 /\
  p <= 2 * n + 3 /\
  (th_phase th = InRunTest -> p = n + 2).

(** A thread is registering with the semaphore: it is past
    [semaphore_lock.acquire()] and not yet past [semaphore_lock.release()]. *)
Definition registering (th : thread) : Prop :=
  (1 <= pc th <= nprocs_used (th_test th) + 1)%nat.

Definition critical (th : thread) : Z :=
  if decide (registering th) then 1 else 0.

(** The invariant of the semaphore and the lock: the counter is never
    negative, the counter and the units held by the threads add up to the
    bound, and the lock is held exactly when one thread is registering. *)
Definition sys_ok (s : sys) : Prop :=
  0 <= sem_value s /\
  sem_value s + sumZ (map held (threads s)) = sem_initial s /\
  sumZ (map critical (threads s)) = (if lock_held s then 1 else 0) /\
  (forall i th, threads s !! i = Some th ->
     thread_ok th /\
     ((started s <= i)%nat -> pc th = 0%nat /\ th_phase th = Ready)).

(** ** A small test double

    An operating system that is just the list of the files that exist, with
    collaborators that leave it alone and never raise; [verify_job] records
    one passed sub-run.  Userconfig files are outside this operating system:
    each is taken to have a section [user] and to be writable.  It is used
    to run the actions on concrete inputs. *)

Definition sample_program : TestProgram :=
  mkTestProgram "prog.x" "today" "bench1" None None.

Definition sample_test (nprocs : Z) (status : Z * Z * Z) : Test :=
  mkTest "job" [("in1", ""); ("in2", "")] nprocs 0 8 false sample_program
         status.

Definition record_pass (test : Test) : Test :=
  mkTest (path test) (inputs_args test) (nprocs test) (min_nprocs test)
         (max_nprocs test) (override_nprocs test) (test_program test)
         (let '(passed, warned, ran) := status test in
          (passed + 1, warned, ran + 1)).

Definition sample_externals : Externals (list string) :=
  mkExternals (list string)
    "test.out" "benchmark.out"
    (fun stem file_id inp args =>
       stem +:+ "." +:+ file_id +:+ ".inp=" +:+ inp)
    (fun dir file => dir +:+ "/" +:+ file)
    (fun files file => existsb (String.eqb file) files)
    (fun _ => ".")
    (fun _ files => files)
    (fun _ files => files)
    (fun test _ _ files => (test, files))
    (fun test _ _ _ files => (record_pass test, files))
    (fun test _ _ files => (test, files))
    (fun _ _ files => files)
    (fun _ _ _ _ => None)
    (fun _ _ _ => true)
    (fun _ _ => None).

Definition sample_state (tests : list Test) (files stdin : list string)
  : State (list string) :=
  mkState tests files stdin [] [].

(** Scenario B of the specification: two tests on 2 and 3 processors under
    a budget of 3, at the moment the first test executes and the second
    waits for the semaphore. *)
Definition scenario_B_state : State (list string) :=
  sample_state [sample_test 2 (0, 0, 0); sample_test 3 (0, 0, 0)] [] [].

Definition scenario_B_launch : launch :=
  mkLaunch 3 [sample_test 2 (0, 0, 0); sample_test 3 (0, 0, 0)].

Definition scenario_B_schedule : list label :=
  [Start; Start; Step 0; Step 0; Step 0; Step 0; Step 0; Step 1; Step 1].

(** Scenario C of the specification: one test on 2 processors, budget 1. *)
Definition scenario_C_state : State (list string) :=
  sample_state [sample_test 2 (0, 0, 0)] [] [].

(** One test on 2 processors under a budget of 2: the worker registers,
    calls [test.run_test], and then either [test.run_test] raises or it
    returns. *)
Definition one_test_state : State (list string) :=
  sample_state [sample_test 2 (0, 0, 0)] [] [].

Definition one_test_launch : launch := mkLaunch 2 [sample_test 2 (0, 0, 0)].

Definition schedule_to_run_test : list label :=
  [Start; Step 0; Step 0; Step 0; Step 0; Step 0].

Definition schedule_raising : list label := schedule_to_run_test ++ [Raise 0].

Definition schedule_returning : list label := schedule_to_run_test ++ [Step 0].

(** Two tests sent to a cluster with no total given: a serial test
    ([nprocs = 0]) and a test on 2 processors. *)
Definition cluster_state : State (list string) :=
  sample_state [sample_test 0 (0, 0, 0); sample_test 2 (0, 0, 0)] [] [].

Definition cluster_launch : launch :=
  mkLaunch 2 [sample_test 0 (0, 0, 0); sample_test 2 (0, 0, 0)].

(** Two serial tests sent to a cluster with no total given. *)
Definition serial_cluster_state : State (list string) :=
  sample_state [sample_test 0 (0, 0, 0); sample_test 0 (0, 0, 0)] [] [].

(** The same interpreter state with another list of tests. *)
Definition with_tests {W} (tests : list Test) (st : State W) : State W :=
  mkState tests (st_world st) (st_stdin st) (st_stdout st) (st_calls st).

(** A test that keeps its own processor count ([override_nprocs]) and is
    configured with one processor although it needs at least two. *)
Definition override_test_below_min : Test :=
  mkTest "job" [("in1", "")] 1 2 8 true sample_program (0, 0, 0).

(** A test that keeps its own processor count, within its bounds. *)
Definition override_test_in_bounds : Test :=
  mkTest "job" [("in1", "")] 4 2 8 true sample_program (0, 0, 0).

(** ** Relations between the state before and after an action *)

(** An action keeps a relation [R] when [R] holds between the state it
    starts in and the state it ends in, whether it returns or raises. *)
Definition keeps {W A} (R : State W -> State W -> Prop) (m : M W A) : Prop :=
  forall st, R st (snd (m st)).

(** The list of test objects is left as it is. *)
Definition same_tests {W} (st st' : State W) : Prop :=
  st_tests st' = st_tests st.

(** The call log is extended by calls that all satisfy [Q]. *)
Definition logs {W} (Q : call -> Prop) (st st' : State W) : Prop :=
  exists calls, st_calls st' = st_calls st ++ calls /\ Forall Q calls.

(** The calls of [test.verify_job]. *)
Definition is_verify_call (c : call) : Prop :=
  match c with
  | CallVerifyJob _ _ _ _ => True
  | _ => False
  end.

(** The number of sub-runs of a list of tests. *)
Definition subruns (tests : list Test) : nat :=
  sum_list (map (fun test => length (inputs_args test)) tests).

(** A test with two sub-runs of which only the first has produced its test
    output file; no benchmark file exists. *)
Definition half_run_state : State (list string) :=
  sample_state [sample_test 1 (0, 0, 0)] ["job/test.out.today.inp=in1";
                                           "test.out.today.inp=in1"] [].

(** What one sub-run does to the skip count and the call log: it adds one
    to exactly one of them. *)
Definition subrun_effect {W} (i : nat) (n : nat) (acc : Z) (st : State W)
    (r : (exn + Z) * State W) : Prop :=
  exists acc' calls,
    fst r = inr acc' /\
    length (st_tests (snd r)) = length (st_tests st) /\
    (forall j, j <> i -> st_tests (snd r) !! j = st_tests st !! j) /\
    st_calls (snd r) = st_calls st ++ calls /\
    Forall is_verify_call calls /\
    acc <= acc' /\
    acc' + Z.of_nat (length calls) = acc + Z.of_nat n.

(** Scenario E of the specification: 3 of 4 sub-runs passed, and the
    operator answers the question first with something else and then with
    ['n']. *)
Definition scenario_E_state : State (list string) :=
  sample_state [sample_test 1 (3, 0, 4)] [] ["maybe"; "n"; "y"].

(** One program, under git. *)
Definition git_programs : list (string * TestProgram) :=
  [("prog", mkTestProgram "prog.x" "today" "bench1"
              (Some (mkVCS (Some "git") "abc123")) None)].

(** The calls other than the question whether to create new benchmarks. *)
Definition not_confirmation (c : call) : Prop := c <> CallInput confirm_prompt.

(** ** Further notions about the worker threads *)

(** [test.run_test] raises in some thread at this move. *)
Definition is_raise (l : label) : bool :=
  match l with
  | Raise _ => true
  | _ => false
  end.

(** No worker has died. *)
Definition none_raised (s : sys) : Prop :=
  forall i th, threads s !! i = Some th -> th_phase th <> Raised.

(** Every worker has performed all its operations. *)
Definition all_finished (s : sys) : Prop :=
  forall i th, threads s !! i = Some th -> finished th.

(** One test on 2 processors under a budget of 2, run to its end. *)
Definition schedule_to_the_end : list label :=
  schedule_returning ++ [Step 0; Step 0].

(** ** Further notions about the sequential actions *)

(** The calls that start the diff program. *)
Definition is_popen_call (c : call) : Prop :=
  match c with
  | CallPopen _ => True
  | _ => False
  end.

(** The calls that read a line from the operator. *)
Definition is_input_call (c : call) : Prop :=
  match c with
  | CallInput _ => True
  | _ => False
  end.

(** The working directory is the one the action started in. *)
Definition same_cwd {W} (E : Externals W) (st st' : State W) : Prop :=
  getcwd E (st_world st') = getcwd E (st_world st).

(** Standard input is left unread. *)
Definition same_stdin {W} (st st' : State W) : Prop :=
  st_stdin st' = st_stdin st.

(** A test double whose operating system is the working directory and the
    list of the files that exist. *)
Definition cwd_externals : Externals (string * list string) :=
  mkExternals (string * list string)
    "test.out" "benchmark.out"
    (fun stem file_id inp args =>
       stem +:+ "." +:+ file_id +:+ ".inp=" +:+ inp)
    (fun dir file => dir +:+ "/" +:+ file)
    (fun w file => existsb (String.eqb file) (snd w))
    (fun w => fst w)
    (fun dir w => (dir, snd w))
    (fun _ w => w)
    (fun test _ _ w => (test, w))
    (fun test _ _ _ w => (record_pass test, w))
    (fun test _ _ w => (test, w))
    (fun _ _ w => w)
    (fun _ _ _ _ => None)
    (fun _ _ _ => true)
    (fun _ _ => None).

Definition cwd_state : State (string * list string) :=
  mkState [sample_test 1 (0, 0, 0)]
          ("/home/tester", ["test.out.today.inp=in1";
                            "benchmark.out.bench1.inp=in1"])
          [] [] [].

(** The code identifier that [make_benchmarks] uses for a program under
    version control. *)
Definition vcs_code_id (program : TestProgram) : string :=
  match under_vcs program with
  | Some v => code_id v
  | None => ""
  end.

(** Two programs under version control. *)
Definition two_git_programs : list (string * TestProgram) :=
  [("castep", mkTestProgram "castep.x" "today" "bench1"
                (Some (mkVCS (Some "git") "abc123")) None);
   ("onetep", mkTestProgram "onetep.x" "today" "bench1"
                (Some (mkVCS (Some "svn") "r42")) None)].

(** 3 of 4 sub-runs passed and the operator agrees at the second attempt. *)
Definition agreeing_state : State (list string) :=
  sample_state [sample_test 1 (3, 0, 4)] [] ["yes"; "y"; "left over"].

(** 3 of 4 sub-runs passed and the operator never answers ['y'] or ['n']. *)
Definition mumbling_state : State (list string) :=
  sample_state [sample_test 1 (3, 0, 4)] [] ["yes"; "no"].

(** ** The command line

    [parse_cmdline_args] after [parser.parse_args]: the defaults for the
    actions and the category, the check of the actions, the executables, the
    file stems and the user and job options. *)

(** The values of the options as [optparse] returns them. *)
Record Options := mkOptions {
  opt_benchmark : option string;
  opt_category : list string;
  opt_executable : list string;
  opt_jobconfig : string;
  opt_job_option : list (string * string * string);
  opt_older_than : Z;
  opt_nprocs : Z;
  opt_verbose : bool;
  opt_queue_system : option string;
  opt_test_id : option string;
  opt_tot_nprocs : Z;
  opt_userconfig : string;
  opt_user_option : list (string * string * string)
}.

(** The options as [parse_cmdline_args] returns them: the executables have
    become a dictionary and the user and job options dictionaries of
    dictionaries. *)
Record ParsedOptions := mkParsedOptions {
  po_benchmark : option string;
  po_category : list string;
  po_executable : gmap string string;
  po_jobconfig : string;
  po_job_option : gmap string (gmap string string);
  po_older_than : Z;
  po_nprocs : Z;
  po_verbose : bool;
  po_queue_system : option string;
  po_test_id : option string;
  po_tot_nprocs : Z;
  po_userconfig : string;
  po_user_option : gmap string (gmap string string)
}.

(** The entries ['test'] and ['benchmark'] of [testcode2.FILESTEM]. *)
Record FileStem := mkFileStem {
  fs_test : string;
  fs_benchmark : string
}.

Definition allowed_actions : list string :=
  ["compare"; "run"; "diff"; "tidy"; "make-benchmarks"].

(** [x in l] for strings. *)
Definition str_in (x : string) (l : list string) : bool :=
  existsb (String.eqb x) l.

(** [s.split(sep)] for a separator of one character. *)
Fixpoint split_on (sep : Ascii.ascii) (s : string) : list string :=
  match s with
  | EmptyString => [EmptyString]
  | String c s' =>
      if Ascii.eqb c sep then EmptyString :: split_on sep s'
      else
        match split_on sep s' with
        | word :: words => String c word :: words
        | [] => [String c EmptyString]
        end
  end.

(** [s[n:]]. *)
Fixpoint str_drop (n : nat) (s : string) : string :=
  match n, s with
  | O, _ => s
  | S n', String _ s' => str_drop n' s'
  | S _, EmptyString => EmptyString
  end.

(** "Default action". *)
Definition default_action (args : list string) : list string :=
  if match args with [] => true | _ => false end
     || (str_in "make-benchmarks" args && negb (str_in "compare" args)
         && negb (str_in "run" args))
  then args ++ ["run"] else args.

(** "Default category". *)
Definition default_category (category args : list string) : list string :=
  match category with
  | [] =>
      if str_in "run" args && negb (str_in "make-benchmarks" args)
      then ["_default_"] else ["_all_"]
  | _ => category
  end.

(** The character ['=']. *)
Definition equals_sign : Ascii.ascii := Ascii.ascii_of_nat 61.

(** Body of the loop over [options.executable]. *)
Definition set_executable (exe : gmap string string) (item : string)
  : gmap string string :=
  match split_on equals_sign item with
  | [word] => <["_tc_all" := word]> exe
  | name :: value :: _ => <[name := value]> exe
  | [] => exe
  end.

(** [opt[section][option] = value]; the section is always there. *)
Definition set_option (opt : gmap string (gmap string string))
    (setting : string * string * string) : gmap string (gmap string string) :=
  let '(section, name, value) := setting in
  match opt !! section with
  | Some d => <[section := <[name := value]> d]> opt
  | None => opt
  end.

(** "Convert job-options and user-options to dict of dicsts format". *)
Definition options_dict (uj_opt : list (string * string * string))
  : gmap string (gmap string string) :=
  let opt : gmap string (gmap string string) :=
    list_to_map (map (fun setting => (fst (fst setting), ∅)) uj_opt) in
  foldl set_option opt uj_opt.

(** [parse_cmdline_args]: what is printed, and either the exit code of
    [sys.exit] or the options, the actions and the new value of
    [testcode2.FILESTEM].  [parse_args] is the [optparse] parser and [usage]
    what [parser.print_usage()] prints. *)
Definition parse_cmdline_args
    (parse_args : list string -> Z + Options * list string) (usage : string)
    (FILESTEM : FileStem) (args : list string)
  : list string * (Z + ParsedOptions * list string * FileStem) :=
  match parse_args args with
  | inl code => ([], inl code)
  | inr (options, args) =>
      let args := default_action args in
      let category := default_category (opt_category options) args in
      if existsb (fun arg => negb (str_in arg allowed_actions)) args then
        (["At least one action is not understood: "
          +:+ String.concat " " args +:+ "."; usage], inl 1)
      else
        let exe := foldl set_executable ∅ (opt_executable options) in
        let '(filestem_benchmark, benchmark) :=
          match opt_benchmark options with
          | Some b =>
              if truthy (Some b) && String.eqb (String.substring 0 2 b) "t:"
              then (fs_test FILESTEM, Some (str_drop 2 b))
              else (fs_benchmark FILESTEM, Some b)
          | None => (fs_benchmark FILESTEM, None)
          end in
        let '(filestem_test, test_id) :=
          match opt_test_id options with
          | Some t =>
              if truthy (Some t) && String.eqb (String.substring 0 2 t) "b:"
              then (fs_benchmark FILESTEM, Some (str_drop 2 t))
              else (fs_test FILESTEM, Some t)
          | None => (fs_test FILESTEM, None)
          end in
        if negb (String.eqb filestem_test (fs_test FILESTEM))
           && str_in "run" args then
          (["Not allowed to set test filename to be a benchmark filename "
            +:+ "when running calculations."], inl 1)
        else
          ([],
           inr (mkParsedOptions benchmark category exe
                  (opt_jobconfig options)
                  (options_dict (opt_job_option options))
                  (opt_older_than options) (opt_nprocs options)
                  (opt_verbose options) (opt_queue_system options) test_id
                  (opt_tot_nprocs options) (opt_userconfig options)
                  (options_dict (opt_user_option options)),
                args, mkFileStem filestem_test filestem_benchmark))
  end.

(** The value that the last matching triple gives to an option of a
    section. *)
Definition last_setting (uj_opt : list (string * string * string))
    (section name : string) : option string :=
  foldl (fun acc setting =>
           if String.eqb (fst (fst setting)) section
              && String.eqb (snd (fst setting)) name
           then Some (snd setting) else acc)
        None uj_opt.

(** A parser that finds no options and takes every argument as an action,
    and one that finds the test id [b:old]. *)
Definition no_options : Options :=
  mkOptions None [] [] "jobconfig" [] 14 (-1) true None None (-1)
            "userconfig" [].

Definition bare_parser (args : list string) : Z + Options * list string :=
  inr (no_options, args).

Definition benchmark_as_test_parser (args : list string)
  : Z + Options * list string :=
  inr (mkOptions None [] [] "jobconfig" [] 14 (-1) true None (Some "b:old")
                 (-1) "userconfig" [], args).

Definition default_filestem : FileStem := mkFileStem "test.out" "benchmark.out".

(** [opt[section][name]], when both keys are there. *)
Definition option_value (opt : gmap string (gmap string string))
    (section name : string) : option string :=
  match opt !! section with
  | Some d => d !! name
  | None => None
  end.

(** The string has no ['=']. *)
Definition no_equals_sign (s : string) : Prop :=
  ~ In equals_sign (String.list_ascii_of_string s).

(** ** Tidying up and the header *)

(** What [tidy_tests] needs from the operating system besides [Externals]:
    the clock, the age limit [time.time() - 86400*ndays] (floating-point
    arithmetic, kept abstract), [glob.glob], the comparison
    [os.stat(test_file)[-2] < epoch_time] and [os.remove]. *)
Record TidyExternals (W Time : Type) := mkTidyExternals {
  time_now : W -> Time;
  days_before : Time -> Z -> Time;
  glob : W -> string -> list string;
  modified_before : W -> string -> Time -> bool;
  remove : string -> W -> W
}.
Arguments time_now {_ _}.
Arguments days_before {_ _}.
Arguments glob {_ _}.
Arguments modified_before {_ _}.
Arguments remove {_ _}.

Definition tidy_prompt : string := "Confirm [y/n]: ".

Section Tidy.
Context {W Time : Type} (E : Externals W) (T : TidyExternals W Time).

(** Body of the loop over the files that match a glob. *)
Definition tidy_file (epoch_time : Time) (test_file : string) : M W unit :=
  w <- get_world ;;
  if modified_before T w test_file epoch_time
  then set_world (remove T test_file w)
  else ret tt.

Definition tidy_glob (epoch_time : Time) (test_glob : string) : M W unit :=
  w <- get_world ;;
  for_each (glob T w test_glob) (tidy_file epoch_time).

Definition tidy_test (epoch_time : Time) (test_globs : list string) (i : nat)
  : M W unit :=
  test <- get_test i ;;
  w <- get_world ;;
  let cwd := getcwd E w in
  set_world (chdir E (path test) w) ;;;
  for_each test_globs (tidy_glob epoch_time) ;;;
  w' <- get_world ;;
  set_world (chdir E cwd w').

Definition tidy_tests (ndays : Z) (submit_templates : list string)
  : M W unit :=
  w <- get_world ;;
  let epoch_time := days_before T (time_now T w) ndays in
  let test_globs :=
    ["test.out*"; "test.err*"]
    ++ match submit_templates with
       | [] => []
       | _ => map (fun tmpl => tmpl +:+ "*") submit_templates
       end in
  print ("Delete all " +:+ String.concat " " test_globs
         +:+ " files older than " +:+ str_of_Z ndays
         +:+ " days from each job directory?") ;;;
  ans <- ask tidy_prompt "" ;;
  if String.eqb ans "n" then print "No files deleted."
  else
    tests <- get_tests ;;
    for_each (seq 0 (length tests)) (tidy_test epoch_time test_globs).
End Tidy.

Section Header.
Context {W : Type}.

(** [start_status].  The executables are printed once each; the order in
    which Python goes through the set of them is not fixed, here it is the
    order of first occurrence. *)
Definition start_status (running verbose : bool) : M W unit :=
  if verbose then
    tests <- get_tests ;;
    let exes := remove_dups (map (fun test => exe (test_program test)) tests) in
    (if running
     then for_each exes
            (fun exe => print ("Using executable: " +:+ exe +:+ "."))
     else ret tt) ;;;
    match tests with
    | [] => raise IndexError
    | test0 :: _ =>
        print ("Test id: " +:+ test_id (test_program test0) +:+ ".") ;;;
        print ("Benchmark: " +:+ benchmark (test_program test0) +:+ ".") ;;;
        print ""
    end
  else ret tt.
End Header.

(** A test double for tidying: every file that matches is older than the
    limit, and removing a file takes it off the list of files. *)
Definition tidy_double : TidyExternals (list string) Z :=
  mkTidyExternals (list string) Z
    (fun _ => 1000000)
    (fun now ndays => now - 86400 * ndays)
    (fun files _ => files)
    (fun _ _ _ => true)
    (fun file files => filter (fun f => negb (String.eqb f file)) files).

Definition tidy_state (answers : list string) : State (list string) :=
  sample_state [sample_test 1 (0, 0, 0)] ["test.out.today.inp=in1"] answers.

(** ** Admission of all tests at once *)

(** The thread of the test at position [i] once the first [k] workers have
    registered with the semaphore and called [test.run_test], the others
    not having begun. *)
Definition admitted_thread (k i : nat) (test : Test) : thread :=
  if (i <? k)%nat
  then mkThread test (nprocs_used test + 2) InRunTest
                (Z.of_nat (nprocs_used test)) 0
  else mkThread test 0 Ready 0 0.

(** The system in which all jobs are started and the first [k] tests are
    executing. *)
Definition admitted (l : launch) (k : nat) : sys :=
  mkSys (capacity l
         - sumZ (map (fun test => Z.of_nat (nprocs_used test))
                     (take k (jobs l))))
        (capacity l) false (length (jobs l))
        (imap (admitted_thread k) (jobs l)).

(** Scenario A of the specification: tests on 2 and 3 processors, budget
    5. *)
Definition scenario_A_launch : launch :=
  mkLaunch 5 [sample_test 2 (0, 0, 0); sample_test 3 (0, 0, 0)].



(** ** The sub-runs of a list of tests

    The sub-runs in the order in which the two loops of [compare_tests]
    meet them: the position of the test in the list and the pair
    [(inp, args)]. *)
Fixpoint subruns_from (a : nat) (tests : list Test)
  : list (nat * (string * string)) :=
  match tests with
  | [] => []
  | test :: tests' =>
      map (fun inp_args => (a, inp_args)) (inputs_args test)
      ++ subruns_from (S a) tests'
  end.

Definition all_subruns (tests : list Test) : list (nat * (string * string)) :=
  subruns_from 0 tests.

(** Whether the test output file of the sub-run [s] exists in the state
    [st]. *)
Definition test_file_exists {W} (E : Externals W) (st : State W)
    (s : nat * (string * string)) : bool :=
  match st_tests st !! fst s with
  | Some test =>
      path_exists E (st_world st)
        (compare_test_file E test (fst (snd s)) (snd (snd s)))
  | None => false
  end.

Definition test_file_missing {W} (E : Externals W) (st : State W)
    (s : nat * (string * string)) : bool :=
  negb (test_file_exists E st s).

(** The call of [test.verify_job] for the sub-run [s]. *)
Definition verify_call (verbose : bool) (s : nat * (string * string)) : call :=
  CallVerifyJob (fst s) (fst (snd s)) (snd (snd s)) verbose.

(** [test.verify_job] neither creates nor removes a file, and leaves the
    directory and the test id of its test as they are: which test output
    files exist does not change while the tests are compared. *)
Definition verify_job_keeps_files {W} (E : Externals W) (verbose : bool)
  : Prop :=
  forall test inp args w,
    (forall file,
        path_exists E (snd (ext_verify_job E test inp args verbose w)) file
        = path_exists E w file) /\
    path (fst (ext_verify_job E test inp args verbose w)) = path test /\
    test_id (test_program (fst (ext_verify_job E test inp args verbose w)))
    = test_id (test_program test).

(** The same files exist in [st'] as in [st], and the tests of [st'] are as
    many, in the same directories and under the same test ids. *)
Definition same_test_files {W} (E : Externals W) (st st' : State W) : Prop :=
  length (st_tests st') = length (st_tests st) /\
  (forall file,
      path_exists E (st_world st') file = path_exists E (st_world st) file) /\
  (forall j test test',
      st_tests st !! j = Some test -> st_tests st' !! j = Some test' ->
      path test' = path test /\
      test_id (test_program test') = test_id (test_program test)).

(** ** What the loop "Create benchmarks" leaves behind

    The test objects and the operating system once
    [test.create_new_benchmarks(benchmark, copy_files_since)] has been called
    on each test in turn, each call finding the operating system as the
    call before it left it. *)
Fixpoint create_all {W} (E : Externals W) (benchmark : string) (since : Z)
    (tests : list Test) (w : W) : list Test * W :=
  match tests with
  | [] => ([], w)
  | test :: tests' =>
      let r := ext_create_new_benchmarks E test benchmark since w in
      let rs := create_all E benchmark since tests' (snd r) in
      (fst r :: fst rs, snd rs)
  end.

(** The calls of [test.create_new_benchmarks] on [n] tests. *)
Definition create_calls (n : nat) (benchmark : string) (since : Z)
  : list call :=
  map (fun i => CallCreateNewBenchmarks i benchmark since) (seq 0 n).

(** The line printed before the userconfig file is touched. *)
Definition userconfig_notice (benchmark : string) : string :=
  "Setting new benchmark in userconfig to be " +:+ benchmark +:+ ".".

(** ** A test double with userconfig files

    The operating system is the list of the files that exist together
    with, for each userconfig file that has a section [user], the benchmark
    named there.  [create_new_benchmarks] adds a benchmark file to the
    directory of its test, [run_test] raises for a test whose directory is
    ["nowhere"], and rewriting a userconfig file sets its benchmark. *)
Definition userconfig_externals
  : Externals (list string * list (string * string)) :=
  mkExternals (list string * list (string * string))
    "test.out" "benchmark.out"
    (fun stem file_id inp args =>
       stem +:+ "." +:+ file_id +:+ ".inp=" +:+ inp)
    (fun dir file => dir +:+ "/" +:+ file)
    (fun w file => existsb (String.eqb file) (fst w))
    (fun _ => ".")
    (fun _ w => w)
    (fun _ w => w)
    (fun test _ _ w => (test, w))
    (fun test _ _ _ w => (record_pass test, w))
    (fun test benchmark _ w =>
       (test, (fst w ++ [path test +:+ "/benchmark.out." +:+ benchmark],
               snd w)))
    (fun file benchmark w => (fst w, dict_set file benchmark (snd w)))
    (fun test _ _ _ =>
       if String.eqb (path test) "nowhere"
       then Some (OSError "nowhere") else None)
    (fun w file section =>
       String.eqb section "user"
       && existsb (fun kv => String.eqb (fst kv) file) (snd w))
    (fun _ _ => None).

(** A test in the directory [dir] with one sub-run that has not run. *)
Definition test_in (dir : string) : Test :=
  mkTest dir [("in1", "")] 1 0 8 false sample_program (0, 0, 0).

(** No sub-run has run, and the userconfig file names the benchmark
    ["bench1"] in its section [user]. *)
Definition fresh_state : State (list string * list (string * string)) :=
  mkState [test_in "h2o"; test_in "co2"]
          (["userconfig"], [("userconfig", "bench1")]) [] [] [].

(** No sub-run has run, and the userconfig file has no section [user]. *)
Definition no_user_section_state
  : State (list string * list (string * string)) :=
  mkState [test_in "h2o"; test_in "co2"] (["userconfig"], []) [] [] [].


(** * Properties *)

(** ** Sums *)

Lemma sumZ_cons (x : Z) (l : list Z) : sumZ (x :: l) = x + sumZ l.
Proof. reflexivity. Qed.

Lemma sumZ_app (l1 l2 : list Z) : sumZ (l1 ++ l2) = sumZ l1 + sumZ l2.
Proof.
  induction l1 as [|x l1 IH]; [reflexivity|].
  rewrite <- app_comm_cons, !sumZ_cons, IH. lia.
Qed.

Lemma sumZ_perm (l1 l2 : list Z) : Permutation l1 l2 -> sumZ l1 = sumZ l2.
Proof.
  induction 1; rewrite ?sumZ_cons; lia.
Qed.

Lemma sumZ_map_le {A} (f g : A -> Z) (l : list A) :
  (forall x, In x l -> f x <= g x) -> sumZ (map f l) <= sumZ (map g l).
Proof.
  induction l as [|x l IH]; intros H; [reflexivity|].
  cbn [map]. rewrite !sumZ_cons.
  assert (f x <= g x) by (apply H; left; reflexivity).
  assert (sumZ (map f l) <= sumZ (map g l))
    by (apply IH; intros; apply H; right; assumption).
  lia.
Qed.

Lemma sumZ_map_nonneg {A} (f : A -> Z) (l : list A) :
  (forall x, In x l -> 0 <= f x) -> 0 <= sumZ (map f l).
Proof.
  induction l as [|x l IH]; intros H; [reflexivity|].
  cbn [map]. rewrite sumZ_cons.
  assert (0 <= f x) by (apply H; left; reflexivity).
  assert (0 <= sumZ (map f l)) by (apply IH; intros; apply H; right; assumption).
  lia.
Qed.

Lemma sumZ_map_insert {A} (f : A -> Z) (l : list A) (i : nat) (x y : A) :
  l !! i = Some x ->
  sumZ (map f (<[i:=y]> l)) = sumZ (map f l) - f x + f y.
Proof.
  revert i. induction l as [|a l IH]; intros [|i] H; try discriminate.
  - injection H as ->. cbn [insert list_insert map]. rewrite !sumZ_cons. lia.
  - pose proof (IH i H) as IH'.
    change (<[S i:=y]> (a :: l)) with (a :: <[i:=y]> l).
    cbn [map]. rewrite !sumZ_cons, IH'. lia.
Qed.

Lemma sumZ_map_lookup_le {A} (f : A -> Z) (l : list A) (i : nat) (x : A) :
  (forall y, In y l -> 0 <= f y) -> l !! i = Some x -> f x <= sumZ (map f l).
Proof.
  revert i. induction l as [|a l IH]; intros [|i] Hpos H; try discriminate.
  - injection H as ->. cbn [map]. rewrite sumZ_cons.
    assert (0 <= sumZ (map f l))
      by (apply sumZ_map_nonneg; intros; apply Hpos; right; assumption).
    lia.
  - cbn [map]. rewrite sumZ_cons. cbn in H.
    assert (f x <= sumZ (map f l))
      by (apply (IH i); [intros; apply Hpos; right; assumption | assumption]).
    assert (0 <= f a) by (apply Hpos; left; reflexivity).
    lia.
Qed.

(** ** The operations of a worker, by position *)

Lemma nprocs_used_pos (test : Test) : (1 <= nprocs_used test)%nat.
Proof. unfold nprocs_used. lia. Qed.

Lemma nprocs_used_Z (test : Test) :
  Z.of_nat (nprocs_used test) = Z.max 1 (nprocs test).
Proof. unfold nprocs_used. lia. Qed.

Lemma worker_length (test : Test) :
  length (run_test_worker test) = (2 * nprocs_used test + 3)%nat.
Proof.
  unfold run_test_worker. rewrite !length_app, !length_replicate. simpl. lia.
Qed.

Lemma worker_lookup (test : Test) (p : nat) :
  run_test_worker test !! p =
    let n := nprocs_used test in
    if (p =? 0)%nat then Some LockAcquire
    else if (p <=? n)%nat then Some SemAcquire
    else if (p =? n + 1)%nat then Some LockRelease
    else if (p =? n + 2)%nat then Some RunTest
    else if (p <? 2 * n + 3)%nat then Some SemRelease
    else None.
Proof.
  unfold run_test_worker. cbv zeta.
  generalize (nprocs_used test) as n. intros n.
  destruct (Nat.eqb_spec p 0) as [->|Hp0]; [reflexivity|].
  destruct p as [|q]; [lia|].
  change (([LockAcquire] ++ replicate n SemAcquire ++ [LockRelease]
           ++ [RunTest] ++ replicate n SemRelease) !! S q)
    with ((replicate n SemAcquire ++ [LockRelease]
           ++ [RunTest] ++ replicate n SemRelease) !! q).
  destruct (Nat.leb_spec (S q) n) as [Hle|Hgt].
  { rewrite lookup_app_l by (rewrite length_replicate; lia).
    apply lookup_replicate_2. lia. }
  rewrite lookup_app_r by (rewrite length_replicate; lia).
  rewrite length_replicate.
  destruct (Nat.eqb_spec (S q) (n + 1)) as [He|Hne].
  { replace (q - n)%nat with 0%nat by lia. reflexivity. }
  destruct (Nat.eqb_spec (S q) (n + 2)) as [He2|Hne2].
  { replace (q - n)%nat with 1%nat by lia. reflexivity. }
  destruct (q - n)%nat as [|[|r]] eqn:Hr; try lia.
  change (([LockRelease] ++ [RunTest] ++ replicate n SemRelease) !! S (S r))
    with (replicate n SemRelease !! r).
  destruct (Nat.ltb_spec (S q) (2 * n + 3)) as [Hlt|Hge].
  - apply lookup_replicate_2. lia.
  - apply lookup_replicate_None. lia.
Qed.

(** ** The semaphore invariant *)

Lemma held_nonneg (th : thread) : thread_ok th -> 0 <= held th.
Proof.
  unfold thread_ok, held. pose proof (nprocs_used_pos (th_test th)). lia.
Qed.

Lemma held_in_run_test (th : thread) :
  thread_ok th -> th_phase th = InRunTest ->
  acquired th = Z.of_nat (nprocs_used (th_test th)) /\ released th = 0.
Proof.
  unfold thread_ok. pose proof (nprocs_used_pos (th_test th)).
  intros (Ha & Hr & Hp & Hrun) Hph. specialize (Hrun Hph). lia.
Qed.

Lemma critical_nonneg (th : thread) : 0 <= critical th.
Proof. unfold critical. case_decide; lia. Qed.

Lemma initial_ok (l : launch) : 0 <= capacity l -> sys_ok (initial l).
Proof.
  intros Hcap. unfold sys_ok, initial.
  cbn [sem_value sem_initial threads started lock_held].
  split; [assumption|].
  assert (forall f : thread -> Z,
            (forall test, f (mkThread test 0 Ready 0 0) = 0) ->
            sumZ (map f (map (fun test => mkThread test 0 Ready 0 0) (jobs l))) = 0)
    as Hzero.
  { intros f Hf. induction (jobs l) as [|t ts IH]; [reflexivity|].
    cbn [map]. rewrite sumZ_cons, IH, Hf. reflexivity. }
  split; [|split].
  - rewrite Hzero; [lia|]. reflexivity.
  - apply Hzero. intros test. unfold critical, registering.
    cbn [pc]. case_decide; [lia|reflexivity].
  - intros i th Hi. apply list_lookup_fmap_Some in Hi as (test & -> & _).
    split; [|intros _; split; reflexivity].
    unfold thread_ok. cbn [th_test pc acquired released th_phase].
    pose proof (nprocs_used_pos test).
    repeat split; try lia. discriminate.
Qed.

Lemma sys_ok_update (s : sys) (i : nat) (th th' : thread) (sem' : Z)
    (lock' : bool) :
  sys_ok s -> threads s !! i = Some th -> (i < started s)%nat ->
  thread_ok th' -> 0 <= sem' -> sem' + held th' = sem_value s + held th ->
  (if lock' then 1 else 0) - critical th'
    = (if lock_held s then 1 else 0) - critical th ->
  sys_ok (mkSys sem' (sem_initial s) lock' (started s) (<[i:=th']> (threads s))).
Proof.
  intros (Hsem & Hsum & Hlock & Hth) Hi Hlt Hok Hpos Heq Hcrit.
  unfold sys_ok. cbn [sem_value sem_initial threads started lock_held].
  split; [assumption|]. split; [|split].
  - rewrite (sumZ_map_insert held _ _ th th' Hi). lia.
  - rewrite (sumZ_map_insert critical _ _ th th' Hi). lia.
  - intros j thj Hj. destruct (decide (i = j)) as [<-|Hne].
    + rewrite list_lookup_insert_eq in Hj by (eapply lookup_lt_Some; eassumption).
      injection Hj as <-. split; [assumption|lia].
    + rewrite list_lookup_insert_ne in Hj by assumption. apply Hth; assumption.
Qed.

(** A thread that is registering holds the lock. *)
Lemma registering_locked (s : sys) (i : nat) (th : thread) :
  sys_ok s -> threads s !! i = Some th -> registering th -> lock_held s = true.
Proof.
  intros (_ & _ & Hlock & _) Hi Hreg.
  assert (critical th <= sumZ (map critical (threads s))) as Hle.
  { apply (sumZ_map_lookup_le critical _ i); [|assumption].
    intros; apply critical_nonneg. }
  unfold critical in Hle at 1. rewrite decide_True in Hle by assumption.
  destruct (lock_held s); [reflexivity|lia].
Qed.

Ltac thread_facts :=
  unfold thread_ok, held, critical, registering, next, with_phase;
  cbn [th_test pc acquired released th_phase];
  repeat case_decide;
  repeat split; first [lia | discriminate | reflexivity].

Lemma step_ok (l : label) (s s' : sys) :
  sys_ok s -> step l s = Some s' -> sys_ok s'.
Proof.
  intros Hok Hstep. destruct l as [|i|i]; cbn [step] in Hstep.
  - destruct (started s <? length (threads s))%nat; [|discriminate].
    injection Hstep as <-. destruct Hok as (Hsem & Hsum & Hlock & Hth).
    unfold sys_ok. cbn [sem_value sem_initial threads started lock_held].
    split; [assumption|]. split; [assumption|]. split; [assumption|].
    intros i th Hi. destruct (Hth i th Hi) as [Hthok Hfresh].
    split; [assumption|]. intros Hle. apply Hfresh. lia.
  - destruct (Nat.ltb_spec i (started s)) as [Hlt|]; [|discriminate].
    destruct (threads s !! i) as [th|] eqn:Hi; [|discriminate].
    pose proof Hok as (Hsem & Hsum & Hlock & Hth).
    destruct (Hth i th Hi) as [(Ha & Hr & Hp & Hrun) _].
    pose proof (nprocs_used_pos (th_test th)) as Hn.
    destruct (th_phase th) eqn:Hph; [| |discriminate].
    + rewrite worker_lookup in Hstep. cbv zeta in Hstep.
      destruct (Nat.eqb_spec (pc th) 0) as [Hp0|Hp0].
      { cbn [exec_instr] in Hstep.
        destruct (lock_held s) eqn:Hl; [discriminate|].
        injection Hstep as <-.
        apply (sys_ok_update s i th); try assumption; rewrite ?Hl; thread_facts. }
      destruct (Nat.leb_spec (pc th) (nprocs_used (th_test th))) as [Hp1|Hp1].
      { cbn [exec_instr] in Hstep.
        destruct (Z.gtb_spec (sem_value s) 0) as [Hgt|]; [|discriminate].
        injection Hstep as <-.
        apply (sys_ok_update s i th); try assumption; thread_facts. }
      destruct (Nat.eqb_spec (pc th) (nprocs_used (th_test th) + 1)) as [Hp2|Hp2].
      { assert (lock_held s = true) as Hl.
        { apply (registering_locked s i th); try assumption.
          unfold registering. lia. }
        cbn [exec_instr] in Hstep. rewrite Hl in Hstep.
        injection Hstep as <-.
        apply (sys_ok_update s i th); try assumption; rewrite ?Hl; thread_facts. }
      destruct (Nat.eqb_spec (pc th) (nprocs_used (th_test th) + 2)) as [Hp3|Hp3].
      { cbn [exec_instr] in Hstep. injection Hstep as <-.
        apply (sys_ok_update s i th); try assumption; thread_facts. }
      destruct (Nat.ltb_spec (pc th) (2 * nprocs_used (th_test th) + 3)) as [Hp4|Hp4];
        [|discriminate].
      cbn [exec_instr] in Hstep.
      destruct (Z.geb_spec (sem_value s) (sem_initial s)) as [Hge|Hlt'];
        injection Hstep as <-;
        apply (sys_ok_update s i th); try assumption; thread_facts.
    + injection Hstep as <-. specialize (Hrun eq_refl).
      apply (sys_ok_update s i th); try assumption; thread_facts.
  - destruct (Nat.ltb_spec i (started s)) as [Hlt|]; [|discriminate].
    destruct (threads s !! i) as [th|] eqn:Hi; [|discriminate].
    pose proof Hok as (Hsem & Hsum & Hlock & Hth).
    destruct (Hth i th Hi) as [(Ha & Hr & Hp & Hrun) _].
    destruct (th_phase th) eqn:Hph; try discriminate.
    injection Hstep as <-. specialize (Hrun eq_refl).
    apply (sys_ok_update s i th); try assumption; thread_facts.
Qed.

Lemma run_ok (sched : list label) (s s' : sys) :
  sys_ok s -> run sched s = Some s' -> sys_ok s'.
Proof.
  revert s. induction sched as [|l sched IH]; intros s Hok Hrun; cbn [run] in Hrun.
  - injection Hrun as <-. assumption.
  - destruct (step l s) as [s1|] eqn:Hstep; [|discriminate].
    apply (IH s1); [eapply step_ok; eassumption | assumption].
Qed.

Lemma sumZ_map_two_le {A} (f : A -> Z) (l : list A) (i j : nat) (x y : A) :
  (forall z, In z l -> 0 <= f z) -> i <> j ->
  l !! i = Some x -> l !! j = Some y -> f x + f y <= sumZ (map f l).
Proof.
  revert i j. induction l as [|a l IH]; intros i j Hpos Hne Hi Hj;
    [destruct i; discriminate|].
  assert (forall z, In z l -> 0 <= f z) as Hpos'
    by (intros; apply Hpos; right; assumption).
  cbn [map]. rewrite sumZ_cons.
  destruct i as [|i], j as [|j]; cbn in Hi, Hj.
  - congruence.
  - injection Hi as ->. pose proof (sumZ_map_lookup_le f l j y Hpos' Hj). lia.
  - injection Hj as ->. pose proof (sumZ_map_lookup_le f l i x Hpos' Hi). lia.
  - assert (f x + f y <= sumZ (map f l)) by (apply (IH i j); auto).
    assert (0 <= f a) by (apply Hpos; left; reflexivity). lia.
Qed.

(** Two threads are never registering with the semaphore at once. *)
Lemma registering_exclusive (s : sys) (i j : nat) (thi thj : thread) :
  sys_ok s -> threads s !! i = Some thi -> threads s !! j = Some thj ->
  registering thi -> registering thj -> i = j.
Proof.
  intros (_ & _ & Hlock & _) Hi Hj Hri Hrj.
  destruct (decide (i = j)) as [|Hne]; [assumption|exfalso].
  assert (critical thi + critical thj <= sumZ (map critical (threads s))) as Hle.
  { apply (sumZ_map_two_le critical _ i j); try assumption.
    intros; apply critical_nonneg. }
  unfold critical in Hle at 1 2. rewrite !decide_True in Hle by assumption.
  destruct (lock_held s); lia.
Qed.

Lemma thread_ok_in (s : sys) (th : thread) :
  sys_ok s -> In th (threads s) -> thread_ok th.
Proof.
  intros (_ & _ & _ & Hth) Hin.
  apply list_elem_of_In, list_elem_of_lookup in Hin as [i Hi].
  apply (Hth i th Hi).
Qed.

(** The units committed to executing tests never exceed the bound of the
    semaphore. *)
Lemma committed_le_bound (s : sys) : sys_ok s -> committed s <= sem_initial s.
Proof.
  intros Hok. pose proof Hok as (Hsem & Hsum & _).
  assert (committed s <= sumZ (map held (threads s))); [|lia].
  apply sumZ_map_le. intros th Hin.
  pose proof (thread_ok_in s th Hok Hin) as Hth.
  unfold in_run_test. destruct (th_phase th) eqn:Hph.
  - apply held_nonneg; assumption.
  - destruct (held_in_run_test th Hth Hph). unfold held. lia.
  - apply held_nonneg; assumption.
Qed.

(** The threads keep running the tests they were started with. *)
Lemma step_tests (l : label) (s s' : sys) :
  step l s = Some s' -> map th_test (threads s') = map th_test (threads s).
Proof.
  assert (forall i th th', threads s !! i = Some th -> th_test th' = th_test th ->
            map th_test (<[i:=th']> (threads s)) = map th_test (threads s)) as Hins.
  { intros i th th' Hi Ht.
    change (th_test <$> <[i:=th']> (threads s) = th_test <$> threads s).
    rewrite list_fmap_insert, Ht. apply list_insert_id.
    rewrite list_lookup_fmap, Hi. reflexivity. }
  intros Hstep. destruct l as [|i|i]; cbn [step] in Hstep.
  - destruct (started s <? length (threads s))%nat; [|discriminate].
    injection Hstep as <-. reflexivity.
  - destruct (i <? started s)%nat; [|discriminate].
    destruct (threads s !! i) as [th|] eqn:Hi; [|discriminate].
    destruct (th_phase th); [| |discriminate].
    + destruct (run_test_worker (th_test th) !! pc th) as [ins|]; [|discriminate].
      destruct ins; cbn [exec_instr] in Hstep;
        repeat match type of Hstep with
               | (if ?b then _ else _) = _ => destruct b
               end;
        try discriminate; injection Hstep as <-;
        apply (Hins i th); auto.
    + injection Hstep as <-. apply (Hins i th); auto.
  - destruct (i <? started s)%nat; [|discriminate].
    destruct (threads s !! i) as [th|] eqn:Hi; [|discriminate].
    destruct (th_phase th); try discriminate.
    injection Hstep as <-. apply (Hins i th); auto.
Qed.

Lemma run_tests_of (sched : list label) (s s' : sys) :
  run sched s = Some s' -> map th_test (threads s') = map th_test (threads s).
Proof.
  revert s. induction sched as [|l sched IH]; intros s Hrun; cbn [run] in Hrun.
  - injection Hrun as <-. reflexivity.
  - destruct (step l s) as [s1|] eqn:Hstep; [|discriminate].
    rewrite (IH s1 Hrun). eapply step_tests; eassumption.
Qed.

Lemma initial_tests (l : launch) : map th_test (threads (initial l)) = jobs l.
Proof.
  unfold initial. cbn [threads]. rewrite map_map. cbn [th_test]. apply map_id.
Qed.

(** ** Dispatch of [run_tests] *)

Lemma foldl_max_ge (l : list Z) (a : Z) :
  a <= foldl Z.max a l /\ (forall x, In x l -> x <= foldl Z.max a l).
Proof.
  revert a. induction l as [|y l IH]; intros a; cbn [foldl].
  - split; [lia|]. intros x [].
  - destruct (IH (Z.max a y)) as [Ha Hl]. split; [lia|].
    intros x [<-|Hin]; [lia|]. apply Hl; assumption.
Qed.

Lemma py_max_ge (l : list Z) (x : Z) :
  In x l -> exists m, py_max l = inr m /\ x <= m.
Proof.
  destruct l as [|y l]; intros Hin; [destruct Hin|].
  exists (foldl Z.max y l). split; [reflexivity|].
  destruct (foldl_max_ge l y) as [Hy Hl].
  destruct Hin as [<-|Hin]; [assumption|]. apply Hl; assumption.
Qed.

Section DispatchFacts.
Context {W : Type} (E : Externals W).

(** When [run_tests] starts threads, nothing else has happened yet, there
    is one job per test, and the semaphore is created with a positive
    value: [tot_nprocs], or the sum of the [nprocs] when the tests go to a
    cluster and no total is given. *)
Lemma run_tests_launch (verbose : bool) (cluster_queue : option string)
    (tot_nprocs : Z) (st st' : State W) (l : launch) :
  run_tests E verbose cluster_queue tot_nprocs st = (inr (Some l), st') ->
  st' = st /\ jobs l = st_tests st /\ 0 < capacity l /\
  capacity l = (if (tot_nprocs <=? 0) && truthy cluster_queue
                then sumZ (map nprocs (st_tests st)) else tot_nprocs).
Proof.
  unfold run_tests. unfold bind at 1. cbn [get_tests].
  set (tot := if (tot_nprocs <=? 0) && truthy cluster_queue
              then sumZ (map nprocs (st_tests st)) else tot_nprocs).
  destruct (Z.gtb_spec tot 0) as [Hpos|Hneg].
  - destruct (py_max (map nprocs (st_tests st))) as [e|m];
      [unfold raise; discriminate|].
    destruct (m >? tot); [unfold raise; discriminate|].
    unfold ret. intros H. injection H as <- <-.
    cbn [jobs capacity]. repeat split; try reflexivity. lia.
  - unfold bind.
    destruct (for_each _ _ st) as [[e|[]] st1]; unfold ret; discriminate.
Qed.
End DispatchFacts.

(** ** The concurrent run *)

Section ConcurrentRun.
Context {W : Type} (E : Externals W).

Lemma launched_ok (verbose : bool) (cluster_queue : option string)
    (tot_nprocs : Z) (st st' : State W) (l : launch) (sched : list label)
    (s : sys) :
  run_tests E verbose cluster_queue tot_nprocs st = (inr (Some l), st') ->
  run sched (initial l) = Some s ->
  sys_ok s /\ sem_initial s = capacity l /\
  map th_test (threads s) = st_tests st.
Proof.
  intros Hrun Hsched.
  destruct (run_tests_launch E _ _ _ _ _ _ Hrun) as (_ & Hjobs & Hcap & _).
  split; [|split].
  - apply (run_ok sched (initial l)); [apply initial_ok; lia | assumption].
  - clear Hrun Hjobs Hcap.
    assert (sem_initial (initial l) = capacity l) as <- by reflexivity.
    revert Hsched. generalize (initial l) as s0.
    induction sched as [|lab sched IH]; intros s0 Hsched; cbn [run] in Hsched.
    + injection Hsched as <-. reflexivity.
    + destruct (step lab s0) as [s1|] eqn:Hstep; [|discriminate].
      rewrite (IH s1 Hsched).
      destruct lab as [|i|i]; cbn [step] in Hstep.
      * destruct (started s0 <? length (threads s0))%nat; [|discriminate].
        injection Hstep as <-. reflexivity.
      * destruct (i <? started s0)%nat; [|discriminate].
        destruct (threads s0 !! i) as [th|]; [|discriminate].
        destruct (th_phase th); [| |discriminate].
        -- destruct (run_test_worker (th_test th) !! pc th) as [ins|];
             [|discriminate].
           destruct ins; cbn [exec_instr] in Hstep;
             repeat match type of Hstep with
                    | (if ?b then _ else _) = _ => destruct b
                    end;
             try discriminate; injection Hstep as <-; reflexivity.
        -- injection Hstep as <-. reflexivity.
      * destruct (i <? started s0)%nat; [|discriminate].
        destruct (threads s0 !! i) as [th|]; [|discriminate].
        destruct (th_phase th); try discriminate.
        injection Hstep as <-. reflexivity.
  - rewrite (run_tests_of sched (initial l) s Hsched), initial_tests.
    assumption.
Qed.
End ConcurrentRun.

(** C1: during a concurrent run of [run_tests] with [tot_nprocs > 0], in
    every state that any interleaving of the workers can reach, the units
    [max(1, test.nprocs)] of the tests inside [test.run_test] add up to at
    most [tot_nprocs]; a worker inside [test.run_test] has acquired exactly
    its [max(1, test.nprocs)] units and released none; and units are only
    acquired under the shared lock, by one worker at a time. *)
Theorem C1_committed_units_within_budget {W : Type} (E : Externals W)
    (verbose : bool) (cluster_queue : option string) (tot_nprocs : Z)
    (st st' : State W) (l : launch) (sched : list label) (s : sys) :
  0 < tot_nprocs ->
  run_tests E verbose cluster_queue tot_nprocs st = (inr (Some l), st') ->
  run sched (initial l) = Some s ->
  map th_test (threads s) = st_tests st /\
  committed s <= tot_nprocs /\
  (forall i th, threads s !! i = Some th -> th_phase th = InRunTest ->
     acquired th = Z.max 1 (nprocs (th_test th)) /\ released th = 0) /\
  (forall i th, threads s !! i = Some th -> registering th ->
     lock_held s = true) /\
  (forall i j thi thj,
     threads s !! i = Some thi -> threads s !! j = Some thj ->
     registering thi -> registering thj -> i = j).
Proof.
  intros Hpos Hrun Hsched.
  destruct (launched_ok E _ _ _ _ _ _ _ _ Hrun Hsched) as (Hok & Hinit & Htests).
  destruct (run_tests_launch E _ _ _ _ _ _ Hrun) as (_ & _ & _ & Hcap).
  assert ((tot_nprocs <=? 0) = false) as Hf by lia.
  rewrite Hf in Hcap. cbn [andb] in Hcap.
  split; [assumption|]. split; [|split; [|split]].
  - pose proof (committed_le_bound s Hok). lia.
  - intros i th Hi Hph. destruct Hok as (_ & _ & _ & Hth).
    destruct (Hth i th Hi) as [Hthok _].
    rewrite <- nprocs_used_Z. apply held_in_run_test; assumption.
  - intros i th Hi Hreg. apply (registering_locked s i th); assumption.
  - intros i j thi thj. apply registering_exclusive; assumption.
Qed.

Lemma C1_scenario_B :
  0 < 3 /\
  run_tests sample_externals true None 3 scenario_B_state
    = (inr (Some scenario_B_launch), scenario_B_state) /\
  exists s, run scenario_B_schedule (initial scenario_B_launch) = Some s /\
            committed s = 2 /\ sem_value s = 0 /\ committed s <= 3.
Proof.
  split; [lia|]. split; [reflexivity|].
  eexists. split; [reflexivity|]. split; [reflexivity|]. split; [reflexivity|].
  apply (C1_committed_units_within_budget sample_externals true None 3
           scenario_B_state scenario_B_state scenario_B_launch
           scenario_B_schedule);
    [lia | reflexivity | reflexivity].
Defined.

(** C2: with [tot_nprocs > 0], if some test needs more processors than
    [tot_nprocs] then [run_tests] raises [TestCodeError] and leaves the
    interpreter state as it found it: no [test.run_test] has been called,
    and no semaphore or thread has been handed over. *)
Theorem C2_budget_below_largest_test_is_fatal {W : Type} (E : Externals W)
    (verbose : bool) (cluster_queue : option string) (tot_nprocs : Z)
    (st : State W) (test : Test) :
  0 < tot_nprocs -> In test (st_tests st) -> tot_nprocs < nprocs test ->
  exists err,
    run_tests E verbose cluster_queue tot_nprocs st
      = (inl (TestCodeError err), st).
Proof.
  intros Hpos Hin Hbig.
  unfold run_tests. unfold bind at 1. cbn [get_tests].
  assert ((tot_nprocs <=? 0) = false) as -> by lia. cbn [andb].
  assert ((tot_nprocs >? 0) = true) as -> by lia.
  destruct (py_max_ge (map nprocs (st_tests st)) (nprocs test))
    as (m & -> & Hm); [apply in_map; assumption|].
  assert ((m >? tot_nprocs) = true) as -> by lia.
  eexists. reflexivity.
Qed.

Lemma C2_scenario_C :
  0 < 1 /\ In (sample_test 2 (0, 0, 0)) (st_tests scenario_C_state) /\
  1 < nprocs (sample_test 2 (0, 0, 0)) /\
  exists err,
    run_tests sample_externals true None 1 scenario_C_state
      = (inl (TestCodeError err), scenario_C_state).
Proof.
  split; [lia|]. split; [left; reflexivity|]. split; [reflexivity|].
  apply (C2_budget_below_largest_test_is_fatal sample_externals true None 1
           scenario_C_state (sample_test 2 (0, 0, 0)));
    [lia | left; reflexivity | reflexivity].
Defined.

(** Once [test.run_test] has returned, nothing can block or fail the
    remaining [semaphore.release()] calls of the worker. *)
Lemma release_all (k : nat) :
  forall (s : sys) (i : nat) (th : thread),
    sys_ok s -> threads s !! i = Some th -> returned th ->
    (pc th + k = length (run_test_worker (th_test th)))%nat ->
    exists s' th',
      run (replicate k (Step i)) s = Some s' /\ sys_ok s' /\
      threads s' !! i = Some th' /\ finished th' /\
      th_test th' = th_test th /\ sem_value s' = sem_value s + Z.of_nat k.
Proof.
  induction k as [|k IH]; intros s i th Hok Hi [Hph Hpc] Hk.
  - exists s, th. cbn [replicate run].
    split; [reflexivity|]. split; [assumption|]. split; [assumption|].
    split; [split; [assumption|lia]|]. split; [reflexivity|lia].
  - rewrite worker_length in Hk.
    pose proof Hok as (Hsem & Hsum & Hlock & Hth).
    destruct (Hth i th Hi) as [Hthok Hfresh].
    assert (i < started s)%nat as Hlt.
    { destruct (Nat.lt_ge_cases i (started s)) as [|Hge]; [assumption|].
      destruct (Hfresh Hge) as [Hz _]. lia. }
    assert (sem_value s < sem_initial s) as Hroom.
    { assert (held th <= sumZ (map held (threads s))) as Hle.
      { apply (sumZ_map_lookup_le held _ i); [|assumption].
        intros y Hy. apply held_nonneg. apply (thread_ok_in s); assumption. }
      unfold thread_ok in Hthok. cbv zeta in Hthok.
      destruct Hthok as (Ha & Hr & _). unfold held in Hle at 1. lia. }
    assert (step (Step i) s
            = Some (mkSys (sem_value s + 1) (sem_initial s) (lock_held s)
                     (started s)
                     (<[i:=mkThread (th_test th) (S (pc th)) Ready
                                    (acquired th) (released th + 1)]>
                        (threads s)))) as Hstep.
    { cbn [step]. destruct (Nat.ltb_spec i (started s)); [|lia].
      rewrite Hi, Hph, worker_lookup. cbv zeta.
      destruct (Nat.eqb_spec (pc th) 0); [lia|].
      destruct (Nat.leb_spec (pc th) (nprocs_used (th_test th))); [lia|].
      destruct (Nat.eqb_spec (pc th) (nprocs_used (th_test th) + 1)); [lia|].
      destruct (Nat.eqb_spec (pc th) (nprocs_used (th_test th) + 2)); [lia|].
      destruct (Nat.ltb_spec (pc th) (2 * nprocs_used (th_test th) + 3)); [|lia].
      cbn [exec_instr].
      destruct (Z.geb_spec (sem_value s) (sem_initial s)); [lia|reflexivity]. }
    pose proof (step_ok _ _ _ Hok Hstep) as Hok1.
    match type of Hstep with _ = Some ?s1 => set (s1' := s1) in * end.
    destruct (IH s1' i (mkThread (th_test th) (S (pc th)) Ready (acquired th)
                                 (released th + 1)))
      as (s' & th' & Hrun & Hok' & Hi' & Hfin & Htest & Hval).
    + assumption.
    + unfold s1'. cbn [threads]. apply list_lookup_insert_eq.
      eapply lookup_lt_Some; eassumption.
    + split; [reflexivity|]. cbn [th_test pc]. lia.
    + cbn [th_test pc]. rewrite worker_length. lia.
    + exists s', th'. cbn [replicate run]. rewrite Hstep.
      split; [assumption|]. split; [assumption|]. split; [assumption|].
      split; [assumption|]. split; [assumption|].
      unfold s1' in Hval. cbn [sem_value] in Hval. lia.
Qed.

(** C3 (amended): in a concurrent run, once [test.run_test] has returned to
    its worker, the remaining operations of the worker can always be
    performed, whatever the other threads do, and they end with the worker
    having released exactly the [max(1, test.nprocs)] units it acquired. *)
Theorem C3_units_released_after_return {W : Type} (E : Externals W)
    (verbose : bool) (cluster_queue : option string) (tot_nprocs : Z)
    (st st' : State W) (l : launch) (sched : list label) (s : sys)
    (i : nat) (th : thread) :
  run_tests E verbose cluster_queue tot_nprocs st = (inr (Some l), st') ->
  run sched (initial l) = Some s ->
  threads s !! i = Some th -> returned th ->
  exists s' th',
    run (replicate (length (run_test_worker (th_test th)) - pc th) (Step i)) s
      = Some s' /\
    threads s' !! i = Some th' /\ finished th' /\ th_test th' = th_test th /\
    acquired th' = Z.max 1 (nprocs (th_test th)) /\
    released th' = acquired th'.
Proof.
  intros Hrun Hsched Hi Hret.
  destruct (launched_ok E _ _ _ _ _ _ _ _ Hrun Hsched) as (Hok & _ & _).
  pose proof Hok as (_ & _ & _ & Hth).
  destruct (Hth i th Hi) as [(_ & _ & Hp & _) _].
  destruct (release_all (length (run_test_worker (th_test th)) - pc th)
              s i th Hok Hi Hret)
    as (s' & th' & Hrun' & Hok' & Hi' & Hfin & Htest & _).
  { rewrite worker_length. lia. }
  exists s', th'. split; [assumption|]. split; [assumption|].
  split; [assumption|]. split; [assumption|].
  destruct Hok' as (_ & _ & _ & Hth').
  destruct (Hth' i th' Hi') as [(Ha & Hr & _ & _) _].
  destruct Hfin as [_ Hpc]. rewrite worker_length in Hpc.
  rewrite <- Htest, <- nprocs_used_Z.
  pose proof (nprocs_used_pos (th_test th')). lia.
Qed.

Lemma C3_returning_worker_releases :
  run_tests sample_externals true None 2 one_test_state
    = (inr (Some one_test_launch), one_test_state) /\
  exists s th,
    run schedule_returning (initial one_test_launch) = Some s /\
    threads s !! 0%nat = Some th /\ returned th /\
    exists s' th',
      run (replicate (length (run_test_worker (th_test th)) - pc th) (Step 0)) s
        = Some s' /\
      threads s' !! 0%nat = Some th' /\ finished th' /\
      th_test th' = th_test th /\
      acquired th' = Z.max 1 (nprocs (th_test th)) /\
      released th' = acquired th'.
Proof.
  split; [reflexivity|].
  eexists. eexists. split; [vm_compute; reflexivity|].
  split; [reflexivity|].
  split; [split; [reflexivity|vm_compute; lia]|].
  apply (C3_units_released_after_return sample_externals true None 2
           one_test_state one_test_state one_test_launch schedule_returning);
    [reflexivity | reflexivity | reflexivity
    | split; [reflexivity|vm_compute; lia]].
Defined.

(** C3, as stated, fails: when [test.run_test] raises, the worker thread
    dies with its two units acquired and none released; the semaphore stays
    at 0 and no move of the system is left. *)
Lemma C3_units_kept_when_run_test_raises :
  run_tests sample_externals true None 2 one_test_state
    = (inr (Some one_test_launch), one_test_state) /\
  exists s th,
    run schedule_raising (initial one_test_launch) = Some s /\
    threads s = [th] /\ th_phase th = Raised /\
    acquired th = 2 /\ released th = 0 /\ released th <> acquired th /\
    sem_value s = 0 /\ forall lab, step lab s = None.
Proof.
  split; [reflexivity|].
  eexists. eexists. split; [vm_compute; reflexivity|].
  split; [reflexivity|]. split; [reflexivity|]. split; [reflexivity|].
  split; [reflexivity|]. split; [discriminate|]. split; [reflexivity|].
  intros [|[|i]|[|i]]; reflexivity.
Qed.

(** C8: for a serial test ([nprocs = 0]) and a test on 2 processors sent to
    a cluster with no total given, the semaphore is created with the sum
    0 + 2 = 2 while the two workers need 1 + 2 = 3 units, so in no reachable
    state are both tests executing; and two serial tests are not given to
    threads at all but run one after the other by the main thread. *)
Theorem C8_cluster_default_undercounts_serial_tests :
  run_tests sample_externals true (Some "PBS") 0 cluster_state
    = (inr (Some cluster_launch), cluster_state) /\
  capacity cluster_launch = sumZ (map nprocs (st_tests cluster_state)) /\
  capacity cluster_launch = 2 /\
  sumZ (map (fun test => Z.of_nat (nprocs_used test)) (jobs cluster_launch))
    = 3 /\
  (forall sched,
     match run sched (initial cluster_launch) with
     | Some s => forallb in_run_test (threads s) = false
     | None => True
     end) /\
  run_tests sample_externals true (Some "PBS") 0 serial_cluster_state
    = (inr None,
       mkState (st_tests serial_cluster_state) [] [] []
               [CallRunTest 0 true (Some "PBS");
                CallRunTest 1 true (Some "PBS")]).
Proof.
  split; [reflexivity|]. split; [reflexivity|]. split; [reflexivity|].
  split; [reflexivity|]. split; [|reflexivity].
  intros sched.
  destruct (run sched (initial cluster_launch)) as [s|] eqn:Hrun; [|exact I].
  assert (sys_ok s) as Hok.
  { apply (run_ok sched (initial cluster_launch)); [|assumption].
    apply initial_ok. cbn. lia. }
  pose proof (committed_le_bound s Hok) as Hle.
  assert (sem_initial s = 2) as Hinit.
  { destruct (launched_ok sample_externals true (Some "PBS") 0 cluster_state
                cluster_state cluster_launch sched s eq_refl Hrun)
      as (_ & -> & _). reflexivity. }
  pose proof (run_tests_of sched _ s Hrun) as Htests.
  rewrite initial_tests in Htests. unfold committed in Hle.
  destruct (threads s) as [|th0 [|th1 [|th2 ths]]]; try discriminate.
  injection Htests as Ht0 Ht1.
  cbn [map] in Hle. rewrite !sumZ_cons, Ht0, Ht1, Hinit in Hle.
  cbn [forallb]. destruct (in_run_test th0), (in_run_test th1);
    try reflexivity.
  vm_compute in Hle. exfalso. apply Hle. reflexivity.
Qed.

(** ** The processor count set by [init_tests] *)

(** C7 (amended): for a test whose [override_nprocs] flag is set,
    [init_tests] with a non-negative global [nprocs] never assigns the global
    value: the resulting [test.nprocs] is the test's own count brought into
    [min_nprocs, max_nprocs] by the two checks of the loop, whatever the
    global value, and it is the test's own count unchanged when that lies
    within the bounds; no other attribute changes. *)
Theorem C7_override_nprocs_keeps_own_count (nprocs_opt : Z)
    (tests : list Test) (i : nat) (test : Test) :
  0 <= nprocs_opt -> tests !! i = Some test -> override_nprocs test = true ->
  exists test',
    init_tests_nprocs nprocs_opt tests !! i = Some test' /\
    nprocs test' =
      (let n := if nprocs test <? min_nprocs test
                then min_nprocs test else nprocs test in
       if n >? max_nprocs test then max_nprocs test else n) /\
    (min_nprocs test <= nprocs test <= max_nprocs test ->
     test' = test) /\
    set_nprocs (nprocs test) test' = test.
Proof.
  intros Hpos Hi Hov. unfold init_tests_nprocs.
  assert ((nprocs_opt >=? 0) = true) as -> by lia.
  exists (init_test_nprocs nprocs_opt test). split.
  { change (map (init_test_nprocs nprocs_opt) tests)
      with (init_test_nprocs nprocs_opt <$> tests).
    rewrite list_lookup_fmap, Hi. reflexivity. }
  unfold init_test_nprocs. rewrite Hov. cbn [negb]. cbv zeta.
  destruct test as [pa ia n mn mx ov tp stt]. cbn in *.
  destruct (Z.ltb_spec n mn); cbn;
    match goal with |- context [?a >? ?b] => destruct (Z.gtb_spec a b) end;
    cbn; repeat split; try reflexivity; intros; f_equal; lia.
Qed.

Lemma C7_override_in_bounds_unchanged :
  0 <= 1 /\ [override_test_in_bounds] !! 0%nat = Some override_test_in_bounds /\
  override_nprocs override_test_in_bounds = true /\
  exists test',
    init_tests_nprocs 1 [override_test_in_bounds] !! 0%nat = Some test' /\
    nprocs test' = 4 /\ test' = override_test_in_bounds.
Proof.
  split; [lia|]. split; [reflexivity|]. split; [reflexivity|].
  destruct (C7_override_nprocs_keeps_own_count 1 [override_test_in_bounds] 0
              override_test_in_bounds)
    as (test' & Hi & Hn & Hsame & _); [lia | reflexivity | reflexivity |].
  exists test'. split; [exact Hi|]. split; [exact Hn|].
  apply Hsame. vm_compute. split; discriminate.
Defined.

(** C7, as stated, fails: a test with [override_nprocs] set, one processor
    and [min_nprocs = 2] leaves [init_tests] with two processors when the
    global option is 0, although its count is left alone when no global
    value is given. *)
Lemma C7_override_test_is_clamped :
  override_nprocs override_test_below_min = true /\
  nprocs override_test_below_min = 1 /\
  map nprocs (init_tests_nprocs 0 [override_test_below_min]) = [2] /\
  map nprocs (init_tests_nprocs (-1) [override_test_below_min]) = [1].
Proof. repeat split; reflexivity. Qed.

(** ** The exit code of [end_status] *)

Lemma npassed_perm (l1 l2 : list Test) :
  Permutation l1 l2 -> npassed_of l1 = npassed_of l2.
Proof.
  intros H. unfold npassed_of. apply sumZ_perm.
  apply Permutation_map, Permutation_map. assumption.
Qed.

Lemma nwarning_perm (l1 l2 : list Test) :
  Permutation l1 l2 -> nwarning_of l1 = nwarning_of l2.
Proof.
  intros H. unfold nwarning_of. apply sumZ_perm.
  apply Permutation_map, Permutation_map. assumption.
Qed.

Lemma nran_perm (l1 l2 : list Test) :
  Permutation l1 l2 -> nran_of l1 = nran_of l2.
Proof.
  intros H. unfold nran_of. apply sumZ_perm.
  apply Permutation_map, Permutation_map. assumption.
Qed.

Lemma end_status_code {W : Type} (skipped : Z) (verbose : bool) (st : State W) :
  fst (end_status skipped verbose st)
  = inr (if negb (nran_of (st_tests st)
                  =? npassed_of (st_tests st) + nwarning_of (st_tests st))
         then 1 else 0).
Proof.
  unfold end_status. unfold bind at 1. cbn [get_tests]. cbv zeta.
  destruct verbose;
    [destruct (npassed_of (st_tests st) + nwarning_of (st_tests st)
               =? nran_of (st_tests st))|];
    reflexivity.
Qed.

(** C4: [end_status] returns 0 exactly when [npassed + nwarning == nran],
    the three numbers being the sums of the components of
    [test.get_status()] over the tests; and its exit code and the line it
    prints are the same for every permutation of the list of tests. *)
Theorem C4_end_status_exit_code_law {W : Type} (skipped : Z) (verbose : bool)
    (st : State W) :
  (fst (end_status skipped verbose st) = inr 0 <->
   sumZ (map (fun t => fst (fst (get_status t))) (st_tests st))
   + sumZ (map (fun t => snd (fst (get_status t))) (st_tests st))
   = sumZ (map (fun t => snd (get_status t)) (st_tests st))) /\
  (forall tests',
     Permutation (st_tests st) tests' ->
     fst (end_status skipped verbose (with_tests tests' st))
       = fst (end_status skipped verbose st) /\
     st_stdout (snd (end_status skipped verbose (with_tests tests' st)))
       = st_stdout (snd (end_status skipped verbose st))).
Proof.
  split.
  - rewrite end_status_code. unfold npassed_of, nwarning_of, nran_of.
    rewrite !map_map.
    destruct (Z.eqb_spec
                (sumZ (map (fun t => snd (get_status t)) (st_tests st)))
                (sumZ (map (fun t => fst (fst (get_status t))) (st_tests st))
                 + sumZ (map (fun t => snd (fst (get_status t))) (st_tests st))))
      as [He|Hne]; cbn [negb]; split; intros H;
      try reflexivity; try lia; discriminate.
  - intros tests' Hperm.
    unfold end_status, bind, get_tests. cbn [with_tests st_tests].
    rewrite <- (npassed_perm _ _ Hperm), <- (nwarning_perm _ _ Hperm),
      <- (nran_perm _ _ Hperm).
    cbv zeta.
    destruct verbose;
      [destruct (npassed_of (st_tests st) + nwarning_of (st_tests st)
                 =? nran_of (st_tests st))|];
      split; reflexivity.
Qed.

Lemma C4_permuted_tests_same_code :
  Permutation [sample_test 1 (1, 0, 1); sample_test 1 (0, 1, 2)]
              [sample_test 1 (0, 1, 2); sample_test 1 (1, 0, 1)] /\
  fst (end_status 0 true
         (sample_state [sample_test 1 (0, 1, 2); sample_test 1 (1, 0, 1)] [] []))
  = fst (end_status 0 true
           (sample_state [sample_test 1 (1, 0, 1); sample_test 1 (0, 1, 2)] [] [])).
Proof.
  split; [apply perm_swap|].
  apply (proj2 (C4_end_status_exit_code_law 0 true
                  (sample_state [sample_test 1 (1, 0, 1); sample_test 1 (0, 1, 2)]
                                [] []))
               [sample_test 1 (0, 1, 2); sample_test 1 (1, 0, 1)]).
  apply perm_swap.
Defined.

(** ** Frame reasoning for the monad

    A relation between the state before and the state after that is
    reflexive and transitive is kept by an action as soon as each primitive
    step of the action keeps it. *)

Section Frames.
Context {W : Type} (R : State W -> State W -> Prop).
Hypothesis R_refl : forall st, R st st.
Hypothesis R_trans : forall a b c, R a b -> R b c -> R a c.

Lemma keeps_ret {A} (a : A) : keeps R (ret a).
Proof. intros st. apply R_refl. Qed.

Lemma keeps_raise {A} (e : exn) : keeps R (@raise W A e).
Proof. intros st. apply R_refl. Qed.

Lemma keeps_get_tests : keeps R get_tests.
Proof. intros st. apply R_refl. Qed.

Lemma keeps_get_world : keeps R get_world.
Proof. intros st. apply R_refl. Qed.

Lemma keeps_get_test (i : nat) : keeps R (get_test i).
Proof.
  intros st. unfold get_test. destruct (st_tests st !! i); apply R_refl.
Qed.

Lemma keeps_bind {A B} (m : M W A) (f : A -> M W B) :
  keeps R m -> (forall a, keeps R (f a)) -> keeps R (bind m f).
Proof.
  intros Hm Hf st. unfold bind. specialize (Hm st).
  destruct (m st) as [[e|a] st1]; cbn [snd] in *; [assumption|].
  apply (R_trans _ st1); [assumption|apply Hf].
Qed.

Lemma keeps_for_each {A} (l : list A) (body : A -> M W unit) :
  (forall x, keeps R (body x)) -> keeps R (for_each l body).
Proof.
  intros Hbody. induction l as [|x l IH]; cbn [for_each].
  - apply keeps_ret.
  - apply keeps_bind; [apply Hbody|intros _; apply IH].
Qed.

Lemma keeps_for_fold {A S} (l : list A) (body : A -> S -> M W S) (acc : S) :
  (forall x a, keeps R (body x a)) -> keeps R (for_fold l body acc).
Proof.
  intros Hbody. revert acc. induction l as [|x l IH]; intros acc; cbn [for_fold].
  - apply keeps_ret.
  - apply keeps_bind; [apply Hbody|intros acc'; apply IH].
Qed.
End Frames.

Lemma same_tests_refl {W} (st : State W) : same_tests st st.
Proof. reflexivity. Qed.

Lemma same_tests_trans {W} (a b c : State W) :
  same_tests a b -> same_tests b c -> same_tests a c.
Proof. unfold same_tests. congruence. Qed.

Lemma logs_refl {W} (Q : call -> Prop) (st : State W) : logs Q st st.
Proof. exists []. split; [symmetry; apply app_nil_r|constructor]. Qed.

Lemma logs_trans {W} (Q : call -> Prop) (a b c : State W) :
  logs Q a b -> logs Q b c -> logs Q a c.
Proof.
  intros (c1 & H1 & Q1) (c2 & H2 & Q2). exists (c1 ++ c2).
  split; [rewrite H2, H1; symmetry; apply app_assoc|].
  apply Forall_app; split; assumption.
Qed.

Lemma logs_one {W} (Q : call -> Prop) (c : call) :
  Q c -> keeps (logs Q) (@log W c).
Proof.
  intros Hq st. exists [c]. split; [reflexivity|].
  constructor; [assumption|constructor].
Qed.

Lemma logs_print {W} (Q : call -> Prop) (line : string) :
  keeps (logs Q) (@print W line).
Proof.
  intros st. exists []. split; [symmetry; apply app_nil_r|constructor].
Qed.

Lemma logs_set_world {W} (Q : call -> Prop) (w : W) :
  keeps (logs Q) (set_world w).
Proof.
  intros st. exists []. split; [symmetry; apply app_nil_r|constructor].
Qed.

Lemma logs_set_test {W} (Q : call -> Prop) (i : nat) (test : Test) :
  keeps (logs Q) (@set_test W i test).
Proof.
  intros st. exists []. split; [symmetry; apply app_nil_r|constructor].
Qed.

Lemma logs_compat_input {W} (Q : call -> Prop) (prompt : string) :
  Q (CallInput prompt) -> keeps (logs Q) (@compat_input W prompt).
Proof.
  intros Hq st. exists [CallInput prompt]. unfold compat_input.
  destruct (st_stdin st); (split; [reflexivity|]);
    (constructor; [assumption|constructor]).
Qed.

Ltac keeps_with refl trans leaf :=
  repeat first
    [ apply (keeps_bind _ trans)
    | apply (keeps_for_each _ refl trans)
    | apply (keeps_for_fold _ refl trans)
    | apply (keeps_ret _ refl)
    | apply (keeps_raise _ refl)
    | apply (keeps_get_tests _ refl)
    | apply (keeps_get_world _ refl)
    | apply (keeps_get_test _ refl)
    | match goal with |- keeps _ (if ?b then _ else _) => destruct b end
    | match goal with |- keeps _ (match ?x with _ => _ end) => destruct x end
    | leaf
    | match goal with |- forall _, _ => intro end ].

(** ** [diff_tests] *)

Section DiffFacts.
Context {W : Type} (E : Externals W).

Lemma diff_tests_same_tests (diff_program : string) (verbose : bool) :
  keeps same_tests (diff_tests E diff_program verbose).
Proof.
  unfold diff_tests, diff_test, diff_subrun.
  keeps_with (@same_tests_refl W) (@same_tests_trans W)
             ltac:(solve [intros ?; reflexivity]).
Qed.

(** The sub-runs that are diffed are handed to the diff program, and only
    those. *)
Lemma diff_subrun_present (diff_program : string) (verbose : bool) (i : nat)
    (inp args : string) (st : State W) (test : Test) :
  st_tests st !! i = Some test ->
  let benchmark_file :=
    testcode_filename E (FILESTEM_benchmark E) (benchmark (test_program test))
                      inp args in
  let test_file :=
    testcode_filename E (FILESTEM_test E) (test_id (test_program test))
                      inp args in
  let diff_cmd :=
    diff_program +:+ " " +:+ benchmark_file +:+ " " +:+ test_file in
  path_exists E (st_world st) test_file = true ->
  path_exists E (st_world st) benchmark_file = true ->
  diff_subrun E diff_program verbose i (inp, args) st
  = (inr tt,
     mkState (st_tests st) (popen_wait E diff_cmd (st_world st)) (st_stdin st)
       (st_stdout st ++
          (if verbose
           then ["Diffing " +:+ benchmark_file +:+ " and " +:+ test_file
                 +:+ " in " +:+ path test +:+ "."]
           else []))
       (st_calls st ++ [CallPopen diff_cmd])).
Proof.
  intros Hi bf tf cmd Ht Hb.
  unfold diff_subrun, bind, get_test. rewrite Hi. cbn [fst snd].
  fold bf tf. destruct verbose;
    cbn [print ret get_world st_world st_tests st_stdin st_stdout st_calls];
    rewrite Ht, Hb; cbn [negb orb]; fold cmd;
    cbn [log set_world st_world st_tests st_stdin st_stdout st_calls];
    rewrite ?app_nil_r; reflexivity.
Qed.
End DiffFacts.

(** C9: [diff_tests] leaves every test object, and so every status triple,
    as it found it; a sub-run whose test output file or benchmark file does
    not exist is skipped: the diff program is not started, nothing changes
    but standard output, and the skip is printed (after the line announcing
    the diff) only when [verbose] is true. *)
Theorem C9_diff_tests_is_read_only {W : Type} (E : Externals W)
    (diff_program : string) (verbose : bool) :
  (forall st : State W,
     st_tests (snd (diff_tests E diff_program verbose st)) = st_tests st /\
     map get_status (st_tests (snd (diff_tests E diff_program verbose st)))
       = map get_status (st_tests st)) /\
  (forall (st : State W) (i : nat) (test : Test) (inp args : string),
     st_tests st !! i = Some test ->
     let benchmark_file :=
       testcode_filename E (FILESTEM_benchmark E)
                         (benchmark (test_program test)) inp args in
     let test_file :=
       testcode_filename E (FILESTEM_test E) (test_id (test_program test))
                         inp args in
     path_exists E (st_world st) test_file = false \/
     path_exists E (st_world st) benchmark_file = false ->
     diff_subrun E diff_program verbose i (inp, args) st
     = (inr tt,
        mkState (st_tests st) (st_world st) (st_stdin st)
          (st_stdout st ++
             (if verbose
              then ["Diffing " +:+ benchmark_file +:+ " and " +:+ test_file
                    +:+ " in " +:+ path test +:+ ".";
                    "Skipping diff: " +:+ test_file +:+ " does not exist."]
              else []))
          (st_calls st))).
Proof.
  split.
  - intros st. pose proof (diff_tests_same_tests E diff_program verbose st) as H.
    unfold same_tests in H. rewrite H. split; reflexivity.
  - intros st i test inp args Hi bf tf Hmiss.
    unfold diff_subrun, bind, get_test. rewrite Hi. cbn [fst snd].
    fold bf tf.
    assert (negb (path_exists E (st_world st) tf)
            || negb (path_exists E (st_world st) bf) = true) as Hcond.
    { destruct Hmiss as [-> | ->]; [reflexivity|].
      destruct (path_exists E (st_world st) tf); reflexivity. }
    destruct verbose;
      cbn [print ret get_world st_world st_tests st_stdin st_stdout st_calls];
      rewrite Hcond; unfold print, ret;
      cbn [st_world st_tests st_stdin st_stdout st_calls].
    + rewrite <- app_assoc. reflexivity.
    + rewrite app_nil_r. destruct st; reflexivity.
Qed.

Lemma C9_sub_run_without_benchmark_is_skipped :
  st_tests half_run_state !! 0%nat = Some (sample_test 1 (0, 0, 0)) /\
  path_exists sample_externals (st_world half_run_state)
              "benchmark.out.bench1.inp=in1" = false /\
  diff_subrun sample_externals "diff" true 0 ("in1", "") half_run_state
  = (inr tt,
     mkState (st_tests half_run_state) (st_world half_run_state) []
       ["Diffing benchmark.out.bench1.inp=in1 and test.out.today.inp=in1 in job.";
        "Skipping diff: test.out.today.inp=in1 does not exist."]
       []).
Proof.
  split; [reflexivity|]. split; [reflexivity|].
  apply (proj2 (C9_diff_tests_is_read_only sample_externals "diff" true)
               half_run_state 0%nat (sample_test 1 (0, 0, 0)) "in1" "");
    [reflexivity | right; reflexivity].
Defined.

(** ** [compare_tests] *)

Lemma subruns_cons (test : Test) (tests : list Test) :
  subruns (test :: tests) = (length (inputs_args test) + subruns tests)%nat.
Proof. reflexivity. Qed.

Section CompareFacts.
Context {W : Type} (E : Externals W).

Lemma compare_subrun_missing (verbose : bool) (i : nat) (inp args : string)
    (nskipped : Z) (st : State W) (test : Test) :
  st_tests st !! i = Some test ->
  path_exists E (st_world st) (compare_test_file E test inp args) = false ->
  compare_subrun E verbose i (inp, args) nskipped st
  = (inr (nskipped + 1),
     mkState (st_tests st) (st_world st) (st_stdin st)
       (st_stdout st ++
          (if verbose
           then ["Skipping comparison.  Test file does not exist: "
                 +:+ compare_test_file E test inp args +:+ "."
                 +:+ String (Ascii.ascii_of_nat 10) ""]
           else []))
       (st_calls st)).
Proof.
  intros Hi Hmiss. unfold compare_subrun, bind, get_test. rewrite Hi.
  cbn [fst snd get_world st_world]. rewrite Hmiss.
  destruct verbose; unfold print, ret;
    cbn [st_world st_tests st_stdin st_stdout st_calls].
  - reflexivity.
  - rewrite app_nil_r. destruct st; reflexivity.
Qed.

Lemma compare_subrun_present (verbose : bool) (i : nat) (inp args : string)
    (nskipped : Z) (st : State W) (test : Test) :
  st_tests st !! i = Some test ->
  path_exists E (st_world st) (compare_test_file E test inp args) = true ->
  compare_subrun E verbose i (inp, args) nskipped st
  = (inr nskipped,
     mkState
       (<[i:=fst (ext_verify_job E test inp args verbose (st_world st))]>
          (st_tests st))
       (snd (ext_verify_job E test inp args verbose (st_world st)))
       (st_stdin st) (st_stdout st)
       (st_calls st ++ [CallVerifyJob i inp args verbose])).
Proof.
  intros Hi Hthere. unfold compare_subrun, bind, get_test. rewrite Hi.
  cbn [fst snd get_world st_world]. rewrite Hthere.
  unfold verify_job, bind, get_test. rewrite Hi. reflexivity.
Qed.

Lemma compare_subrun_effect (verbose : bool) (i : nat)
    (inp_args : string * string) (acc : Z) (st : State W) :
  (i < length (st_tests st))%nat ->
  subrun_effect i 1 acc st (compare_subrun E verbose i inp_args acc st).
Proof.
  intros Hlt. destruct (lookup_lt_is_Some_2 _ _ Hlt) as [test Hi].
  destruct inp_args as [inp args].
  destruct (path_exists E (st_world st) (compare_test_file E test inp args))
    eqn:Hex.
  - rewrite (compare_subrun_present verbose i inp args acc st test Hi Hex).
    exists acc, [CallVerifyJob i inp args verbose]. cbn [fst snd st_tests st_calls].
    split; [reflexivity|]. split; [apply length_insert|].
    split; [intros j Hne; apply list_lookup_insert_ne; congruence|].
    split; [reflexivity|].
    split; [constructor; [exact I|constructor]|]. cbn [length]. lia.
  - rewrite (compare_subrun_missing verbose i inp args acc st test Hi Hex).
    exists (acc + 1), []. cbn [fst snd st_tests st_calls].
    split; [reflexivity|]. split; [reflexivity|]. split; [reflexivity|].
    split; [symmetry; apply app_nil_r|]. split; [constructor|].
    cbn [length]. lia.
Qed.

Lemma compare_inner_effect (verbose : bool) (i : nat)
    (l : list (string * string)) (acc : Z) (st : State W) :
  (i < length (st_tests st))%nat ->
  subrun_effect i (length l) acc st
    (for_fold l (compare_subrun E verbose i) acc st).
Proof.
  revert acc st. induction l as [|ia l IH]; intros acc st Hlt.
  - exists acc, []. cbn [for_fold ret fst snd length].
    split; [reflexivity|]. split; [reflexivity|]. split; [reflexivity|].
    split; [symmetry; apply app_nil_r|]. split; [constructor|].
    cbn [length]. lia.
  - cbn [for_fold]. unfold bind.
    destruct (compare_subrun_effect verbose i ia acc st Hlt)
      as (acc1 & c1 & Hr & Hlen & Hothers & Hcalls & Hq & Hle & Hsum).
    destruct (compare_subrun E verbose i ia acc st) as [r st1].
    cbn [fst snd] in *. subst r.
    destruct (IH acc1 st1) as (acc2 & c2 & Hr2 & Hlen2 & Hothers2 & Hcalls2
                               & Hq2 & Hle2 & Hsum2); [lia|].
    exists acc2, (c1 ++ c2).
    split; [assumption|]. split; [lia|].
    split; [intros j Hne; rewrite Hothers2, Hothers by assumption; reflexivity|].
    split; [rewrite Hcalls2, Hcalls; symmetry; apply app_assoc|].
    split; [apply Forall_app; split; assumption|].
    rewrite length_app. cbn [length]. lia.
Qed.

Lemma compare_test_effect (verbose : bool) (i : nat) (acc : Z) (st : State W)
    (test : Test) :
  st_tests st !! i = Some test ->
  subrun_effect i (length (inputs_args test)) acc st
    (compare_test E verbose i acc st).
Proof.
  intros Hi. unfold compare_test, bind, get_test. rewrite Hi.
  apply compare_inner_effect. eapply lookup_lt_Some; eassumption.
Qed.

Lemma compare_outer_effect (verbose : bool) (k : nat) :
  forall (a : nat) (acc : Z) (st : State W),
    (a + k <= length (st_tests st))%nat ->
    exists acc' st' calls,
      for_fold (seq a k) (compare_test E verbose) acc st = (inr acc', st') /\
      st_calls st' = st_calls st ++ calls /\
      Forall is_verify_call calls /\
      acc <= acc' /\
      acc' + Z.of_nat (length calls)
        = acc + Z.of_nat (subruns (take k (drop a (st_tests st)))).
Proof.
  induction k as [|k IH]; intros a acc st Hlen.
  - exists acc, st, []. cbn [seq for_fold ret].
    split; [reflexivity|]. split; [symmetry; apply app_nil_r|].
    split; [constructor|]. rewrite take_0. unfold subruns.
    cbn [length map sum_list]. lia.
  - assert (a < length (st_tests st))%nat as Hlt by lia.
    destruct (lookup_lt_is_Some_2 _ _ Hlt) as [test Hi].
    cbn [seq for_fold]. unfold bind.
    destruct (compare_test_effect verbose a acc st test Hi)
      as (acc1 & c1 & Hr & Hlen1 & Hothers & Hcalls & Hq & Hle & Hsum).
    destruct (compare_test E verbose a acc st) as [r st1].
    cbn [fst snd] in *. subst r.
    destruct (IH (S a) acc1 st1) as (acc2 & st2 & c2 & Hrun & Hcalls2 & Hq2
                                     & Hle2 & Hsum2); [lia|].
    exists acc2, st2, (c1 ++ c2).
    split; [assumption|].
    split; [rewrite Hcalls2, Hcalls; symmetry; apply app_assoc|].
    split; [apply Forall_app; split; assumption|].
    split; [lia|].
    assert (drop (S a) (st_tests st1) = drop (S a) (st_tests st)) as Hdrop.
    { apply list_eq. intros j. rewrite !lookup_drop. apply Hothers. lia. }
    rewrite Hdrop in Hsum2.
    rewrite (drop_S _ _ _ Hi).
    change (take (S k) (test :: drop (S a) (st_tests st)))
      with (test :: take k (drop (S a) (st_tests st))).
    rewrite subruns_cons, length_app. lia.
Qed.
End CompareFacts.

Section CompareAll.
Context {W : Type} (E : Externals W).

Lemma for_fold_app {A S} (l1 l2 : list A) (body : A -> S -> M W S) :
  forall (acc : S) (st : State W),
    for_fold (l1 ++ l2) body acc st
    = bind (for_fold l1 body acc) (for_fold l2 body) st.
Proof.
  induction l1 as [|x l1 IH]; intros acc st; [reflexivity|].
  cbn [app for_fold]. unfold bind in *.
  destruct (body x acc st) as [[e|acc1] st1]; [reflexivity|apply IH].
Qed.

Lemma for_fold_map {A B S} (f : A -> B) (l : list A)
    (body : B -> S -> M W S) :
  forall (acc : S) (st : State W),
    for_fold (map f l) body acc st = for_fold l (fun x => body (f x)) acc st.
Proof.
  induction l as [|x l IH]; intros acc st; [reflexivity|].
  cbn [map for_fold]. unfold bind.
  destruct (body (f x) acc st) as [[e|acc1] st1]; [reflexivity|apply IH].
Qed.

Lemma for_fold_map_app {A B S} (f : A -> B) (l1 : list A) (l2 : list B)
    (body : B -> S -> M W S) (acc : S) (st : State W) :
  for_fold (map f l1 ++ l2) body acc st
  = bind (for_fold l1 (fun x => body (f x)) acc) (for_fold l2 body) st.
Proof.
  rewrite for_fold_app. unfold bind. rewrite for_fold_map. reflexivity.
Qed.

(** The two loops of [compare_tests] pass over the sub-runs one by one. *)
Lemma compare_all_from (verbose : bool) (todo : list Test) :
  forall (a : nat) (acc : Z) (st : State W),
    drop a (st_tests st) = todo ->
    for_fold (seq a (length todo)) (compare_test E verbose) acc st
    = for_fold (subruns_from a todo)
        (fun s => compare_subrun E verbose (fst s) (snd s)) acc st.
Proof.
  induction todo as [|test todo IH]; intros a acc st Hdrop; [reflexivity|].
  assert (st_tests st !! a = Some test) as Hi.
  { rewrite <- (Nat.add_0_r a), <- lookup_drop, Hdrop. reflexivity. }
  cbn [length seq for_fold subruns_from].
  rewrite for_fold_map_app. cbn [fst snd].
  unfold bind at 1. unfold compare_test at 1. unfold bind at 1.
  unfold get_test at 1. rewrite Hi.
  change (fun x : string * string => compare_subrun E verbose a x)
    with (compare_subrun E verbose a).
  unfold bind at 1.
  destruct (compare_inner_effect E verbose a (inputs_args test) acc st)
    as (acc1 & c1 & Hr & Hlen & Hothers & _).
  { eapply lookup_lt_Some; eassumption. }
  destruct (for_fold (inputs_args test) (compare_subrun E verbose a) acc st)
    as [r st1].
  cbn [fst snd] in *. subst r. apply IH.
  rewrite (drop_S _ _ _ Hi) in Hdrop. injection Hdrop as Hdrop.
  rewrite <- Hdrop. apply list_eq. intros j. rewrite !lookup_drop.
  apply Hothers. lia.
Qed.

Lemma same_test_files_refl (st : State W) : same_test_files E st st.
Proof.
  split; [reflexivity|]. split; [reflexivity|].
  intros j test test' H1 H2. rewrite H1 in H2. injection H2 as <-.
  split; reflexivity.
Qed.

(** When [test.verify_job] leaves the files alone, the sub-runs that are
    skipped are those whose test file is missing at the start. *)
Lemma compare_stable (verbose : bool) (st0 : State W)
    (l : list (nat * (string * string))) :
  verify_job_keeps_files E verbose ->
  forall (acc : Z) (st : State W),
    same_test_files E st0 st ->
    (forall s, In s l -> (fst s < length (st_tests st0))%nat) ->
    exists st',
      for_fold l (fun s => compare_subrun E verbose (fst s) (snd s)) acc st
      = (inr (acc + Z.of_nat
                      (length (List.filter (test_file_missing E st0) l))),
         st') /\
      same_test_files E st0 st' /\
      st_calls st'
      = st_calls st
        ++ map (verify_call verbose) (List.filter (test_file_exists E st0) l).
Proof.
  intros Hkeeps. induction l as [|[i [inp args]] l IH]; intros acc st Hsame Hvalid.
  - exists st. cbn [for_fold List.filter length map ret].
    rewrite Z.add_0_r, app_nil_r.
    split; [reflexivity|]. split; [exact Hsame|reflexivity].
  - destruct Hsame as (Hlen & Hfiles & Htests).
    assert (i < length (st_tests st0))%nat as Hlt
      by (apply (Hvalid (i, (inp, args))); left; reflexivity).
    destruct (lookup_lt_is_Some_2 _ _ Hlt) as [test0 Hi0].
    assert (i < length (st_tests st))%nat as Hlt' by lia.
    destruct (lookup_lt_is_Some_2 _ _ Hlt') as [test Hi].
    destruct (Htests i test0 test Hi0 Hi) as [Hpath Hid].
    assert (compare_test_file E test inp args
            = compare_test_file E test0 inp args) as Hfile
      by (unfold compare_test_file; rewrite Hpath, Hid; reflexivity).
    assert (test_file_exists E st0 (i, (inp, args))
            = path_exists E (st_world st) (compare_test_file E test inp args))
      as Hex.
    { unfold test_file_exists. cbn [fst snd]. rewrite Hi0, Hfile, Hfiles.
      reflexivity. }
    cbn [for_fold List.filter]. unfold test_file_missing at 1. rewrite Hex.
    cbn [fst snd]. unfold bind.
    destruct (path_exists E (st_world st) (compare_test_file E test inp args))
      eqn:Hthere.
    + rewrite (compare_subrun_present E verbose i inp args acc st test Hi Hthere).
      cbn [negb].
      match goal with
      | |- exists st', for_fold _ _ _ ?s1 = _ /\ _ =>
          destruct (IH acc s1) as (st' & Hrun & Hsame' & Hcalls)
      end.
      { destruct (Hkeeps test inp args (st_world st)) as (Hw & Hp & Ht).
        split; [cbn [st_tests]; rewrite length_insert; exact Hlen|].
        split; [intros file; cbn [st_world]; rewrite Hw; apply Hfiles|].
        intros j t0 t' Hj0 Hj. cbn [st_tests] in Hj.
        destruct (Nat.eq_dec j i) as [->|Hne].
        - rewrite list_lookup_insert_eq in Hj by exact Hlt'.
          injection Hj as <-. rewrite Hi0 in Hj0. injection Hj0 as <-.
          split; congruence.
        - rewrite list_lookup_insert_ne in Hj by congruence.
          apply (Htests j); assumption. }
      { intros s Hs. apply Hvalid. right. exact Hs. }
      exists st'. split; [exact Hrun|]. split; [exact Hsame'|].
      rewrite Hcalls. cbn [st_calls map]. rewrite <- app_assoc. reflexivity.
    + rewrite (compare_subrun_missing E verbose i inp args acc st test Hi Hthere).
      cbn [negb length].
      match goal with
      | |- exists st', for_fold _ _ _ ?s1 = _ /\ _ =>
          destruct (IH (acc + 1) s1) as (st' & Hrun & Hsame' & Hcalls)
      end.
      { split; [exact Hlen|]. split; [exact Hfiles|exact Htests]. }
      { intros s Hs. apply Hvalid. right. exact Hs. }
      exists st'. split; [|split; [exact Hsame'|exact Hcalls]].
      rewrite Hrun. f_equal. f_equal. lia.
Qed.

Lemma subruns_from_valid (tests : list Test) :
  forall (a : nat) (s : nat * (string * string)),
    In s (subruns_from a tests) -> (fst s < a + length tests)%nat.
Proof.
  induction tests as [|test tests IH]; intros a s Hin; [destruct Hin|].
  cbn [subruns_from] in Hin. apply in_app_or in Hin as [Hin|Hin].
  - apply in_map_iff in Hin as (ia & <- & _). cbn [fst length]. lia.
  - apply IH in Hin. cbn [length]. lia.
Qed.
End CompareAll.

(** C5: in [compare_tests], a sub-run whose test output file does not exist
    adds one to the skip count and [test.verify_job] is not called for it:
    the tests (and so every status triple), the call log and the operating
    system are as before; a sub-run whose test file exists leaves the skip
    count alone and calls [test.verify_job] once; the skip count that
    [compare_tests] returns and the number of [test.verify_job] calls it
    made add up to the number of sub-runs; [compare_tests] does this for
    each sub-run of each test once, in list order, starting from a skip
    count of 0; and when [test.verify_job] leaves the files alone, the skip
    count returned is the number of the sub-runs whose test file is missing
    and the calls made are the calls of [test.verify_job] for the sub-runs
    whose test file exists, in list order, and no other. *)
Theorem C5_missing_test_file_is_skipped {W : Type} (E : Externals W)
    (verbose : bool) :
  (forall (st : State W) i test inp args nskipped,
     st_tests st !! i = Some test ->
     path_exists E (st_world st) (compare_test_file E test inp args) = false ->
     exists st',
       compare_subrun E verbose i (inp, args) nskipped st
         = (inr (nskipped + 1), st') /\
       st_tests st' = st_tests st /\ st_calls st' = st_calls st /\
       st_world st' = st_world st) /\
  (forall (st : State W) i test inp args nskipped,
     st_tests st !! i = Some test ->
     path_exists E (st_world st) (compare_test_file E test inp args) = true ->
     exists st',
       compare_subrun E verbose i (inp, args) nskipped st
         = (inr nskipped, st') /\
       st_calls st' = st_calls st ++ [CallVerifyJob i inp args verbose]) /\
  (forall st : State W,
     exists nskipped st' calls,
       compare_tests E verbose st = (inr nskipped, st') /\
       st_calls st' = st_calls st ++ calls /\
       Forall is_verify_call calls /\
       0 <= nskipped /\
       nskipped + Z.of_nat (length calls)
         = Z.of_nat (subruns (st_tests st))) /\
  (forall st : State W,
     compare_tests E verbose st
     = for_fold (all_subruns (st_tests st))
         (fun s => compare_subrun E verbose (fst s) (snd s)) 0 st) /\
  (verify_job_keeps_files E verbose ->
   forall st : State W,
     exists st',
       compare_tests E verbose st
       = (inr (Z.of_nat
                 (length (List.filter (test_file_missing E st)
                                      (all_subruns (st_tests st))))),
          st') /\
       st_calls st'
       = st_calls st
         ++ map (verify_call verbose)
                (List.filter (test_file_exists E st)
                             (all_subruns (st_tests st)))).
Proof.
  assert (forall st : State W,
             compare_tests E verbose st
             = for_fold (all_subruns (st_tests st))
                 (fun s => compare_subrun E verbose (fst s) (snd s)) 0 st)
    as Hall.
  { intros st. unfold compare_tests, bind. cbn [get_tests].
    apply compare_all_from. apply drop_0. }
  split; [|split; [|split; [|split]]].
  - intros st i test inp args nskipped Hi Hmiss. eexists. split.
    + apply (compare_subrun_missing E verbose i inp args nskipped st test Hi Hmiss).
    + repeat split; reflexivity.
  - intros st i test inp args nskipped Hi Hthere. eexists. split.
    + apply (compare_subrun_present E verbose i inp args nskipped st test Hi Hthere).
    + reflexivity.
  - intros st. unfold compare_tests, bind. cbn [get_tests].
    destruct (compare_outer_effect E verbose (length (st_tests st)) 0 0 st)
      as (n & st' & calls & Hrun & Hcalls & Hq & Hle & Hsum); [lia|].
    exists n, st', calls. rewrite drop_0, firstn_all in Hsum.
    repeat split; assumption.
  - exact Hall.
  - intros Hkeeps st. rewrite Hall.
    destruct (compare_stable E verbose st (all_subruns (st_tests st)) Hkeeps
                0 st (same_test_files_refl E st))
      as (st' & Hrun & _ & Hcalls).
    { intros s Hs. apply subruns_from_valid in Hs. exact Hs. }
    exists st'. split; [exact Hrun|exact Hcalls].
Qed.

Lemma C5_second_sub_run_skipped :
  st_tests half_run_state !! 0%nat = Some (sample_test 1 (0, 0, 0)) /\
  path_exists sample_externals (st_world half_run_state)
    (compare_test_file sample_externals (sample_test 1 (0, 0, 0)) "in2" "")
    = false /\
  (exists st',
     compare_subrun sample_externals false 0 ("in2", "") 0 half_run_state
       = (inr (0 + 1), st') /\
     st_tests st' = st_tests half_run_state /\
     st_calls st' = st_calls half_run_state /\
     st_world st' = st_world half_run_state) /\
  compare_tests sample_externals false half_run_state
  = (inr 1,
     mkState [sample_test 1 (1, 0, 1)] (st_world half_run_state) [] []
             [CallVerifyJob 0 "in1" "" false]) /\
  verify_job_keeps_files sample_externals false /\
  List.filter (test_file_missing sample_externals half_run_state)
              (all_subruns (st_tests half_run_state))
  = [(0%nat, ("in2", ""))] /\
  List.filter (test_file_exists sample_externals half_run_state)
              (all_subruns (st_tests half_run_state))
  = [(0%nat, ("in1", ""))] /\
  exists st',
    compare_tests sample_externals false half_run_state
    = (inr (Z.of_nat (length [(0%nat, ("in2", ""))])), st') /\
    st_calls st' = [] ++ map (verify_call false) [(0%nat, ("in1", ""))].
Proof.
  assert (verify_job_keeps_files sample_externals false) as Hkeeps.
  { intros test inp args w. repeat split; reflexivity. }
  split; [reflexivity|]. split; [reflexivity|].
  split; [|split; [reflexivity|split; [exact Hkeeps|]]].
  - apply (proj1 (C5_missing_test_file_is_skipped sample_externals false)
                 half_run_state 0%nat (sample_test 1 (0, 0, 0)) "in2" "" 0);
      reflexivity.
  - split; [reflexivity|]. split; [reflexivity|].
    apply (proj2 (proj2 (proj2 (proj2
             (C5_missing_test_file_is_skipped sample_externals false))))
           Hkeeps half_run_state).
Defined.

(** ** [make_benchmarks] *)

Lemma ask_loop_calls (prompt : string) (stdin : list string) :
  forall ans calls r rest,
    ask_loop prompt ans stdin = (calls, r, rest) ->
    Forall (fun c => c = CallInput prompt) calls /\
    (not_y_or_n ans = true -> exists calls', calls = CallInput prompt :: calls') /\
    (not_y_or_n ans = false -> calls = [] /\ r = inr ans /\ rest = stdin).
Proof.
  induction stdin as [|line stdin IH]; intros ans calls r rest H;
    cbn [ask_loop] in H; destruct (not_y_or_n ans) eqn:Hyn.
  - injection H as <- <- <-. split; [repeat constructor|].
    split; [eexists; reflexivity|discriminate].
  - injection H as <- <- <-. split; [constructor|].
    split; [discriminate|repeat split; reflexivity].
  - destruct (ask_loop prompt line stdin) as [[calls1 r1] rest1] eqn:Hrec.
    injection H as <- <- <-. destruct (IH _ _ _ _ Hrec) as (Hall & _ & _).
    split; [constructor; [reflexivity|assumption]|].
    split; [eexists; reflexivity|discriminate].
  - injection H as <- <- <-. split; [constructor|].
    split; [discriminate|repeat split; reflexivity].
Qed.

(** C6: when [npassed != nran] and the answer that ends the confirmation
    loop is not ['y'], [make_benchmarks] returns having only printed its
    notice and read the answers: the tests and the operating system (the
    benchmark files and the userconfig file with them) are as before, and
    the only calls made are the confirmation prompts, so
    [create_new_benchmarks] is called on no test and the userconfig file is
    neither read nor written. *)
Theorem C6_declined_promotion_changes_nothing {W : Type} (E : Externals W)
    (test_programs : list (string * TestProgram)) (userconfig : option string)
    (copy_files_since : Z) (st : State W) (calls : list call) (ans : string)
    (rest : list string) :
  npassed_of (st_tests st) <> nran_of (st_tests st) ->
  ask_loop confirm_prompt "" (st_stdin st) = (calls, inr ans, rest) ->
  ans <> "y" ->
  make_benchmarks E test_programs userconfig copy_files_since st
  = (inr tt,
     mkState (st_tests st) (st_world st) rest
             (st_stdout st ++ ["Not all tests passed."])
             (st_calls st ++ calls)) /\
  Forall (fun c => c = CallInput confirm_prompt) calls.
Proof.
  intros Hne Hask Hans. split.
  - unfold make_benchmarks. unfold bind at 1. cbn [get_tests].
    apply Z.eqb_neq in Hne. rewrite Hne. cbn [negb].
    unfold bind at 1. cbn [print].
    unfold bind at 1. unfold ask at 1.
    cbn [st_stdin st_tests st_world st_stdout st_calls]. rewrite Hask.
    apply String.eqb_neq in Hans. rewrite Hans. reflexivity.
  - apply (ask_loop_calls _ _ _ _ _ _ Hask).
Qed.

Lemma C6_scenario_E :
  npassed_of (st_tests scenario_E_state) <> nran_of (st_tests scenario_E_state) /\
  ask_loop confirm_prompt "" (st_stdin scenario_E_state)
    = ([CallInput confirm_prompt; CallInput confirm_prompt], inr "n", ["y"]) /\
  "n" <> "y" /\
  make_benchmarks sample_externals git_programs (Some "userconfig") 0
                  scenario_E_state
  = (inr tt,
     mkState (st_tests scenario_E_state) (st_world scenario_E_state) ["y"]
             ["Not all tests passed."]
             [CallInput confirm_prompt; CallInput confirm_prompt]).
Proof.
  split; [discriminate|]. split; [reflexivity|]. split; [discriminate|].
  apply (C6_declined_promotion_changes_nothing sample_externals git_programs
           (Some "userconfig") 0 scenario_E_state
           [CallInput confirm_prompt; CallInput confirm_prompt] "n" ["y"]);
    [discriminate | reflexivity | discriminate].
Defined.

Section PromotionFacts.
Context {W : Type} (E : Externals W).

Lemma ask_logs (ans : string) (st : State W) :
  exists calls,
    st_calls (snd (ask confirm_prompt ans st)) = st_calls st ++ calls /\
    Forall (fun c => c = CallInput confirm_prompt) calls /\
    (not_y_or_n ans = true ->
     exists calls', calls = CallInput confirm_prompt :: calls').
Proof.
  unfold ask.
  destruct (ask_loop confirm_prompt ans (st_stdin st)) as [[calls r] rest] eqn:H.
  exists calls. destruct (ask_loop_calls _ _ _ _ _ _ H) as (Hall & Hhead & _).
  repeat split; assumption.
Qed.

(** Past the confirmation, [make_benchmarks] never asks for it. *)
Lemma promote_logs (test_programs : list (string * TestProgram))
    (userconfig : option string) (copy_files_since : Z) :
  keeps (logs not_confirmation)
        (promote E test_programs userconfig copy_files_since).
Proof.
  unfold promote, vcs_info, create_new_benchmarks, update_userconfig.
  keeps_with (@logs_refl W not_confirmation) (@logs_trans W not_confirmation)
    ltac:(first [ apply logs_print | apply logs_set_world | apply logs_set_test
                | apply logs_one; discriminate
                | apply logs_compat_input; intros Heq; injection Heq;
                  cbn; discriminate ]).
Qed.

Lemma vcs_loop_same_tests (test_programs : list (string * TestProgram))
    (vcs_ids : list (string * string)) :
  keeps same_tests (for_fold test_programs (@vcs_info W) vcs_ids).
Proof.
  unfold vcs_info.
  keeps_with (@same_tests_refl W) (@same_tests_trans W)
    ltac:(first [ solve [intros ?; reflexivity]
                | solve [intros st; unfold compat_input;
                         destruct (st_stdin st); reflexivity] ]).
Qed.

Lemma vcs_loop_same_world (test_programs : list (string * TestProgram))
    (vcs_ids : list (string * string)) :
  keeps (fun st st' : State W => st_world st' = st_world st)
        (for_fold test_programs (@vcs_info W) vcs_ids).
Proof.
  unfold vcs_info.
  assert (forall a : State W, st_world a = st_world a) as Hrefl by reflexivity.
  assert (forall a b c : State W,
             st_world b = st_world a -> st_world c = st_world b ->
             st_world c = st_world a) as Htrans by congruence.
  keeps_with Hrefl Htrans
    ltac:(first [ solve [intros ?; reflexivity]
                | solve [intros st; unfold compat_input;
                         destruct (st_stdin st); reflexivity] ]).
Qed.

(** The loop "Create benchmarks" calls [create_new_benchmarks] on every
    test, in list order, each call working on what the one before it
    left. *)
Lemma create_loop_state (benchmark : string) (since : Z) (todo : list Test) :
  forall (a : nat) (st : State W),
    drop a (st_tests st) = todo ->
    for_each (seq a (length todo)) (create_new_benchmarks E benchmark since) st
    = (inr tt,
       mkState
         (take a (st_tests st)
          ++ fst (create_all E benchmark since todo (st_world st)))
         (snd (create_all E benchmark since todo (st_world st)))
         (st_stdin st) (st_stdout st)
         (st_calls st
          ++ map (fun i => CallCreateNewBenchmarks i benchmark since)
                 (seq a (length todo)))).
Proof.
  induction todo as [|test todo IH]; intros a st Hdrop.
  - cbn [length seq for_each ret map create_all fst snd].
    pose proof (take_drop a (st_tests st)) as Htd.
    rewrite Hdrop in Htd. rewrite !app_nil_r in *. rewrite Htd.
    destruct st; reflexivity.
  - assert (st_tests st !! a = Some test) as Hi.
    { rewrite <- (Nat.add_0_r a), <- lookup_drop, Hdrop. reflexivity. }
    assert (a < length (st_tests st))%nat as Hlt
      by (eapply lookup_lt_Some; eassumption).
    cbn [length seq for_each]. unfold bind at 1.
    unfold create_new_benchmarks at 1. unfold bind, get_test. rewrite Hi.
    cbn [get_world log set_test set_world fst snd
         st_tests st_world st_stdin st_stdout st_calls].
    rewrite IH.
    + cbn [st_tests st_world st_stdin st_stdout st_calls create_all fst snd map].
      rewrite (take_S_r _ a
                 (fst (ext_create_new_benchmarks E test benchmark since
                                                 (st_world st))))
        by (apply list_lookup_insert_eq; exact Hlt).
      rewrite take_insert_ge by lia.
      rewrite <- !app_assoc. reflexivity.
    + cbn [st_tests]. rewrite drop_insert_lt by lia.
      rewrite (drop_S _ _ _ Hi) in Hdrop. injection Hdrop as Hdrop.
      exact Hdrop.
Qed.

Lemma update_userconfig_none (userconfig : option string)
    (benchmark : string) (st : State W) :
  truthy userconfig = false ->
  update_userconfig E userconfig benchmark st = (inr tt, st).
Proof.
  intros Hfalse. unfold update_userconfig.
  destruct userconfig as [file|]; [rewrite Hfalse|]; reflexivity.
Qed.

Lemma update_userconfig_no_section (file benchmark : string) (st : State W) :
  truthy (Some file) = true ->
  config_has_section E (st_world st) file "user" = false ->
  update_userconfig E (Some file) benchmark st
  = (inl (NoSectionError "user"),
     mkState (st_tests st) (st_world st) (st_stdin st)
             (st_stdout st ++ [userconfig_notice benchmark])
             (st_calls st ++ [CallConfigRead file])).
Proof.
  intros Htrue Hsec. unfold update_userconfig. rewrite Htrue.
  unfold bind, print, log, get_world.
  cbn [fst snd st_tests st_world st_stdin st_stdout st_calls].
  rewrite Hsec. reflexivity.
Qed.

Lemma update_userconfig_not_opened (file benchmark : string) (e : exn)
    (st : State W) :
  truthy (Some file) = true ->
  config_has_section E (st_world st) file "user" = true ->
  open_write_raises E (st_world st) file = Some e ->
  update_userconfig E (Some file) benchmark st
  = (inl e,
     mkState (st_tests st) (st_world st) (st_stdin st)
             (st_stdout st ++ [userconfig_notice benchmark])
             (st_calls st ++ [CallConfigRead file])).
Proof.
  intros Htrue Hsec Hopen. unfold update_userconfig. rewrite Htrue.
  unfold bind, print, log, get_world.
  cbn [fst snd st_tests st_world st_stdin st_stdout st_calls].
  rewrite Hsec, Hopen. reflexivity.
Qed.

Lemma update_userconfig_rewritten (file benchmark : string) (st : State W) :
  truthy (Some file) = true ->
  config_has_section E (st_world st) file "user" = true ->
  open_write_raises E (st_world st) file = None ->
  update_userconfig E (Some file) benchmark st
  = (inr tt,
     mkState (st_tests st) (config_update E file benchmark (st_world st))
             (st_stdin st)
             (st_stdout st ++ [userconfig_notice benchmark])
             (st_calls st
              ++ [CallConfigRead file; CallConfigWrite file benchmark])).
Proof.
  intros Htrue Hsec Hopen. unfold update_userconfig. rewrite Htrue.
  unfold bind, print, log, get_world.
  cbn [fst snd st_tests st_world st_stdin st_stdout st_calls].
  rewrite Hsec, Hopen. unfold bind, log, set_world.
  cbn [negb fst snd st_tests st_world st_stdin st_stdout st_calls].
  rewrite <- app_assoc. reflexivity.
Qed.

(** Once the code identifiers are known, [make_benchmarks] creates the
    benchmarks of every test and turns to the userconfig file. *)
Lemma promote_after_ids (test_programs : list (string * TestProgram))
    (userconfig : option string) (copy_files_since : Z) (st st1 : State W)
    (vcs_ids : list (string * string)) :
  for_fold test_programs (@vcs_info W) [] st = (inr vcs_ids, st1) ->
  promote E test_programs userconfig copy_files_since st
  = update_userconfig E userconfig (benchmark_label vcs_ids)
      (mkState
         (fst (create_all E (benchmark_label vcs_ids) copy_files_since
                          (st_tests st) (st_world st)))
         (snd (create_all E (benchmark_label vcs_ids) copy_files_since
                          (st_tests st) (st_world st)))
         (st_stdin st1) (st_stdout st1)
         (st_calls st1
          ++ create_calls (length (st_tests st)) (benchmark_label vcs_ids)
                          copy_files_since)).
Proof.
  intros Hvcs. unfold promote. unfold bind at 1. rewrite Hvcs.
  unfold bind at 1. cbn [get_tests]. unfold bind at 1.
  pose proof (vcs_loop_same_tests test_programs [] st) as Htests.
  pose proof (vcs_loop_same_world test_programs [] st) as Hworld.
  rewrite Hvcs in Htests, Hworld. unfold same_tests in Htests.
  cbn [snd] in Htests, Hworld.
  rewrite (create_loop_state (benchmark_label vcs_ids) copy_files_since
             (st_tests st1) 0 st1 (drop_0 _)).
  rewrite take_0. cbn [app]. rewrite Htests, Hworld. reflexivity.
Qed.

(** What [make_benchmarks] leaves behind once the code identifiers are
    known, by what becomes of the userconfig file. *)
Lemma promote_outcome (test_programs : list (string * TestProgram))
    (userconfig : option string) (copy_files_since : Z) (st st1 : State W)
    (vcs_ids : list (string * string)) :
  for_fold test_programs (@vcs_info W) [] st = (inr vcs_ids, st1) ->
  let benchmark := benchmark_label vcs_ids in
  let made :=
    create_all E benchmark copy_files_since (st_tests st) (st_world st) in
  let calls :=
    st_calls st1
    ++ create_calls (length (st_tests st)) benchmark copy_files_since in
  let notice := userconfig_notice benchmark in
  (truthy userconfig = false ->
   promote E test_programs userconfig copy_files_since st
   = (inr tt,
      mkState (fst made) (snd made) (st_stdin st1) (st_stdout st1) calls)) /\
  (forall file,
     userconfig = Some file -> truthy userconfig = true ->
     (config_has_section E (snd made) file "user" = false ->
      promote E test_programs userconfig copy_files_since st
      = (inl (NoSectionError "user"),
         mkState (fst made) (snd made) (st_stdin st1)
                 (st_stdout st1 ++ [notice])
                 (calls ++ [CallConfigRead file]))) /\
     (forall e,
        config_has_section E (snd made) file "user" = true ->
        open_write_raises E (snd made) file = Some e ->
        promote E test_programs userconfig copy_files_since st
        = (inl e,
           mkState (fst made) (snd made) (st_stdin st1)
                   (st_stdout st1 ++ [notice])
                   (calls ++ [CallConfigRead file]))) /\
     (config_has_section E (snd made) file "user" = true ->
      open_write_raises E (snd made) file = None ->
      promote E test_programs userconfig copy_files_since st
      = (inr tt,
         mkState (fst made) (config_update E file benchmark (snd made))
                 (st_stdin st1) (st_stdout st1 ++ [notice])
                 (calls
                  ++ [CallConfigRead file; CallConfigWrite file benchmark])))).
Proof.
  intros Hvcs benchmark made calls notice.
  rewrite (promote_after_ids test_programs userconfig copy_files_since st st1
             vcs_ids Hvcs).
  fold benchmark. fold made. fold calls.
  split.
  - intros Hfalse. apply update_userconfig_none. exact Hfalse.
  - intros file -> Htrue. split; [|split].
    + intros Hsec. apply update_userconfig_no_section; assumption.
    + intros e Hsec Hopen. apply update_userconfig_not_opened; assumption.
    + intros Hsec Hopen. apply update_userconfig_rewritten; assumption.
Qed.

(** When the code identifiers cannot be obtained, nothing is created. *)
Lemma promote_without_ids (test_programs : list (string * TestProgram))
    (userconfig : option string) (copy_files_since : Z) (st st1 : State W)
    (e : exn) :
  for_fold test_programs (@vcs_info W) [] st = (inl e, st1) ->
  promote E test_programs userconfig copy_files_since st = (inl e, st1).
Proof.
  intros Hvcs. unfold promote. unfold bind at 1. rewrite Hvcs. reflexivity.
Qed.
End PromotionFacts.

Lemma vcs_loop_logs {W : Type} (test_programs : list (string * TestProgram))
    (vcs_ids : list (string * string)) :
  keeps (logs not_confirmation)
        (for_fold test_programs (@vcs_info W) vcs_ids).
Proof.
  unfold vcs_info.
  keeps_with (@logs_refl W not_confirmation) (@logs_trans W not_confirmation)
    ltac:(first [ apply logs_print
                | apply logs_one; discriminate
                | apply logs_compat_input; intros Heq; injection Heq;
                  cbn; discriminate ]).
Qed.

Lemma make_benchmarks_all_passed {W : Type} (E : Externals W)
    (test_programs : list (string * TestProgram)) (userconfig : option string)
    (copy_files_since : Z) (st : State W) :
  npassed_of (st_tests st) = nran_of (st_tests st) ->
  make_benchmarks E test_programs userconfig copy_files_since st
  = promote E test_programs userconfig copy_files_since st.
Proof.
  intros Hall. unfold make_benchmarks. unfold bind at 1. cbn [get_tests].
  apply Z.eqb_eq in Hall. rewrite Hall. reflexivity.
Qed.

(** C10: [make_benchmarks] asks for confirmation exactly when
    [npassed != nran].  In particular, when no sub-run has run
    ([npassed = nran = 0]) it goes on without the question.  Once the code
    identifiers have been obtained it calls [create_new_benchmarks] on every
    test in turn, which leaves the tests and the operating system as
    [create_all] gives them, and then turns to the userconfig file: it does
    nothing more when none is given; it fails with [NoSectionError] when the
    file given has no section [user], and with the exception of [open] when
    the file cannot be opened for writing, in both cases after the
    benchmarks have been created and without rewriting the file; and
    otherwise it rewrites the file with the new benchmark and returns.  When
    the code identifiers cannot be obtained, the exception escapes with
    nothing created. *)
Theorem C10_confirmation_iff_not_all_passed {W : Type} (E : Externals W)
    (test_programs : list (string * TestProgram)) (userconfig : option string)
    (copy_files_since : Z) :
  (forall st : State W,
     exists calls,
       st_calls (snd (make_benchmarks E test_programs userconfig
                                      copy_files_since st))
         = st_calls st ++ calls /\
       (In (CallInput confirm_prompt) calls <->
        npassed_of (st_tests st) <> nran_of (st_tests st))) /\
  (forall (st st1 : State W) (vcs_ids : list (string * string)),
     npassed_of (st_tests st) = 0 -> nran_of (st_tests st) = 0 ->
     for_fold test_programs vcs_info [] st = (inr vcs_ids, st1) ->
     let benchmark := benchmark_label vcs_ids in
     let made :=
       create_all E benchmark copy_files_since (st_tests st) (st_world st) in
     let calls :=
       st_calls st1
       ++ create_calls (length (st_tests st)) benchmark copy_files_since in
     let notice := userconfig_notice benchmark in
     (exists asked,
        st_calls st1 = st_calls st ++ asked /\
        Forall not_confirmation asked) /\
     (truthy userconfig = false ->
      make_benchmarks E test_programs userconfig copy_files_since st
      = (inr tt,
         mkState (fst made) (snd made) (st_stdin st1) (st_stdout st1)
                 calls)) /\
     (forall file,
        userconfig = Some file -> truthy userconfig = true ->
        (config_has_section E (snd made) file "user" = false ->
         make_benchmarks E test_programs userconfig copy_files_since st
         = (inl (NoSectionError "user"),
            mkState (fst made) (snd made) (st_stdin st1)
                    (st_stdout st1 ++ [notice])
                    (calls ++ [CallConfigRead file]))) /\
        (forall e,
           config_has_section E (snd made) file "user" = true ->
           open_write_raises E (snd made) file = Some e ->
           make_benchmarks E test_programs userconfig copy_files_since st
           = (inl e,
              mkState (fst made) (snd made) (st_stdin st1)
                      (st_stdout st1 ++ [notice])
                      (calls ++ [CallConfigRead file]))) /\
        (config_has_section E (snd made) file "user" = true ->
         open_write_raises E (snd made) file = None ->
         make_benchmarks E test_programs userconfig copy_files_since st
         = (inr tt,
            mkState (fst made) (config_update E file benchmark (snd made))
                    (st_stdin st1) (st_stdout st1 ++ [notice])
                    (calls
                     ++ [CallConfigRead file;
                         CallConfigWrite file benchmark]))))) /\
  (forall (st st1 : State W) (e : exn),
     npassed_of (st_tests st) = 0 -> nran_of (st_tests st) = 0 ->
     for_fold test_programs vcs_info [] st = (inl e, st1) ->
     make_benchmarks E test_programs userconfig copy_files_since st
     = (inl e, st1)).
Proof.
  split; [|split].
  - intros st. unfold make_benchmarks. unfold bind at 1. cbn [get_tests].
    destruct (Z.eqb_spec (npassed_of (st_tests st)) (nran_of (st_tests st)))
      as [Heq|Hne]; cbn [negb].
    + destruct (promote_logs E test_programs userconfig copy_files_since st)
        as (calls & Hcalls & Hq).
      exists calls. split; [assumption|]. split; [|congruence].
      intros Hin. rewrite Forall_forall in Hq.
      exfalso. apply (Hq _ (proj2 (list_elem_of_In _ _) Hin)). reflexivity.
    + unfold bind at 1. cbn [print].
      match goal with
      | |- context [bind (ask confirm_prompt "") _ ?s0] => set (st0 := s0)
      end.
      destruct (ask_logs "" st0) as (ca & Hca & _ & Hhead).
      destruct (Hhead eq_refl) as [ca' ->].
      unfold bind at 1.
      destruct (ask confirm_prompt "" st0) as [[e|ans] sta];
        cbn [snd] in Hca; change (st_calls st0) with (st_calls st) in Hca.
      * exists (CallInput confirm_prompt :: ca'). cbn [snd].
        split; [assumption|]. split; [intros _; assumption|].
        intros _. left. reflexivity.
      * destruct (negb (String.eqb ans "y")).
        -- exists (CallInput confirm_prompt :: ca'). cbn [ret snd].
           split; [assumption|]. split; [intros _; assumption|].
           intros _. left. reflexivity.
        -- destruct (promote_logs E test_programs userconfig copy_files_since
                                  sta) as (c2 & Hc2 & _).
           exists ((CallInput confirm_prompt :: ca') ++ c2).
           split; [rewrite Hc2, Hca; symmetry; apply app_assoc|].
           split; [intros _; assumption|].
           intros _. left. reflexivity.
  - intros st st1 vcs_ids Hp Hr Hvcs benchmark made calls notice.
    rewrite (make_benchmarks_all_passed E test_programs userconfig
               copy_files_since st) by congruence.
    split.
    + destruct (vcs_loop_logs test_programs [] st) as (asked & Hc & Hq).
      rewrite Hvcs in Hc. cbn [snd] in Hc. exists asked. split; assumption.
    + exact (promote_outcome E test_programs userconfig copy_files_since
               st st1 vcs_ids Hvcs).
  - intros st st1 e Hp Hr Hvcs.
    rewrite (make_benchmarks_all_passed E test_programs userconfig
               copy_files_since st) by congruence.
    apply promote_without_ids. exact Hvcs.
Qed.

Lemma C10_nothing_ran_promotes_unasked :
  npassed_of (st_tests fresh_state) = 0 /\
  nran_of (st_tests fresh_state) = 0 /\
  for_fold git_programs vcs_info [] fresh_state
  = (inr [("prog", "abc123")],
     mkState (st_tests fresh_state) (st_world fresh_state) [] []
             [CallGetCodeId "prog"]) /\
  config_has_section userconfig_externals
    (["userconfig"; "h2o/benchmark.out.abc123"; "co2/benchmark.out.abc123"],
     [("userconfig", "bench1")]) "userconfig" "user" = true /\
  open_write_raises userconfig_externals
    (["userconfig"; "h2o/benchmark.out.abc123"; "co2/benchmark.out.abc123"],
     [("userconfig", "bench1")]) "userconfig" = None /\
  make_benchmarks userconfig_externals git_programs (Some "userconfig") 7
                  fresh_state
  = (inr tt,
     mkState
       [test_in "h2o"; test_in "co2"]
       (["userconfig"; "h2o/benchmark.out.abc123";
         "co2/benchmark.out.abc123"],
        [("userconfig", "abc123")])
       []
       ["Setting new benchmark in userconfig to be abc123."]
       [CallGetCodeId "prog";
        CallCreateNewBenchmarks 0 "abc123" 7;
        CallCreateNewBenchmarks 1 "abc123" 7;
        CallConfigRead "userconfig";
        CallConfigWrite "userconfig" "abc123"]).
Proof.
  split; [reflexivity|]. split; [reflexivity|]. split; [reflexivity|].
  split; [reflexivity|]. split; [reflexivity|].
  exact (proj2 (proj2 (proj2 (proj2 (proj1 (proj2
           (C10_confirmation_iff_not_all_passed userconfig_externals
              git_programs (Some "userconfig") 7))
           fresh_state
           (mkState (st_tests fresh_state) (st_world fresh_state) [] []
                    [CallGetCodeId "prog"])
           [("prog", "abc123")] eq_refl eq_refl eq_refl))
           "userconfig" eq_refl eq_refl)) eq_refl eq_refl).
Defined.

(** C10, as stated, fails: no sub-run has run and a userconfig file is
    given that has no section [user]; [make_benchmarks] asks nothing and
    creates the benchmarks of both tests, but then [config.set] raises
    [NoSectionError] and the userconfig file is not rewritten. *)
Lemma C10_userconfig_without_user_section :
  npassed_of (st_tests no_user_section_state) = 0 /\
  nran_of (st_tests no_user_section_state) = 0 /\
  make_benchmarks userconfig_externals git_programs (Some "userconfig") 7
                  no_user_section_state
  = (inl (NoSectionError "user"),
     mkState
       [test_in "h2o"; test_in "co2"]
       (["userconfig"; "h2o/benchmark.out.abc123";
         "co2/benchmark.out.abc123"], [])
       []
       ["Setting new benchmark in userconfig to be abc123."]
       [CallGetCodeId "prog";
        CallCreateNewBenchmarks 0 "abc123" 7;
        CallCreateNewBenchmarks 1 "abc123" 7;
        CallConfigRead "userconfig"]) /\
  ~ In (CallConfigWrite "userconfig" "abc123")
       (st_calls (snd (make_benchmarks userconfig_externals git_programs
                         (Some "userconfig") 7 no_user_section_state))).
Proof.
  split; [reflexivity|]. split; [reflexivity|]. split; [reflexivity|].
  cbn. intros [H|[H|[H|[H|[]]]]]; discriminate.
Qed.

(** * Further properties *)

(** ** The worker threads: no spurious failure, resources returned *)

Lemma release_has_room (s : sys) (i : nat) (th : thread) :
  sys_ok s -> threads s !! i = Some th ->
  (nprocs_used (th_test th) + 3 <= pc th < 2 * nprocs_used (th_test th) + 3)%nat ->
  sem_value s < sem_initial s.
Proof.
  intros Hok Hi Hpc. pose proof Hok as (Hsem & Hsum & _ & Hth).
  destruct (Hth i th Hi) as [Hthok _].
  assert (held th <= sumZ (map held (threads s))) as Hle.
  { apply (sumZ_map_lookup_le held _ i); [|assumption].
    intros y Hy. apply held_nonneg. apply (thread_ok_in s); assumption. }
  unfold thread_ok in Hthok. cbv zeta in Hthok.
  destruct Hthok as (Ha & Hr & _). unfold held in Hle at 1. lia.
Qed.

Lemma step_none_raised (l : label) (s s' : sys) :
  sys_ok s -> none_raised s -> is_raise l = false ->
  step l s = Some s' -> none_raised s'.
Proof.
  intros Hok Hnone Hl Hstep.
  assert (forall i th th', threads s !! i = Some th -> th_phase th' <> Raised ->
            forall j thj, <[i:=th']> (threads s) !! j = Some thj ->
                          th_phase thj <> Raised) as Hins.
  { intros i th th' Hi Hph j thj Hj. destruct (decide (i = j)) as [<-|Hne].
    - rewrite list_lookup_insert_eq in Hj by (eapply lookup_lt_Some; eassumption).
      injection Hj as <-. assumption.
    - rewrite list_lookup_insert_ne in Hj by assumption. apply (Hnone j thj Hj). }
  destruct l as [|i|i]; cbn [step] in Hstep; [| |discriminate].
  - destruct (started s <? length (threads s))%nat; [|discriminate].
    injection Hstep as <-. exact Hnone.
  - destruct (Nat.ltb_spec i (started s)) as [Hlt|]; [|discriminate].
    destruct (threads s !! i) as [th|] eqn:Hi; [|discriminate].
    pose proof (nprocs_used_pos (th_test th)) as Hn.
    destruct (th_phase th) eqn:Hph; [| |discriminate].
    + rewrite worker_lookup in Hstep. cbv zeta in Hstep.
      destruct (Nat.eqb_spec (pc th) 0) as [Hp0|Hp0].
      { cbn [exec_instr] in Hstep. destruct (lock_held s); [discriminate|].
        injection Hstep as <-. unfold none_raised. cbn [threads].
        apply (Hins i th); [assumption|discriminate]. }
      destruct (Nat.leb_spec (pc th) (nprocs_used (th_test th))) as [Hp1|Hp1].
      { cbn [exec_instr] in Hstep.
        destruct (sem_value s >? 0); [|discriminate].
        injection Hstep as <-. unfold none_raised. cbn [threads].
        apply (Hins i th); [assumption|discriminate]. }
      destruct (Nat.eqb_spec (pc th) (nprocs_used (th_test th) + 1)) as [Hp2|Hp2].
      { assert (lock_held s = true) as Hlock.
        { apply (registering_locked s i th); try assumption.
          unfold registering. lia. }
        cbn [exec_instr] in Hstep. rewrite Hlock in Hstep.
        injection Hstep as <-. unfold none_raised. cbn [threads].
        apply (Hins i th); [assumption|discriminate]. }
      destruct (Nat.eqb_spec (pc th) (nprocs_used (th_test th) + 2)) as [Hp3|Hp3].
      { cbn [exec_instr] in Hstep. injection Hstep as <-.
        unfold none_raised, set_thread. cbn [threads].
        apply (Hins i th); [assumption|discriminate]. }
      destruct (Nat.ltb_spec (pc th) (2 * nprocs_used (th_test th) + 3)) as [Hp4|Hp4];
        [|discriminate].
      assert (sem_value s < sem_initial s) as Hroom
        by (apply (release_has_room s i th); try assumption; lia).
      cbn [exec_instr] in Hstep.
      destruct (Z.geb_spec (sem_value s) (sem_initial s)); [lia|].
      injection Hstep as <-. unfold none_raised. cbn [threads].
      apply (Hins i th); [assumption|discriminate].
    + injection Hstep as <-. unfold none_raised, set_thread. cbn [threads].
      apply (Hins i th); [assumption|discriminate].
Qed.

Lemma run_none_raised (sched : list label) (s s' : sys) :
  sys_ok s -> none_raised s -> existsb is_raise sched = false ->
  run sched s = Some s' -> none_raised s'.
Proof.
  revert s.
  induction sched as [|l sched IH]; intros s Hok Hnone Hno Hrun;
    cbn [run] in Hrun.
  - injection Hrun as <-. assumption.
  - cbn [existsb] in Hno. apply orb_false_iff in Hno as [Hl Hrest].
    destruct (step l s) as [s1|] eqn:Hstep; [|discriminate].
    apply (IH s1); try assumption.
    + eapply step_ok; eassumption.
    + eapply step_none_raised; eassumption.
Qed.

Lemma initial_none_raised (l : launch) : none_raised (initial l).
Proof.
  intros i th Hi. unfold initial in Hi. cbn [threads] in Hi.
  apply list_lookup_fmap_Some in Hi as (test & -> & _). discriminate.
Qed.

(** X1: in a concurrent run in which no [test.run_test] raises, no worker
    ever dies: [semaphore.release()] never finds the bounded semaphore at its
    bound ([ValueError]) and [semaphore_lock.release()] never finds the lock
    free. *)
Theorem workers_die_only_when_run_test_raises {W : Type} (E : Externals W)
    (verbose : bool) (cluster_queue : option string) (tot_nprocs : Z)
    (st st' : State W) (l : launch) (sched : list label) (s : sys) :
  run_tests E verbose cluster_queue tot_nprocs st = (inr (Some l), st') ->
  existsb is_raise sched = false ->
  run sched (initial l) = Some s ->
  none_raised s.
Proof.
  intros Hrun Hno Hsched.
  destruct (run_tests_launch E _ _ _ _ _ _ Hrun) as (_ & _ & Hcap & _).
  apply (run_none_raised sched (initial l)); try assumption.
  - apply initial_ok. lia.
  - apply initial_none_raised.
Qed.

Lemma workers_die_only_when_run_test_raises_scenario_B :
  run_tests sample_externals true None 3 scenario_B_state
    = (inr (Some scenario_B_launch), scenario_B_state) /\
  existsb is_raise scenario_B_schedule = false /\
  exists s, run scenario_B_schedule (initial scenario_B_launch) = Some s /\
            none_raised s.
Proof.
  split; [reflexivity|]. split; [reflexivity|].
  eexists. split; [reflexivity|].
  apply (workers_die_only_when_run_test_raises sample_externals true None 3
           scenario_B_state scenario_B_state scenario_B_launch
           scenario_B_schedule); reflexivity.
Defined.

Lemma sumZ_map_zero {A} (f : A -> Z) (l : list A) :
  (forall i x, l !! i = Some x -> f x = 0) -> sumZ (map f l) = 0.
Proof.
  induction l as [|a l IH]; intros H; [reflexivity|].
  cbn [map]. rewrite sumZ_cons, (H 0%nat a eq_refl), IH; [reflexivity|].
  intros i x Hi. apply (H (S i)). exact Hi.
Qed.

(** X2: when every worker of a concurrent run has performed all its
    operations, the semaphore is back at its initial value and the lock is
    free. *)
Theorem finished_run_returns_all_units {W : Type} (E : Externals W)
    (verbose : bool) (cluster_queue : option string) (tot_nprocs : Z)
    (st st' : State W) (l : launch) (sched : list label) (s : sys) :
  run_tests E verbose cluster_queue tot_nprocs st = (inr (Some l), st') ->
  run sched (initial l) = Some s ->
  all_finished s ->
  sem_value s = capacity l /\ lock_held s = false.
Proof.
  intros Hrun Hsched Hfin.
  destruct (launched_ok E _ _ _ _ _ _ _ _ Hrun Hsched) as (Hok & Hinit & _).
  destruct Hok as (_ & Hsum & Hlock & Hth).
  assert (forall i th, threads s !! i = Some th ->
            held th = 0 /\ critical th = 0) as Hzero.
  { intros i th Hi. destruct (Hth i th Hi) as [(Ha & Hr & _ & _) _].
    destruct (Hfin i th Hi) as [_ Hpc]. rewrite worker_length in Hpc.
    pose proof (nprocs_used_pos (th_test th)).
    unfold held, critical, registering. case_decide; lia. }
  rewrite (sumZ_map_zero held) in Hsum by (intros i x Hi; apply (Hzero i x Hi)).
  rewrite (sumZ_map_zero critical) in Hlock
    by (intros i x Hi; apply (Hzero i x Hi)).
  split; [lia|]. destruct (lock_held s); [discriminate|reflexivity].
Qed.

Lemma finished_run_returns_all_units_one_test :
  run_tests sample_externals true None 2 one_test_state
    = (inr (Some one_test_launch), one_test_state) /\
  exists s,
    run schedule_to_the_end (initial one_test_launch) = Some s /\
    all_finished s /\ sem_value s = 2 /\ lock_held s = false.
Proof.
  split; [reflexivity|].
  eexists. split; [vm_compute; reflexivity|].
  assert (all_finished
            (mkSys 2 2 false 1 [mkThread (sample_test 2 (0, 0, 0)) 7 Ready 2 2]))
    as Hfin.
  { intros [|i] th Hi; [|discriminate]. injection Hi as <-.
    split; reflexivity. }
  split; [exact Hfin|].
  apply (finished_run_returns_all_units sample_externals true None 2
           one_test_state one_test_state one_test_launch schedule_to_the_end);
    [reflexivity | vm_compute; reflexivity | exact Hfin].
Defined.

(** ** The worker threads: no deadlock *)

Lemma run_tests_demand {W : Type} (E : Externals W) (verbose : bool)
    (cluster_queue : option string) (tot_nprocs : Z) (st st' : State W)
    (l : launch) :
  run_tests E verbose cluster_queue tot_nprocs st = (inr (Some l), st') ->
  forall test, In test (jobs l) -> Z.of_nat (nprocs_used test) <= capacity l.
Proof.
  unfold run_tests. unfold bind at 1. cbn [get_tests].
  set (tot := if (tot_nprocs <=? 0) && truthy cluster_queue
              then sumZ (map nprocs (st_tests st)) else tot_nprocs).
  destruct (Z.gtb_spec tot 0) as [Hpos|Hneg].
  - destruct (py_max (map nprocs (st_tests st))) as [e|m] eqn:Hmax;
      [unfold raise; discriminate|].
    destruct (Z.gtb_spec m tot) as [|Hle]; [unfold raise; discriminate|].
    unfold ret. intros H. injection H as <- <-. cbn [jobs capacity].
    intros test Hin. rewrite nprocs_used_Z.
    destruct (py_max_ge (map nprocs (st_tests st)) (nprocs test))
      as (m' & Hm' & Hge); [apply in_map; assumption|].
    rewrite Hmax in Hm'. injection Hm' as <-. lia.
  - unfold bind.
    destruct (for_each _ _ st) as [[e|[]] st1]; unfold ret; discriminate.
Qed.

Lemma sumZ_pos_exists {A} (f : A -> Z) (l : list A) :
  0 < sumZ (map f l) -> exists j y, l !! j = Some y /\ 0 < f y.
Proof.
  induction l as [|a l IH]; [cbn; lia|].
  cbn [map]. rewrite sumZ_cons. intros Hpos.
  destruct (Z_lt_le_dec 0 (f a)) as [Ha|Ha].
  - exists 0%nat, a. split; [reflexivity|assumption].
  - destruct IH as (j & y & Hj & Hy); [lia|].
    exists (S j), y. split; assumption.
Qed.

Lemma sumZ_others_pos {A} (f : A -> Z) (l : list A) (k : nat) (x : A) :
  l !! k = Some x -> f x < sumZ (map f l) ->
  exists j y, j <> k /\ l !! j = Some y /\ 0 < f y.
Proof.
  revert k. induction l as [|a l IH]; intros [|k] Hk Hlt; try discriminate.
  - injection Hk as ->. cbn [map] in Hlt. rewrite sumZ_cons in Hlt.
    destruct (sumZ_pos_exists f l) as (j & y & Hj & Hy); [lia|].
    exists (S j), y. repeat split; [discriminate|assumption|assumption].
  - cbn [map] in Hlt. rewrite sumZ_cons in Hlt. cbn in Hk.
    destruct (Z_lt_le_dec 0 (f a)) as [Ha|Ha].
    + exists 0%nat, a. repeat split; [discriminate|assumption].
    + destruct (IH k Hk) as (j & y & Hne & Hj & Hy); [lia|].
      exists (S j), y. repeat split; [congruence|assumption|assumption].
Qed.

Ltac worker_at :=
  rewrite worker_lookup; cbv zeta;
  repeat match goal with
         | |- context [Nat.eqb ?a ?b] => destruct (Nat.eqb_spec a b); try lia
         | |- context [Nat.leb ?a ?b] => destruct (Nat.leb_spec a b); try lia
         | |- context [Nat.ltb ?a ?b] => destruct (Nat.ltb_spec a b); try lia
         end.

(** A started thread that is inside [test.run_test], or is about to release
    the lock, call [test.run_test] or release a unit, can always move. *)
Lemma past_acquiring_can_step (s : sys) (j : nat) (th : thread) :
  threads s !! j = Some th -> (j < started s)%nat ->
  th_phase th = InRunTest \/
  (th_phase th = Ready /\
   (nprocs_used (th_test th) + 1 <= pc th < 2 * nprocs_used (th_test th) + 3)%nat) ->
  exists s', step (Step j) s = Some s'.
Proof.
  intros Hj Hlt Hcase. cbn [step].
  destruct (Nat.ltb_spec j (started s)); [|lia]. rewrite Hj.
  destruct Hcase as [Hph|[Hph Hpc]]; rewrite Hph; [eexists; reflexivity|].
  worker_at; cbn [exec_instr].
  - destruct (lock_held s); eexists; reflexivity.
  - eexists; reflexivity.
  - destruct (sem_value s >=? sem_initial s); eexists; reflexivity.
Qed.

Lemma holder_can_step (s : sys) (j : nat) (th : thread) :
  sys_ok s -> threads s !! j = Some th -> th_phase th <> Raised ->
  0 < held th -> ~ registering th ->
  exists s', step (Step j) s = Some s'.
Proof.
  intros Hok Hj Hph Hheld Hnreg. pose proof Hok as (_ & _ & _ & Hth).
  destruct (Hth j th Hj) as [Hthok Hfresh].
  pose proof (nprocs_used_pos (th_test th)) as Hn.
  unfold thread_ok in Hthok. cbv zeta in Hthok.
  destruct Hthok as (Ha & Hr & Hp & Hrun).
  unfold held in Hheld. unfold registering in Hnreg.
  assert (j < started s)%nat as Hlt.
  { destruct (Nat.lt_ge_cases j (started s)) as [|Hge]; [assumption|].
    destruct (Hfresh Hge) as [Hz _]. lia. }
  apply (past_acquiring_can_step s j th Hj Hlt).
  destruct (th_phase th) eqn:Hphase; [right|left; reflexivity|congruence].
  split; [reflexivity|lia].
Qed.

Lemma registering_can_move (s : sys) (k : nat) (th : thread) :
  sys_ok s -> none_raised s ->
  (forall j thj, threads s !! j = Some thj ->
                 Z.of_nat (nprocs_used (th_test thj)) <= sem_initial s) ->
  threads s !! k = Some th -> registering th ->
  exists lab s', step lab s = Some s'.
Proof.
  intros Hok Hnone Hdemand Hk Hreg.
  pose proof Hok as (Hsem & Hsum & _ & Hth).
  destruct (Hth k th Hk) as [Hthok Hfresh].
  pose proof (nprocs_used_pos (th_test th)) as Hn.
  pose proof (Hnone k th Hk) as Hph.
  pose proof (Hdemand k th Hk) as Hdem.
  unfold thread_ok in Hthok. cbv zeta in Hthok.
  destruct Hthok as (Ha & Hr & Hp & Hrun).
  pose proof Hreg as Hreg'. unfold registering in Hreg'.
  assert (k < started s)%nat as Hlt.
  { destruct (Nat.lt_ge_cases k (started s)) as [|Hge]; [assumption|].
    destruct (Hfresh Hge) as [Hz _]. lia. }
  destruct (th_phase th) eqn:Hphase; [|specialize (Hrun eq_refl); lia|congruence].
  destruct (Nat.eq_dec (pc th) (nprocs_used (th_test th) + 1)%nat) as [Hlast|Hacq].
  { exists (Step k). apply (past_acquiring_can_step s k th Hk Hlt).
    right. split; [assumption|lia]. }
  destruct (Z_lt_le_dec 0 (sem_value s)) as [Hfree|Hnone_free].
  { exists (Step k). cbn [step].
    destruct (Nat.ltb_spec k (started s)); [|lia]. rewrite Hk, Hphase.
    worker_at. cbn [exec_instr].
    destruct (Z.gtb_spec (sem_value s) 0); [|lia]. eexists; reflexivity. }
  destruct (sumZ_others_pos held (threads s) k th Hk)
    as (j & thj & Hne & Hj & Hheld); [unfold held at 1; lia|].
  exists (Step j). apply (holder_can_step s j thj); try assumption.
  - apply (Hnone j thj Hj).
  - intros Hregj. apply Hne.
    apply (registering_exclusive s j k thj th); assumption.
Qed.

(** X3: a concurrent run started by [run_tests] cannot deadlock: as long as
    no worker has died and some worker has not performed all its operations,
    some move is possible (the main thread starts a job, or a worker
    proceeds). *)
Theorem concurrent_run_cannot_deadlock {W : Type} (E : Externals W)
    (verbose : bool) (cluster_queue : option string) (tot_nprocs : Z)
    (st st' : State W) (l : launch) (sched : list label) (s : sys)
    (k : nat) (th : thread) :
  run_tests E verbose cluster_queue tot_nprocs st = (inr (Some l), st') ->
  run sched (initial l) = Some s ->
  none_raised s ->
  threads s !! k = Some th -> ~ finished th ->
  exists lab s', step lab s = Some s'.
Proof.
  intros Hrun Hsched Hnone Hk Hunfinished.
  destruct (launched_ok E _ _ _ _ _ _ _ _ Hrun Hsched) as (Hok & Hinit & Htests).
  destruct (run_tests_launch E _ _ _ _ _ _ Hrun) as (_ & Hjobs & _ & _).
  assert (forall j thj, threads s !! j = Some thj ->
            Z.of_nat (nprocs_used (th_test thj)) <= sem_initial s) as Hdemand.
  { intros j thj Hj. rewrite Hinit.
    apply (run_tests_demand E _ _ _ _ _ _ Hrun). rewrite Hjobs, <- Htests.
    apply in_map. apply list_elem_of_In, list_elem_of_lookup. eauto. }
  destruct (Nat.ltb_spec (started s) (length (threads s))) as [Hstart|Hall].
  { exists Start. cbn [step].
    destruct (Nat.ltb_spec (started s) (length (threads s))); [|lia].
    eexists; reflexivity. }
  assert (k < started s)%nat as Hlt
    by (pose proof (lookup_lt_Some _ _ _ Hk); lia).
  pose proof Hok as (_ & _ & Hlock & Hth).
  destruct (Hth k th Hk) as [Hthok _].
  pose proof (nprocs_used_pos (th_test th)) as Hn.
  unfold thread_ok in Hthok. cbv zeta in Hthok.
  destruct Hthok as (_ & _ & Hp & _).
  destruct (th_phase th) eqn:Hphase;
    [| exists (Step k); apply (past_acquiring_can_step s k th Hk Hlt);
       left; assumption
     | destruct (Hnone k th Hk Hphase)].
  assert (pc th <> 2 * nprocs_used (th_test th) + 3)%nat as Hpc.
  { intros Hpc. apply Hunfinished. split; [assumption|].
    rewrite worker_length. assumption. }
  destruct (Nat.eq_dec (pc th) 0%nat) as [Hzero|Hnz].
  - destruct (lock_held s) eqn:Hl.
    + destruct (sumZ_pos_exists critical (threads s))
        as (j & thj & Hj & Hcrit); [lia|].
      apply (registering_can_move s j thj); try assumption.
      unfold critical in Hcrit. case_decide; [assumption|lia].
    + exists (Step k). cbn [step].
      destruct (Nat.ltb_spec k (started s)); [|lia]. rewrite Hk, Hphase.
      worker_at. cbn [exec_instr]. rewrite Hl. eexists; reflexivity.
  - destruct (le_lt_dec (pc th) (nprocs_used (th_test th) + 1)%nat) as [Hreg|Hpast].
    + apply (registering_can_move s k th); try assumption.
      unfold registering. lia.
    + exists (Step k). apply (past_acquiring_can_step s k th Hk Hlt).
      right. split; [assumption|lia].
Qed.

Lemma concurrent_run_cannot_deadlock_scenario_B :
  run_tests sample_externals true None 3 scenario_B_state
    = (inr (Some scenario_B_launch), scenario_B_state) /\
  exists s th,
    run scenario_B_schedule (initial scenario_B_launch) = Some s /\
    none_raised s /\ threads s !! 1%nat = Some th /\ ~ finished th /\
    exists lab s', step lab s = Some s'.
Proof.
  split; [reflexivity|].
  eexists. eexists. split; [vm_compute; reflexivity|].
  assert (none_raised
            (mkSys 0 3 true 2
               [mkThread (sample_test 2 (0, 0, 0)) 4 InRunTest 2 0;
                mkThread (sample_test 3 (0, 0, 0)) 2 Ready 1 0])) as Hnone.
  { intros [|[|i]] th Hi; try discriminate; injection Hi as <-; discriminate. }
  split; [exact Hnone|]. split; [reflexivity|].
  assert (~ finished (mkThread (sample_test 3 (0, 0, 0)) 2 Ready 1 0)) as Hnot.
  { intros [_ Hpc]. vm_compute in Hpc. discriminate. }
  split; [exact Hnot|].
  apply (concurrent_run_cannot_deadlock sample_externals true None 3
           scenario_B_state scenario_B_state scenario_B_launch
           scenario_B_schedule _ 1%nat
           (mkThread (sample_test 3 (0, 0, 0)) 2 Ready 1 0));
    [reflexivity | vm_compute; reflexivity | exact Hnone | reflexivity
    | exact Hnot].
Defined.

(** ** [init_tests]: processor counts *)

(** X4: after [init_tests] with a non-negative global [nprocs], every test
    whose bounds are consistent ([min_nprocs <= max_nprocs]) has its
    processor count within them, and a test without [override_nprocs] runs on
    the global value whenever that lies within its bounds. *)
Theorem init_tests_nprocs_within_bounds (nprocs_opt : Z) (tests : list Test)
    (i : nat) (test : Test) :
  0 <= nprocs_opt -> tests !! i = Some test ->
  min_nprocs test <= max_nprocs test ->
  exists test',
    init_tests_nprocs nprocs_opt tests !! i = Some test' /\
    min_nprocs test' = min_nprocs test /\ max_nprocs test' = max_nprocs test /\
    min_nprocs test <= nprocs test' <= max_nprocs test /\
    (override_nprocs test = false ->
     min_nprocs test <= nprocs_opt <= max_nprocs test ->
     nprocs test' = nprocs_opt).
Proof.
  intros Hpos Hi Hbounds. unfold init_tests_nprocs.
  assert ((nprocs_opt >=? 0) = true) as -> by lia.
  exists (init_test_nprocs nprocs_opt test). split.
  { change (map (init_test_nprocs nprocs_opt) tests)
      with (init_test_nprocs nprocs_opt <$> tests).
    rewrite list_lookup_fmap, Hi. reflexivity. }
  unfold init_test_nprocs.
  destruct test as [pa ia n mn mx ov tp stt]. cbn in *.
  destruct ov; cbn;
    repeat match goal with
           | |- context [?a <? ?b] => destruct (Z.ltb_spec a b); cbn
           | |- context [?a >? ?b] => destruct (Z.gtb_spec a b); cbn
           end;
    repeat split; intros; try lia; try discriminate.
Qed.

Lemma init_tests_nprocs_within_bounds_example :
  0 <= 16 /\
  [sample_test 1 (0, 0, 0)] !! 0%nat = Some (sample_test 1 (0, 0, 0)) /\
  min_nprocs (sample_test 1 (0, 0, 0)) <= max_nprocs (sample_test 1 (0, 0, 0)) /\
  exists test',
    init_tests_nprocs 16 [sample_test 1 (0, 0, 0)] !! 0%nat = Some test' /\
    nprocs test' = 8.
Proof.
  split; [lia|]. split; [reflexivity|]. split; [discriminate|].
  destruct (init_tests_nprocs_within_bounds 16 [sample_test 1 (0, 0, 0)] 0
              (sample_test 1 (0, 0, 0)))
    as (test' & Hi & _); [lia | reflexivity | discriminate |].
  exists test'. split; [exact Hi|].
  vm_compute in Hi. injection Hi as <-. reflexivity.
Defined.

(** X5: setting the processor counts is idempotent: running the block of
    [init_tests] a second time with the same global value changes nothing. *)
Theorem init_tests_nprocs_idempotent (nprocs_opt : Z) (tests : list Test) :
  init_tests_nprocs nprocs_opt (init_tests_nprocs nprocs_opt tests)
  = init_tests_nprocs nprocs_opt tests.
Proof.
  unfold init_tests_nprocs. destruct (nprocs_opt >=? 0); [|reflexivity].
  rewrite map_map. apply map_ext. intros test.
  unfold init_test_nprocs.
  destruct test as [pa ia n mn mx ov tp stt]. cbn.
  destruct ov; cbn;
    repeat match goal with
           | |- context [?a <? ?b] =>
               is_var a; is_var b; destruct (Z.ltb_spec a b); cbn
           | |- context [?a >? ?b] =>
               is_var a; is_var b; destruct (Z.gtb_spec a b); cbn
           end;
    first [reflexivity | exfalso; lia].
Qed.

(** ** [run_tests]: the three ways it goes *)

Lemma foldl_max_le (l : list Z) (a b : Z) :
  a <= b -> (forall x, In x l -> x <= b) -> foldl Z.max a l <= b.
Proof.
  revert a. induction l as [|y l IH]; intros a Ha Hl; cbn [foldl]; [assumption|].
  apply IH.
  - assert (y <= b) by (apply Hl; left; reflexivity). lia.
  - intros x Hx. apply Hl. right. assumption.
Qed.

Section RunFacts.
Context {W : Type} (E : Externals W).


End RunFacts.



(** X7: with no tests, [run_tests] fails with the [ValueError] of
    [max()] on an empty sequence whenever a positive total number of
    processors is given, and otherwise returns having done nothing. *)
Theorem run_tests_without_tests {W : Type} (E : Externals W)
    (verbose : bool) (cluster_queue : option string) (tot_nprocs : Z)
    (st : State W) :
  st_tests st = [] ->
  run_tests E verbose cluster_queue tot_nprocs st
  = (if tot_nprocs >? 0 then inl ValueError else inr None, st).
Proof.
  intros Hempty. unfold run_tests. unfold bind at 1. cbn [get_tests].
  rewrite Hempty. cbn [map sumZ foldr length seq for_each py_max].
  destruct (Z.leb_spec tot_nprocs 0) as [Hle|Hgt]; cbn [andb].
  - assert (((if truthy cluster_queue then 0 else tot_nprocs) >? 0) = false)
      as -> by (destruct (truthy cluster_queue); lia).
    assert ((tot_nprocs >? 0) = false) as -> by lia. reflexivity.
  - assert ((tot_nprocs >? 0) = true) as -> by lia. reflexivity.
Qed.

Lemma run_tests_without_tests_example :
  st_tests (sample_state [] [] []) = [] /\
  run_tests sample_externals true None 4 (sample_state [] [] [])
  = (inl ValueError, sample_state [] [] []).
Proof.
  split; [reflexivity|].
  apply (run_tests_without_tests sample_externals true None 4
           (sample_state [] [] [])). reflexivity.
Defined.

(** X8: with a positive total number of processors that no test exceeds
    (and at least one test), [run_tests] hands every test to a thread of its
    own, in list order, under a semaphore of exactly that total, and has
    called no [test.run_test] itself. *)
Theorem run_tests_launches_one_thread_per_test {W : Type} (E : Externals W)
    (verbose : bool) (cluster_queue : option string) (tot_nprocs : Z)
    (st : State W) :
  0 < tot_nprocs -> st_tests st <> [] ->
  (forall test, In test (st_tests st) -> nprocs test <= tot_nprocs) ->
  run_tests E verbose cluster_queue tot_nprocs st
  = (inr (Some (mkLaunch tot_nprocs (st_tests st))), st).
Proof.
  intros Hpos Hne Hfit. unfold run_tests. unfold bind at 1. cbn [get_tests].
  assert ((tot_nprocs <=? 0) = false) as -> by lia. cbn [andb].
  assert ((tot_nprocs >? 0) = true) as -> by lia.
  destruct (st_tests st) as [|t ts] eqn:Hts; [congruence|].
  cbn [map py_max].
  assert (foldl Z.max (nprocs t) (map nprocs ts) <= tot_nprocs) as Hmax.
  { apply foldl_max_le; [apply Hfit; left; reflexivity|].
    intros x Hx. apply in_map_iff in Hx as (t' & <- & Hin).
    apply Hfit. right. assumption. }
  assert ((foldl Z.max (nprocs t) (map nprocs ts) >? tot_nprocs) = false)
    as -> by lia.
  reflexivity.
Qed.

Lemma run_tests_launches_scenario_B :
  0 < 3 /\ st_tests scenario_B_state <> [] /\
  (forall test, In test (st_tests scenario_B_state) -> nprocs test <= 3) /\
  run_tests sample_externals true None 3 scenario_B_state
  = (inr (Some (mkLaunch 3 (st_tests scenario_B_state))), scenario_B_state).
Proof.
  assert (forall test, In test (st_tests scenario_B_state) -> nprocs test <= 3)
    as Hfit.
  { intros test [<-|[<-|[]]]; discriminate. }
  split; [lia|]. split; [discriminate|]. split; [exact Hfit|].
  apply (run_tests_launches_one_thread_per_test sample_externals true None 3
           scenario_B_state); [lia | discriminate | exact Hfit].
Defined.

(** ** [compare_tests] when nothing has been run *)

Section CompareNothing.
Context {W : Type} (E : Externals W).

Lemma compare_inner_missing (verbose : bool) (i : nat) (test : Test)
    (l : list (string * string)) :
  forall (acc : Z) (st : State W),
    st_tests st !! i = Some test ->
    (forall ia, In ia l ->
       path_exists E (st_world st) (compare_test_file E test (fst ia) (snd ia))
       = false) ->
    exists st',
      for_fold l (compare_subrun E verbose i) acc st
        = (inr (acc + Z.of_nat (length l)), st') /\
      st_tests st' = st_tests st /\ st_world st' = st_world st /\
      st_calls st' = st_calls st /\ st_stdin st' = st_stdin st.
Proof.
  induction l as [|[inp args] l IH]; intros acc st Hi Hmiss.
  - exists st. cbn [for_fold ret length].
    rewrite Z.add_0_r. repeat split; reflexivity.
  - cbn [for_fold]. unfold bind.
    rewrite (compare_subrun_missing E verbose i inp args acc st test Hi
               (Hmiss (inp, args) (or_introl eq_refl))).
    match goal with
    | |- exists st', for_fold _ _ _ ?s1 = _ /\ _ =>
        destruct (IH (acc + 1) s1) as (st' & Hrun & Ht & Hw & Hc & Hin)
    end.
    { exact Hi. }
    { intros ia Hin. apply Hmiss. right. assumption. }
    exists st'. split.
    + rewrite Hrun. f_equal. f_equal. cbn [length]. lia.
    + repeat split; assumption.
Qed.

Lemma compare_outer_missing (verbose : bool) (tests : list Test) (w : W)
    (k : nat) :
  (forall i test ia,
     tests !! i = Some test -> In ia (inputs_args test) ->
     path_exists E w (compare_test_file E test (fst ia) (snd ia)) = false) ->
  forall (a : nat) (acc : Z) (st : State W),
    st_tests st = tests -> st_world st = w ->
    (a + k <= length tests)%nat ->
    exists st',
      for_fold (seq a k) (compare_test E verbose) acc st
        = (inr (acc + Z.of_nat (subruns (take k (drop a tests)))), st') /\
      st_tests st' = tests /\ st_world st' = w /\
      st_calls st' = st_calls st /\ st_stdin st' = st_stdin st.
Proof.
  intros Hmiss. induction k as [|k IH]; intros a acc st Ht Hw Hlen.
  - exists st. cbn [seq for_fold ret]. rewrite take_0. unfold subruns.
    cbn [map sum_list]. rewrite Z.add_0_r. repeat split; assumption.
  - assert (a < length tests)%nat as Hlt by lia.
    destruct (lookup_lt_is_Some_2 _ _ Hlt) as [test Hi].
    cbn [seq for_fold]. unfold bind at 1.
    unfold compare_test at 1. unfold bind at 1, get_test. rewrite Ht, Hi.
    destruct (compare_inner_missing verbose a test (inputs_args test) acc st)
      as (st1 & Hrun & Ht1 & Hw1 & Hc1 & Hin1).
    { rewrite Ht. exact Hi. }
    { intros ia Hin. rewrite Hw. apply (Hmiss a test ia Hi Hin). }
    rewrite Hrun.
    destruct (IH (S a) (acc + Z.of_nat (length (inputs_args test))) st1)
      as (st' & Hrun' & Ht' & Hw' & Hc' & Hin'); [congruence|congruence|lia|].
    exists st'. split.
    + rewrite Hrun'. f_equal. f_equal.
      rewrite (drop_S _ _ _ Hi).
      change (take (S k) (test :: drop (S a) tests))
        with (test :: take k (drop (S a) tests)).
      rewrite subruns_cons. lia.
    + repeat split; congruence.
Qed.
End CompareNothing.

(** X9: when none of the test output files exists, [compare_tests] returns
    the number of sub-runs as its skip count, calls [test.verify_job] never
    and leaves the tests and the operating system as they were. *)
Theorem compare_tests_nothing_to_compare {W : Type} (E : Externals W)
    (verbose : bool) (st : State W) :
  (forall i test ia,
     st_tests st !! i = Some test -> In ia (inputs_args test) ->
     path_exists E (st_world st) (compare_test_file E test (fst ia) (snd ia))
     = false) ->
  exists st',
    compare_tests E verbose st
      = (inr (Z.of_nat (subruns (st_tests st))), st') /\
    st_tests st' = st_tests st /\ st_world st' = st_world st /\
    st_calls st' = st_calls st.
Proof.
  intros Hmiss. unfold compare_tests. unfold bind. cbn [get_tests].
  destruct (compare_outer_missing E verbose (st_tests st) (st_world st)
              (length (st_tests st)) Hmiss 0 0 st)
    as (st' & Hrun & Ht & Hw & Hc & _); [reflexivity|reflexivity|lia|].
  rewrite drop_0, firstn_all, Z.add_0_l in Hrun.
  exists st'. repeat split; assumption.
Qed.

Lemma compare_tests_nothing_to_compare_example :
  (forall i test ia,
     st_tests scenario_B_state !! i = Some test -> In ia (inputs_args test) ->
     path_exists sample_externals (st_world scenario_B_state)
       (compare_test_file sample_externals test (fst ia) (snd ia)) = false) /\
  exists st',
    compare_tests sample_externals false scenario_B_state = (inr 4, st') /\
    st_tests st' = st_tests scenario_B_state /\
    st_world st' = st_world scenario_B_state /\
    st_calls st' = st_calls scenario_B_state.
Proof.
  assert (forall i test ia,
            st_tests scenario_B_state !! i = Some test ->
            In ia (inputs_args test) ->
            path_exists sample_externals (st_world scenario_B_state)
              (compare_test_file sample_externals test (fst ia) (snd ia))
            = false) as Hmiss.
  { intros i test ia _ _. reflexivity. }
  split; [exact Hmiss|].
  apply (compare_tests_nothing_to_compare sample_externals false
           scenario_B_state Hmiss).
Defined.

(** ** [diff_tests]: what it calls and where it ends *)

Lemma same_cwd_refl {W} (E : Externals W) (st : State W) : same_cwd E st st.
Proof. reflexivity. Qed.

Lemma same_cwd_trans {W} (E : Externals W) (a b c : State W) :
  same_cwd E a b -> same_cwd E b c -> same_cwd E a c.
Proof. unfold same_cwd. congruence. Qed.

Section DiffMore.
Context {W : Type} (E : Externals W).

Lemma diff_subrun_returns (diff_program : string) (verbose : bool) (i : nat)
    (ia : string * string) (st : State W) (test : Test) :
  st_tests st !! i = Some test ->
  exists st',
    diff_subrun E diff_program verbose i ia st = (inr tt, st') /\
    st_tests st' = st_tests st.
Proof.
  intros Hi. unfold diff_subrun, bind, get_test. rewrite Hi.
  cbn [fst snd].
  destruct verbose;
    cbn [print ret get_world st_world st_tests st_stdin st_stdout st_calls];
    match goal with
    | |- context [if ?b then _ else _] => destruct b
    end;
    eexists; (split; [reflexivity|reflexivity]).
Qed.

Lemma diff_inner_returns (diff_program : string) (verbose : bool) (i : nat)
    (test : Test) (l : list (string * string)) :
  forall st : State W,
    st_tests st !! i = Some test ->
    exists st',
      for_each l (diff_subrun E diff_program verbose i) st = (inr tt, st') /\
      st_tests st' = st_tests st.
Proof.
  induction l as [|ia l IH]; intros st Hi.
  - exists st. split; reflexivity.
  - cbn [for_each]. unfold bind.
    destruct (diff_subrun_returns diff_program verbose i ia st test Hi)
      as (st1 & -> & Ht1).
    destruct (IH st1) as (st' & Hrun & Ht'); [rewrite Ht1; exact Hi|].
    exists st'. split; [assumption|congruence].
Qed.

Lemma diff_test_same_cwd (diff_program : string) (verbose : bool) (i : nat) :
  (forall w w', getcwd E (chdir E (getcwd E w) w') = getcwd E w) ->
  keeps (same_cwd E) (diff_test E diff_program verbose i).
Proof.
  intros Hlaw st. unfold diff_test. unfold bind at 1. unfold get_test.
  destruct (st_tests st !! i) as [test|] eqn:Hi; [|reflexivity].
  unfold bind at 1. cbn [get_world]. unfold bind at 1. cbn [set_world].
  match goal with
  | |- context [bind (for_each ?l ?body) _ ?s1] =>
      destruct (diff_inner_returns diff_program verbose i test l s1 Hi)
        as (st1 & Hrun & _)
  end.
  unfold bind at 1. rewrite Hrun. unfold bind, get_world, set_world, same_cwd.
  cbn [snd st_world]. apply Hlaw.
Qed.

Lemma diff_tests_logs_popen (diff_program : string) (verbose : bool) :
  keeps (logs is_popen_call) (diff_tests E diff_program verbose).
Proof.
  unfold diff_tests, diff_test, diff_subrun.
  keeps_with (@logs_refl W is_popen_call) (@logs_trans W is_popen_call)
    ltac:(first [ apply logs_print | apply logs_set_world
                | apply logs_one; exact I ]).
Qed.
End DiffMore.

(** X10: [diff_tests] ends in the working directory it started in, on any
    operating system where changing to the directory that [os.getcwd()]
    reported makes it the working directory again. *)
Theorem diff_tests_returns_to_cwd {W : Type} (E : Externals W)
    (diff_program : string) (verbose : bool) (st : State W) :
  (forall w w', getcwd E (chdir E (getcwd E w) w') = getcwd E w) ->
  getcwd E (st_world (snd (diff_tests E diff_program verbose st)))
  = getcwd E (st_world st).
Proof.
  intros Hlaw. unfold diff_tests. unfold bind. cbn [get_tests].
  apply (keeps_for_each (same_cwd E) (same_cwd_refl E) (same_cwd_trans E)).
  intros i. apply diff_test_same_cwd. assumption.
Qed.

Lemma diff_tests_returns_to_cwd_example :
  (forall w w' : string * list string,
     getcwd cwd_externals (chdir cwd_externals (getcwd cwd_externals w) w')
     = getcwd cwd_externals w) /\
  st_calls (snd (diff_tests cwd_externals "diff" false cwd_state))
  = [CallPopen "diff benchmark.out.bench1.inp=in1 test.out.today.inp=in1"] /\
  getcwd cwd_externals
         (st_world (snd (diff_tests cwd_externals "diff" false cwd_state)))
  = "/home/tester".
Proof.
  assert (forall w w' : string * list string,
            getcwd cwd_externals
                   (chdir cwd_externals (getcwd cwd_externals w) w')
            = getcwd cwd_externals w) as Hlaw by (intros w w'; reflexivity).
  split; [exact Hlaw|]. split; [reflexivity|].
  apply (diff_tests_returns_to_cwd cwd_externals "diff" false cwd_state Hlaw).
Defined.

(** X11: the only collaborator [diff_tests] calls is the diff program: it
    never calls [run_test], [verify_job] or [create_new_benchmarks], never
    reads from the operator and never touches the userconfig file. *)
Theorem diff_tests_only_starts_the_diff_program {W : Type} (E : Externals W)
    (diff_program : string) (verbose : bool) (st : State W) :
  exists calls,
    st_calls (snd (diff_tests E diff_program verbose st))
      = st_calls st ++ calls /\
    Forall is_popen_call calls /\
    st_stdin (snd (diff_tests E diff_program verbose st)) = st_stdin st.
Proof.
  destruct (diff_tests_logs_popen E diff_program verbose st)
    as (calls & Hcalls & Hq).
  exists calls. split; [assumption|]. split; [assumption|].
  assert (keeps same_stdin (diff_tests E diff_program verbose)) as Hin.
  { unfold diff_tests, diff_test, diff_subrun.
    assert (forall a : State W, same_stdin a a) as Hrefl by reflexivity.
    assert (forall a b c : State W,
              same_stdin a b -> same_stdin b c -> same_stdin a c) as Htrans
      by (unfold same_stdin; congruence).
    keeps_with Hrefl Htrans ltac:(solve [intros ?; reflexivity]). }
  apply Hin.
Qed.

(** ** [end_status]: what decides the exit code *)

(** X12: the exit code of [end_status] depends neither on the number of
    skipped sub-runs nor on [verbose], and [end_status] does nothing but
    print one line. *)
Theorem end_status_code_ignores_skipped_and_verbose {W : Type}
    (skipped skipped' : Z) (verbose verbose' : bool) (st : State W) :
  fst (end_status skipped verbose st) = fst (end_status skipped' verbose' st) /\
  exists line,
    snd (end_status skipped verbose st)
    = mkState (st_tests st) (st_world st) (st_stdin st)
              (st_stdout st ++ [line]) (st_calls st).
Proof.
  split; [rewrite !end_status_code; reflexivity|].
  unfold end_status, bind, get_tests. cbv zeta.
  destruct verbose;
    [destruct (npassed_of (st_tests st) + nwarning_of (st_tests st)
               =? nran_of (st_tests st))|];
    eexists; reflexivity.
Qed.

(** ** [make_benchmarks]: agreeing, never answering, running unattended *)

(** X13: when not all tests passed and the operator ends the confirmation
    loop with ['y'], [make_benchmarks] goes on exactly as it does when all
    tests passed, from the state in which the notice has been printed and
    the answers have been read. *)
Theorem make_benchmarks_confirmed_goes_on {W : Type} (E : Externals W)
    (test_programs : list (string * TestProgram)) (userconfig : option string)
    (copy_files_since : Z) (st : State W) (calls : list call)
    (rest : list string) :
  npassed_of (st_tests st) <> nran_of (st_tests st) ->
  ask_loop confirm_prompt "" (st_stdin st) = (calls, inr "y", rest) ->
  make_benchmarks E test_programs userconfig copy_files_since st
  = promote E test_programs userconfig copy_files_since
      (mkState (st_tests st) (st_world st) rest
               (st_stdout st ++ ["Not all tests passed."])
               (st_calls st ++ calls)).
Proof.
  intros Hne Hask.
  unfold make_benchmarks. unfold bind at 1. cbn [get_tests].
  apply Z.eqb_neq in Hne. rewrite Hne. cbn [negb].
  unfold bind at 1. cbn [print].
  unfold bind at 1. unfold ask at 1.
  cbn [st_stdin st_tests st_world st_stdout st_calls]. rewrite Hask.
  reflexivity.
Qed.

Lemma make_benchmarks_confirmed_goes_on_example :
  npassed_of (st_tests agreeing_state) <> nran_of (st_tests agreeing_state) /\
  ask_loop confirm_prompt "" (st_stdin agreeing_state)
    = ([CallInput confirm_prompt; CallInput confirm_prompt], inr "y",
       ["left over"]) /\
  make_benchmarks sample_externals git_programs (Some "userconfig") 0
                  agreeing_state
  = (inr tt,
     mkState (st_tests agreeing_state) [] ["left over"]
       ["Not all tests passed.";
        "Setting new benchmark in userconfig to be abc123."]
       [CallInput confirm_prompt; CallInput confirm_prompt;
        CallGetCodeId "prog"; CallCreateNewBenchmarks 0 "abc123" 0;
        CallConfigRead "userconfig"; CallConfigWrite "userconfig" "abc123"]).
Proof.
  split; [discriminate|]. split; [reflexivity|].
  rewrite (make_benchmarks_confirmed_goes_on sample_externals git_programs
             (Some "userconfig") 0 agreeing_state
             [CallInput confirm_prompt; CallInput confirm_prompt]
             ["left over"]); [reflexivity | discriminate | reflexivity].
Defined.

Lemma ask_loop_never_answered (prompt : string) (stdin : list string) :
  forall ans,
    not_y_or_n ans = true -> forallb not_y_or_n stdin = true ->
    ask_loop prompt ans stdin
    = (replicate (S (length stdin)) (CallInput prompt), inl EOFError, []).
Proof.
  induction stdin as [|line stdin IH]; intros ans Hans Hall;
    cbn [ask_loop]; rewrite Hans; [reflexivity|].
  cbn [forallb] in Hall. apply andb_true_iff in Hall as [Hline Hrest].
  rewrite (IH line Hline Hrest). reflexivity.
Qed.

(** X14: when not all tests passed and no line of standard input is ['y']
    or ['n'], [make_benchmarks] asks once for every line and once more, and
    then fails with the [EOFError] of the input function: no benchmark is
    created and the userconfig file is not touched. *)
Theorem make_benchmarks_never_answered {W : Type} (E : Externals W)
    (test_programs : list (string * TestProgram)) (userconfig : option string)
    (copy_files_since : Z) (st : State W) :
  npassed_of (st_tests st) <> nran_of (st_tests st) ->
  forallb not_y_or_n (st_stdin st) = true ->
  make_benchmarks E test_programs userconfig copy_files_since st
  = (inl EOFError,
     mkState (st_tests st) (st_world st) []
             (st_stdout st ++ ["Not all tests passed."])
             (st_calls st
              ++ replicate (S (length (st_stdin st)))
                           (CallInput confirm_prompt))).
Proof.
  intros Hne Hall.
  unfold make_benchmarks. unfold bind at 1. cbn [get_tests].
  apply Z.eqb_neq in Hne. rewrite Hne. cbn [negb].
  unfold bind at 1. cbn [print].
  unfold bind at 1. unfold ask at 1.
  cbn [st_stdin st_tests st_world st_stdout st_calls].
  rewrite (ask_loop_never_answered confirm_prompt (st_stdin st) "" eq_refl Hall).
  reflexivity.
Qed.

Lemma make_benchmarks_never_answered_example :
  npassed_of (st_tests mumbling_state) <> nran_of (st_tests mumbling_state) /\
  forallb not_y_or_n (st_stdin mumbling_state) = true /\
  make_benchmarks sample_externals git_programs (Some "userconfig") 0
                  mumbling_state
  = (inl EOFError,
     mkState (st_tests mumbling_state) [] [] ["Not all tests passed."]
       [CallInput confirm_prompt; CallInput confirm_prompt;
        CallInput confirm_prompt]).
Proof.
  split; [discriminate|]. split; [reflexivity|].
  apply (make_benchmarks_never_answered sample_externals git_programs
           (Some "userconfig") 0 mumbling_state);
    [discriminate | reflexivity].
Defined.

Lemma dict_set_fresh (key value : string) (d : list (string * string)) :
  ~ In key (map fst d) -> dict_set key value d = d ++ [(key, value)].
Proof.
  induction d as [|[k v] d IH]; intros Hfresh; [reflexivity|].
  cbn [dict_set]. cbn [map fst In] in Hfresh.
  destruct (String.eqb_spec k key) as [->|Hne]; [tauto|].
  rewrite IH by tauto. reflexivity.
Qed.

Lemma vcs_loop_unattended {W : Type}
    (test_programs : list (string * TestProgram)) :
  forall (vcs_ids : list (string * string)) (st : State W),
    NoDup (map fst vcs_ids ++ map fst test_programs) ->
    (forall kp, In kp test_programs -> under_vcs (snd kp) <> None) ->
    for_fold test_programs vcs_info vcs_ids st
    = (inr (vcs_ids
            ++ map (fun kp => (fst kp, vcs_code_id (snd kp))) test_programs),
       mkState (st_tests st) (st_world st) (st_stdin st) (st_stdout st)
               (st_calls st
                ++ map (fun kp => CallGetCodeId (fst kp)) test_programs)).
Proof.
  induction test_programs as [|[key program] ps IH]; intros vcs_ids st Hnd Hvcs.
  - cbn [for_fold map ret]. rewrite !app_nil_r. destruct st; reflexivity.
  - cbn [for_fold]. unfold bind at 1. unfold vcs_info at 1. cbn [fst snd].
    pose proof (Hvcs (key, program) (or_introl eq_refl)) as Hunder.
    cbn [snd] in Hunder.
    destruct (under_vcs program) as [v|] eqn:Hv; [|congruence].
    assert (vcs_code_id program = code_id v) as Hcode
      by (unfold vcs_code_id; rewrite Hv; reflexivity).
    unfold bind, log, ret. cbn [fst snd].
    assert (~ In key (map fst vcs_ids)) as Hfresh.
    { cbn [map fst] in Hnd. apply NoDup_app in Hnd as (_ & Hdisj & _).
      intros Hin. apply (Hdisj key).
      - apply list_elem_of_In. assumption.
      - apply list_elem_of_In. left. reflexivity. }
    rewrite (dict_set_fresh key (code_id v) vcs_ids Hfresh).
    rewrite IH.
    + cbn [map fst snd st_tests st_world st_stdin st_stdout st_calls].
      rewrite Hcode, <- !app_assoc. reflexivity.
    + rewrite map_app. cbn [map fst]. rewrite <- app_assoc.
      cbn [map fst] in Hnd. exact Hnd.
    + intros kp Hin. apply Hvcs. right. assumption.
Qed.

(** X15: when all tests passed and every program is under a known version
    control system, [make_benchmarks] runs unattended: it reads nothing from
    the operator, asks each program's version control for its code
    identifier, and calls [create_new_benchmarks] on every test in turn
    under the label made of these identifiers (the identifier itself for a
    single program, and the ['.']-joined ["name-identifier"] pairs
    otherwise).  It then turns to the userconfig file: nothing more when
    none is given; [NoSectionError] when the file has no section [user] and
    the exception of [open] when it cannot be opened for writing, in both
    cases with the benchmarks created and the file not rewritten; and
    otherwise the file is rewritten with the label and [make_benchmarks]
    returns. *)
Theorem make_benchmarks_unattended {W : Type} (E : Externals W)
    (test_programs : list (string * TestProgram)) (userconfig : option string)
    (copy_files_since : Z) (st : State W) :
  npassed_of (st_tests st) = nran_of (st_tests st) ->
  NoDup (map fst test_programs) ->
  (forall kp, In kp test_programs -> under_vcs (snd kp) <> None) ->
  let benchmark :=
    benchmark_label
      (map (fun kp => (fst kp, vcs_code_id (snd kp))) test_programs) in
  let made :=
    create_all E benchmark copy_files_since (st_tests st) (st_world st) in
  let calls :=
    (st_calls st ++ map (fun kp => CallGetCodeId (fst kp)) test_programs)
    ++ create_calls (length (st_tests st)) benchmark copy_files_since in
  let notice := userconfig_notice benchmark in
  (truthy userconfig = false ->
   make_benchmarks E test_programs userconfig copy_files_since st
   = (inr tt,
      mkState (fst made) (snd made) (st_stdin st) (st_stdout st) calls)) /\
  (forall file,
     userconfig = Some file -> truthy userconfig = true ->
     (config_has_section E (snd made) file "user" = false ->
      make_benchmarks E test_programs userconfig copy_files_since st
      = (inl (NoSectionError "user"),
         mkState (fst made) (snd made) (st_stdin st)
                 (st_stdout st ++ [notice])
                 (calls ++ [CallConfigRead file]))) /\
     (forall e,
        config_has_section E (snd made) file "user" = true ->
        open_write_raises E (snd made) file = Some e ->
        make_benchmarks E test_programs userconfig copy_files_since st
        = (inl e,
           mkState (fst made) (snd made) (st_stdin st)
                   (st_stdout st ++ [notice])
                   (calls ++ [CallConfigRead file]))) /\
     (config_has_section E (snd made) file "user" = true ->
      open_write_raises E (snd made) file = None ->
      make_benchmarks E test_programs userconfig copy_files_since st
      = (inr tt,
         mkState (fst made) (config_update E file benchmark (snd made))
                 (st_stdin st) (st_stdout st ++ [notice])
                 (calls
                  ++ [CallConfigRead file; CallConfigWrite file benchmark])))).
Proof.
  intros Hall Hnd Hvcs.
  pose proof (vcs_loop_unattended test_programs [] st Hnd Hvcs) as Hloop.
  cbn [app] in Hloop.
  rewrite (make_benchmarks_all_passed E test_programs userconfig
             copy_files_since st Hall).
  exact (promote_outcome E test_programs userconfig copy_files_since st _ _
           Hloop).
Qed.

Lemma make_benchmarks_unattended_example :
  npassed_of (st_tests fresh_state) = nran_of (st_tests fresh_state) /\
  NoDup (map fst two_git_programs) /\
  (forall kp, In kp two_git_programs -> under_vcs (snd kp) <> None) /\
  make_benchmarks userconfig_externals two_git_programs (Some "userconfig") 0
                  fresh_state
  = (inr tt,
     mkState
       [test_in "h2o"; test_in "co2"]
       (["userconfig"; "h2o/benchmark.out.castep-abc123.onetep-r42";
         "co2/benchmark.out.castep-abc123.onetep-r42"],
        [("userconfig", "castep-abc123.onetep-r42")])
       []
       ["Setting new benchmark in userconfig to be castep-abc123.onetep-r42."]
       [CallGetCodeId "castep"; CallGetCodeId "onetep";
        CallCreateNewBenchmarks 0 "castep-abc123.onetep-r42" 0;
        CallCreateNewBenchmarks 1 "castep-abc123.onetep-r42" 0;
        CallConfigRead "userconfig";
        CallConfigWrite "userconfig" "castep-abc123.onetep-r42"]) /\
  make_benchmarks userconfig_externals two_git_programs (Some "userconfig") 0
                  no_user_section_state
  = (inl (NoSectionError "user"),
     mkState
       [test_in "h2o"; test_in "co2"]
       (["userconfig"; "h2o/benchmark.out.castep-abc123.onetep-r42";
         "co2/benchmark.out.castep-abc123.onetep-r42"], [])
       []
       ["Setting new benchmark in userconfig to be castep-abc123.onetep-r42."]
       [CallGetCodeId "castep"; CallGetCodeId "onetep";
        CallCreateNewBenchmarks 0 "castep-abc123.onetep-r42" 0;
        CallCreateNewBenchmarks 1 "castep-abc123.onetep-r42" 0;
        CallConfigRead "userconfig"]).
Proof.
  assert (NoDup (map fst two_git_programs)) as Hnd.
  { cbn. apply NoDup_cons. split.
    - intros Hin. apply list_elem_of_In in Hin.
      destruct Hin as [Heq|[]]. discriminate.
    - apply NoDup_cons. split; [intros Hin; inversion Hin|apply NoDup_nil; exact I]. }
  assert (forall kp, In kp two_git_programs -> under_vcs (snd kp) <> None)
    as Hvcs.
  { intros kp [<-|[<-|[]]]; discriminate. }
  split; [reflexivity|]. split; [exact Hnd|]. split; [exact Hvcs|].
  split.
  - exact (proj2 (proj2 (proj2
             (make_benchmarks_unattended userconfig_externals two_git_programs
                (Some "userconfig") 0 fresh_state eq_refl Hnd Hvcs)
             "userconfig" eq_refl eq_refl)) eq_refl eq_refl).
  - exact (proj1 (proj2
             (make_benchmarks_unattended userconfig_externals two_git_programs
                (Some "userconfig") 0 no_user_section_state eq_refl Hnd Hvcs)
             "userconfig" eq_refl eq_refl) eq_refl).
Defined.

(** ** The command line *)

Lemma str_in_In (x : string) (l : list string) : str_in x l = true <-> In x l.
Proof.
  unfold str_in. rewrite existsb_exists. split.
  - intros (y & Hin & Heq). apply String.eqb_eq in Heq. subst. assumption.
  - intros Hin. exists x. split; [assumption|apply String.eqb_refl].
Qed.

Lemma default_action_facts (args : list string) :
  default_action args <> [] /\
  (In "make-benchmarks" (default_action args) ->
   In "run" (default_action args) \/ In "compare" (default_action args)) /\
  (forall a, In a args -> In a (default_action args)).
Proof.
  unfold default_action. destruct args as [|a args].
  - cbn. split; [discriminate|]. split; [intros _; left; left; reflexivity|].
    intros a [].
  - cbn [orb].
    destruct (str_in "make-benchmarks" (a :: args)) eqn:Hmb; cbn [andb].
    + destruct (str_in "compare" (a :: args)) eqn:Hc; cbn [negb andb].
      * split; [discriminate|]. split; [|auto].
        intros _. right. apply str_in_In. assumption.
      * destruct (str_in "run" (a :: args)) eqn:Hr; cbn [negb].
        -- split; [discriminate|]. split; [|auto].
           intros _. left. apply str_in_In. assumption.
        -- split; [destruct args; discriminate|]. split.
           ++ intros _. left. apply in_or_app. right. left. reflexivity.
           ++ intros b Hb. apply in_or_app. left. assumption.
    + split; [discriminate|]. split; [|auto].
      intros Hin. apply str_in_In in Hin. congruence.
Qed.

(** X16: whenever [parse_cmdline_args] returns, there is at least one
    action, every action is one of the five known ones, [make-benchmarks]
    never comes without [run] or [compare], the actions the user gave are
    all kept, there is at least one category, and nothing has been
    printed. *)
Theorem parse_cmdline_args_returns_sound_actions
    (parse_args : list string -> Z + Options * list string) (usage : string)
    (FILESTEM : FileStem) (args given : list string) (out : list string)
    (options0 : Options) (options : ParsedOptions) (actions : list string)
    (filestem : FileStem) :
  parse_args args = inr (options0, given) ->
  parse_cmdline_args parse_args usage FILESTEM args
    = (out, inr (options, actions, filestem)) ->
  actions <> [] /\
  (forall a, In a actions -> In a allowed_actions) /\
  (In "make-benchmarks" actions -> In "run" actions \/ In "compare" actions) /\
  (forall a, In a given -> In a actions) /\
  po_category options <> [] /\ out = [].
Proof.
  intros Hparse. unfold parse_cmdline_args. rewrite Hparse.
  destruct (existsb (fun arg => negb (str_in arg allowed_actions))
                    (default_action given)) eqn:Hbad; [discriminate|].
  destruct (default_action_facts given) as (Hne & Hmb & Hkeep).
  assert (forall a, In a (default_action given) -> In a allowed_actions)
    as Hallowed.
  { intros a Hin. apply str_in_In.
    destruct (str_in a allowed_actions) eqn:Ha; [reflexivity|].
    assert (existsb (fun arg => negb (str_in arg allowed_actions))
                    (default_action given) = true) as Hc.
    { apply existsb_exists. exists a. rewrite Ha. split; [assumption|reflexivity]. }
    congruence. }
  assert (default_category (opt_category options0) (default_action given) <> [])
    as Hcat.
  { unfold default_category. destruct (opt_category options0); [|discriminate].
    destruct (_ && _); discriminate. }
  destruct (match opt_benchmark options0 with
            | Some b => _ | None => _ end) as [fb bm].
  destruct (match opt_test_id options0 with
            | Some t => _ | None => _ end) as [ft tid].
  destruct (negb (String.eqb ft (fs_test FILESTEM))
            && str_in "run" (default_action given)); [discriminate|].
  intros H. injection H as <- <- <- <-. cbn [po_category].
  repeat split; assumption.
Qed.

Lemma parse_cmdline_args_returns_sound_actions_example :
  bare_parser ["make-benchmarks"] = inr (no_options, ["make-benchmarks"]) /\
  exists options filestem,
    parse_cmdline_args bare_parser "usage" default_filestem ["make-benchmarks"]
      = ([], inr (options, ["make-benchmarks"; "run"], filestem)) /\
    po_category options = ["_all_"] /\
    (In "make-benchmarks" ["make-benchmarks"; "run"] ->
     In "run" ["make-benchmarks"; "run"]
     \/ In "compare" ["make-benchmarks"; "run"]).
Proof.
  split; [reflexivity|].
  eexists. eexists. split; [reflexivity|]. split; [reflexivity|].
  apply (parse_cmdline_args_returns_sound_actions bare_parser "usage"
           default_filestem ["make-benchmarks"] ["make-benchmarks"] []
           no_options _ ["make-benchmarks"; "run"] _ eq_refl eq_refl).
Defined.

(** X17: a test id with the prefix [b:] makes the test files use the
    benchmark file stem.  When [run] is among the actions (also when it is
    only there by default) [parse_cmdline_args] refuses this and exits with
    code 1; otherwise it returns the test id without its prefix and the
    benchmark stem as the new test stem. *)
Theorem benchmark_stem_for_tests_only_without_run
    (parse_args : list string -> Z + Options * list string) (usage : string)
    (FILESTEM : FileStem) (args given : list string) (options0 : Options)
    (old_id : string) :
  parse_args args = inr (options0, given) ->
  opt_test_id options0 = Some ("b:" +:+ old_id) ->
  fs_benchmark FILESTEM <> fs_test FILESTEM ->
  (forall a, In a (default_action given) -> In a allowed_actions) ->
  (In "run" (default_action given) ->
   parse_cmdline_args parse_args usage FILESTEM args
   = (["Not allowed to set test filename to be a benchmark filename "
       +:+ "when running calculations."], inl 1)) /\
  (~ In "run" (default_action given) ->
   exists options filestem,
     parse_cmdline_args parse_args usage FILESTEM args
       = ([], inr (options, default_action given, filestem)) /\
     po_test_id options = Some old_id /\
     fs_test filestem = fs_benchmark FILESTEM).
Proof.
  intros Hparse Hid Hstems Hallowed.
  assert (existsb (fun arg => negb (str_in arg allowed_actions))
                  (default_action given) = false) as Hgood.
  { destruct (existsb _ (default_action given)) eqn:Hbad; [|reflexivity].
    apply existsb_exists in Hbad as (a & Hin & Ha).
    apply Hallowed, str_in_In in Hin. rewrite Hin in Ha. discriminate. }
  assert (negb (String.eqb (fs_benchmark FILESTEM) (fs_test FILESTEM)) = true)
    as Hdiff.
  { apply String.eqb_neq in Hstems. rewrite Hstems. reflexivity. }
  assert (truthy (Some ("b:" +:+ old_id))
          && String.eqb (String.substring 0 2 ("b:" +:+ old_id)) "b:" = true)
    as Hprefix by (destruct old_id; reflexivity).
  split; intros Hrun; unfold parse_cmdline_args; rewrite Hparse, Hgood, Hid;
    cbv beta iota; rewrite Hprefix;
    change (str_drop 2 ("b:" +:+ old_id)) with old_id;
    destruct (match opt_benchmark options0 with
              | Some b => _ | None => _ end) as [fb bm];
    rewrite Hdiff; cbn [andb].
  - apply str_in_In in Hrun. rewrite Hrun. reflexivity.
  - assert (str_in "run" (default_action given) = false) as ->.
    { destruct (str_in "run" (default_action given)) eqn:H; [|reflexivity].
      apply str_in_In in H. contradiction. }
    eexists. eexists. split; [reflexivity|]. split; reflexivity.
Qed.

Lemma benchmark_stem_for_tests_only_without_run_example :
  fs_benchmark default_filestem <> fs_test default_filestem /\
  In "run" (default_action []) /\
  parse_cmdline_args benchmark_as_test_parser "usage" default_filestem []
  = (["Not allowed to set test filename to be a benchmark filename "
      +:+ "when running calculations."], inl 1) /\
  exists options filestem,
    parse_cmdline_args benchmark_as_test_parser "usage" default_filestem
                       ["compare"]
      = ([], inr (options, default_action ["compare"], filestem)) /\
    po_test_id options = Some "old" /\
    fs_test filestem = fs_benchmark default_filestem.
Proof.
  assert (fs_benchmark default_filestem <> fs_test default_filestem) as Hstems
    by discriminate.
  split; [exact Hstems|]. split; [left; reflexivity|]. split.
  - apply (proj1 (benchmark_stem_for_tests_only_without_run
                    benchmark_as_test_parser "usage" default_filestem [] []
                    _ "old" eq_refl eq_refl Hstems
                    ltac:(intros a [<-|[]]; right; left; reflexivity))).
    left. reflexivity.
  - apply (proj2 (benchmark_stem_for_tests_only_without_run
                    benchmark_as_test_parser "usage" default_filestem
                    ["compare"] ["compare"] _ "old" eq_refl eq_refl Hstems
                    ltac:(intros a [<-|[]]; left; reflexivity))).
    intros [H|[]]. discriminate.
Defined.

Lemma split_on_nonempty (sep : Ascii.ascii) (s : string) :
  split_on sep s <> [].
Proof.
  destruct s as [|c s]; cbn [split_on]; [discriminate|].
  destruct (Ascii.eqb c sep); [discriminate|].
  destruct (split_on sep s); discriminate.
Qed.

Lemma split_on_no_sep (sep : Ascii.ascii) (s : string) :
  ~ In sep (String.list_ascii_of_string s) -> split_on sep s = [s].
Proof.
  induction s as [|c s IH]; intros Hno; [reflexivity|].
  cbn [split_on]. cbn [String.list_ascii_of_string In] in Hno.
  destruct (Ascii.eqb_spec c sep) as [->|Hne]; [tauto|].
  rewrite IH by tauto. reflexivity.
Qed.

Lemma split_on_first (sep : Ascii.ascii) (a b : string) :
  ~ In sep (String.list_ascii_of_string a) ->
  split_on sep (a +:+ String sep b) = a :: split_on sep b.
Proof.
  induction a as [|c a IH]; intros Hno.
  - change ("" +:+ String sep b) with (String sep b). cbn [split_on].
    rewrite Ascii.eqb_refl. reflexivity.
  - change (String c a +:+ String sep b) with (String c (a +:+ String sep b)).
    cbn [split_on]. cbn [String.list_ascii_of_string In] in Hno.
    destruct (Ascii.eqb_spec c sep) as [->|Hne]; [tauto|].
    rewrite IH by tauto. reflexivity.
Qed.

(** X18: in the executables given on the command line, the last item for a
    program wins; an item [name=value] sets the executable of program [name]
    to [value] cut at its first ['='] (so to [value] itself when it has
    none), and an item without ['='] sets the executable of all programs,
    the entry [_tc_all]. *)
Theorem executable_items_last_one_wins (items : list string)
    (name value : string) :
  no_equals_sign name ->
  foldl set_executable ∅ (items ++ [name +:+ "=" +:+ value]) !! name
    = Some (hd "" (split_on equals_sign value)) /\
  (no_equals_sign value ->
   foldl set_executable ∅ (items ++ [name +:+ "=" +:+ value]) !! name
     = Some value) /\
  foldl set_executable ∅ (items ++ [name]) !! "_tc_all" = Some name.
Proof.
  intros Hname. rewrite !foldl_app. cbn [foldl].
  assert (split_on equals_sign (name +:+ "=" +:+ value)
          = name :: split_on equals_sign value) as Hsplit.
  { change (name +:+ "=" +:+ value)
      with (name +:+ String equals_sign value).
    apply split_on_first. exact Hname. }
  assert (forall exe : gmap string string,
            set_executable exe (name +:+ "=" +:+ value) !! name
            = Some (hd "" (split_on equals_sign value))) as Hset.
  { intros exe. unfold set_executable. rewrite Hsplit.
    pose proof (split_on_nonempty equals_sign value) as Hne.
    destruct (split_on equals_sign value) as [|w ws]; [congruence|].
    cbn [hd]. apply lookup_insert_eq. }
  split; [apply Hset|]. split.
  - intros Hvalue. rewrite Hset, (split_on_no_sep _ _ Hvalue). reflexivity.
  - unfold set_executable. rewrite (split_on_no_sep _ _ Hname).
    apply lookup_insert_eq.
Qed.

Lemma executable_items_last_one_wins_example :
  no_equals_sign "castep" /\
  foldl set_executable ∅ (["castep=old.x"] ++ ["castep" +:+ "=" +:+ "new.x=1"])
    !! "castep" = Some "new.x" /\
  foldl set_executable ∅ (["castep=old.x"] ++ ["castep"]) !! "_tc_all"
    = Some "castep".
Proof.
  assert (no_equals_sign "castep") as Hname.
  { unfold no_equals_sign. cbn.
    intros [H|[H|[H|[H|[H|[H|[]]]]]]]; discriminate. }
  split; [exact Hname|].
  destruct (executable_items_last_one_wins ["castep=old.x"] "castep" "new.x=1"
              Hname) as (H1 & _ & H3).
  split; [exact H1|exact H3].
Defined.

Lemma set_option_value (opt : gmap string (gmap string string))
    (setting : string * string * string) (section name : string) :
  is_Some (opt !! fst (fst setting)) ->
  option_value (set_option opt setting) section name
  = if String.eqb (fst (fst setting)) section
       && String.eqb (snd (fst setting)) name
    then Some (snd setting) else option_value opt section name.
Proof.
  destruct setting as [[s n] v]. cbn [fst snd]. intros [d Hd].
  unfold set_option, option_value. rewrite Hd.
  destruct (String.eqb_spec s section) as [->|Hs]; cbn [andb].
  - rewrite lookup_insert_eq.
    destruct (String.eqb_spec n name) as [->|Hn].
    + apply lookup_insert_eq.
    + rewrite lookup_insert_ne by assumption. rewrite Hd. reflexivity.
  - rewrite lookup_insert_ne by assumption. reflexivity.
Qed.

Lemma set_option_keeps_sections (opt : gmap string (gmap string string))
    (setting : string * string * string) (section : string) :
  is_Some (opt !! section) -> is_Some (set_option opt setting !! section).
Proof.
  destruct setting as [[s n] v]. intros Hsec. unfold set_option.
  destruct (opt !! s) as [d|] eqn:Hd; [|assumption].
  destruct (decide (s = section)) as [->|Hne].
  - rewrite lookup_insert_eq. eauto.
  - rewrite lookup_insert_ne by assumption. assumption.
Qed.

Lemma foldl_set_option_value (l : list (string * string * string))
    (section name : string) :
  forall opt : gmap string (gmap string string),
    (forall setting, In setting l -> is_Some (opt !! fst (fst setting))) ->
    option_value (foldl set_option opt l) section name
    = foldl (fun acc setting =>
               if String.eqb (fst (fst setting)) section
                  && String.eqb (snd (fst setting)) name
               then Some (snd setting) else acc)
            (option_value opt section name) l.
Proof.
  induction l as [|setting l IH]; intros opt Hdom; [reflexivity|].
  cbn [foldl]. rewrite IH.
  - rewrite set_option_value by (apply Hdom; left; reflexivity). reflexivity.
  - intros setting' Hin. apply set_option_keeps_sections.
    apply Hdom. right. assumption.
Qed.

(** X19: in the dictionaries that [parse_cmdline_args] builds from the
    [--user-option] and [--job-option] triples, the value of an option of a
    section is the value of the last triple that names this section and
    option, and there is none when no triple does. *)
Theorem options_dict_last_setting_wins
    (uj_opt : list (string * string * string)) (section name : string) :
  option_value (options_dict uj_opt) section name
  = last_setting uj_opt section name.
Proof.
  unfold options_dict, last_setting. cbv zeta.
  rewrite foldl_set_option_value.
  - f_equal. unfold option_value.
    destruct (list_to_map _ !! section) as [d|] eqn:Hd; [|reflexivity].
    apply elem_of_list_to_map_2 in Hd. apply list_elem_of_In in Hd.
    apply in_map_iff in Hd as (setting & Heq & _).
    injection Heq as _ <-. apply lookup_empty.
  - intros setting Hin.
    destruct (list_to_map _ !! fst (fst setting)) as [d|] eqn:Hd; [eauto|].
    apply not_elem_of_list_to_map_2 in Hd. exfalso. apply Hd.
    apply list_elem_of_In. rewrite <- list_fmap_compose.
    apply in_map_iff. exists setting. split; [reflexivity|assumption].
Qed.

(** ** [tidy_tests] *)

Lemma ask_loop_answer (prompt : string) (stdin : list string) :
  forall ans0 calls ans rest,
    ask_loop prompt ans0 stdin = (calls, inr ans, rest) ->
    not_y_or_n ans = false.
Proof.
  induction stdin as [|line stdin IH]; intros ans0 calls ans rest H;
    cbn [ask_loop] in H; destruct (not_y_or_n ans0) eqn:Hyn.
  - discriminate.
  - injection H as <- <- <-. assumption.
  - destruct (ask_loop prompt line stdin) as [[calls1 r1] rest1] eqn:Hrec.
    injection H as <- -> <-. apply (IH _ _ _ _ Hrec).
  - injection H as <- <- <-. assumption.
Qed.


Section TidyFacts.
Context {W Time : Type} (E : Externals W) (T : TidyExternals W Time).



End TidyFacts.

(** X20: unless the operator ends the confirmation loop of [tidy_tests]
    with ['y'], no file is removed: the operating system and the tests are
    as before, and after the answer ['n'] all that has happened is the
    question, the prompts and the line "No files deleted.". *)
Theorem tidy_tests_removes_nothing_unless_agreed {W Time : Type}
    (E : Externals W) (T : TidyExternals W Time) (ndays : Z)
    (submit_templates : list string) (st : State W) (calls : list call)
    (r : exn + string) (rest : list string) :
  ask_loop tidy_prompt "" (st_stdin st) = (calls, r, rest) ->
  r <> inr "y" ->
  st_world (snd (tidy_tests E T ndays submit_templates st)) = st_world st /\
  st_tests (snd (tidy_tests E T ndays submit_templates st)) = st_tests st /\
  (r = inr "n" ->
   exists question,
     tidy_tests E T ndays submit_templates st
     = (inr tt,
        mkState (st_tests st) (st_world st) rest
                (st_stdout st ++ [question; "No files deleted."])
                (st_calls st ++ calls))).
Proof.
  intros Hask Hr.
  assert (r = inr "n" \/ exists e, r = inl e) as Hcases.
  { destruct r as [e|ans]; [right; eauto|left].
    pose proof (ask_loop_answer _ _ _ _ _ _ Hask) as Hyn.
    unfold not_y_or_n in Hyn.
    destruct (String.eqb_spec ans "y") as [->|Hy]; [congruence|].
    destruct (String.eqb_spec ans "n") as [->|Hn]; [reflexivity|].
    discriminate. }
  destruct Hcases as [->|[e ->]].
  - assert (exists question,
              tidy_tests E T ndays submit_templates st
              = (inr tt,
                 mkState (st_tests st) (st_world st) rest
                         (st_stdout st ++ [question; "No files deleted."])
                         (st_calls st ++ calls))) as (question & Heq).
    { eexists. unfold tidy_tests, bind. cbn [get_world print].
      unfold ask. cbn [st_stdin st_tests st_world st_stdout st_calls].
      rewrite Hask, String.eqb_refl. unfold print.
      cbn [st_stdin st_tests st_world st_stdout st_calls].
      rewrite <- app_assoc. reflexivity. }
    rewrite Heq. cbn [snd st_world st_tests].
    split; [reflexivity|]. split; [reflexivity|]. intros _. eauto.
  - assert (exists st',
              tidy_tests E T ndays submit_templates st = (inl e, st') /\
              st_world st' = st_world st /\ st_tests st' = st_tests st)
      as (st' & Heq & Hw & Ht).
    { eexists. unfold tidy_tests, bind. cbn [get_world print].
      unfold ask. cbn [st_stdin st_tests st_world st_stdout st_calls].
      rewrite Hask. split; [reflexivity|]. split; reflexivity. }
    rewrite Heq. cbn [snd].
    split; [assumption|]. split; [assumption|]. discriminate.
Qed.

Lemma tidy_tests_removes_nothing_unless_agreed_example :
  ask_loop tidy_prompt "" (st_stdin (tidy_state ["no"; "n"]))
    = ([CallInput tidy_prompt; CallInput tidy_prompt], inr "n", []) /\
  st_world (snd (tidy_tests sample_externals tidy_double 14 ["submit.pbs"]
                            (tidy_state ["no"; "n"])))
    = ["test.out.today.inp=in1"] /\
  st_world (snd (tidy_tests sample_externals tidy_double 14 ["submit.pbs"]
                            (tidy_state ["y"])))
    = [].
Proof.
  split; [reflexivity|]. split; [|reflexivity].
  apply (tidy_tests_removes_nothing_unless_agreed sample_externals tidy_double
           14 ["submit.pbs"] (tidy_state ["no"; "n"])
           [CallInput tidy_prompt; CallInput tidy_prompt] (inr "n") []);
    [reflexivity | discriminate].
Defined.



(** ** [start_status] *)

Lemma print_lines {W : Type} (lines : list string) (st : State W) :
  for_each lines print st
  = (inr tt,
     mkState (st_tests st) (st_world st) (st_stdin st)
             (st_stdout st ++ lines) (st_calls st)).
Proof.
  revert st. induction lines as [|line lines IH]; intros st.
  - cbn [for_each ret]. rewrite app_nil_r. destruct st; reflexivity.
  - cbn [for_each]. unfold bind. cbn [print]. rewrite IH.
    cbn [st_tests st_world st_stdin st_stdout st_calls].
    rewrite <- app_assoc. reflexivity.
Qed.

(** X22: [start_status] prints nothing when [verbose] is false; with
    [verbose] true and no test it fails with the [IndexError] of [tests[0]],
    having printed nothing; with [verbose] true and at least one test it
    prints one line per distinct executable when the tests are to be run
    (none otherwise) and then the test id and the benchmark of the first
    test and an empty line; it changes nothing but standard output. *)
Theorem start_status_header {W : Type} (running verbose : bool)
    (st : State W) :
  (verbose = false -> start_status running verbose st = (inr tt, st)) /\
  (verbose = true -> st_tests st = [] ->
   start_status running verbose st = (inl IndexError, st)) /\
  (forall test0 tests,
     verbose = true -> st_tests st = test0 :: tests ->
     exists exe_lines,
       start_status running verbose st
       = (inr tt,
          mkState (st_tests st) (st_world st) (st_stdin st)
            (st_stdout st ++ exe_lines
             ++ ["Test id: " +:+ test_id (test_program test0) +:+ ".";
                 "Benchmark: " +:+ benchmark (test_program test0) +:+ ".";
                 ""])
            (st_calls st)) /\
       length exe_lines
       = (if running
          then length (remove_dups
                         (map (fun test => exe (test_program test))
                              (st_tests st)))
          else 0%nat)).
Proof.
  split; [|split].
  - intros ->. reflexivity.
  - intros -> Hempty. unfold start_status. unfold bind at 1. cbn [get_tests].
    rewrite Hempty. cbn [map remove_dups].
    destruct running; cbn [for_each]; unfold bind, ret, raise;
      destruct st; reflexivity.
  - intros test0 tests -> Htests.
    unfold start_status. unfold bind at 1. cbn [get_tests]. rewrite Htests.
    set (exes := remove_dups
                   (map (fun test => exe (test_program test)) (test0 :: tests))).
    destruct running.
    + exists (map (fun exe => "Using executable: " +:+ exe +:+ ".") exes).
      split; [|apply length_map].
      unfold bind at 1.
      assert (forall l (s : State W),
                for_each l
                  (fun exe => print ("Using executable: " +:+ exe +:+ ".")) s
                = for_each
                    (map (fun exe => "Using executable: " +:+ exe +:+ ".") l)
                    print s) as Hmap.
      { induction l as [|x l IH]; intros s; [reflexivity|].
        cbn [map for_each]. unfold bind. cbn [print]. apply IH. }
      rewrite Hmap, print_lines. unfold bind, print.
      cbn [st_tests st_world st_stdin st_stdout st_calls].
      rewrite Htests, <- !app_assoc. reflexivity.
    + exists []. split; [|reflexivity].
      unfold bind, print, ret.
      cbn [st_tests st_world st_stdin st_stdout st_calls app].
      rewrite Htests, <- !app_assoc. reflexivity.
Qed.

Lemma start_status_header_example :
  start_status true true (sample_state [] [] [])
    = (inl IndexError, sample_state [] [] []) /\
  st_stdout (snd (start_status true true scenario_B_state))
    = ["Using executable: prog.x."; "Test id: today."; "Benchmark: bench1.";
       ""].
Proof.
  split; [|reflexivity].
  apply (proj1 (proj2 (start_status_header true true (sample_state [] [] []))));
    reflexivity.
Defined.

(** ** The worker threads: all tests at once when the budget allows *)

Lemma run_app (s1 s2 : list label) (s : sys) :
  run (s1 ++ s2) s
  = match run s1 s with
    | Some s' => run s2 s'
    | None => None
    end.
Proof.
  revert s. induction s1 as [|l s1 IH]; intros s; [reflexivity|].
  cbn [app run]. destruct (step l s); [apply IH|reflexivity].
Qed.

Lemma run_starts (k : nat) :
  forall s,
    (started s + k <= length (threads s))%nat ->
    run (replicate k Start) s
    = Some (mkSys (sem_value s) (sem_initial s) (lock_held s)
                  (started s + k) (threads s)).
Proof.
  induction k as [|k IH]; intros s Hk.
  - cbn [replicate run]. rewrite Nat.add_0_r. destruct s; reflexivity.
  - cbn [replicate run step].
    destruct (Nat.ltb_spec (started s) (length (threads s))); [|lia].
    rewrite IH by (cbn [started threads]; lia).
    cbn [sem_value sem_initial lock_held started threads].
    do 2 f_equal. lia.
Qed.

Lemma run_acquires (m : nat) :
  forall (s : sys) (i : nat) (test : Test) (a : nat),
    threads s !! i = Some (mkThread test (S a) Ready (Z.of_nat a) 0) ->
    (i < started s)%nat -> (a + m <= nprocs_used test)%nat ->
    Z.of_nat m <= sem_value s ->
    run (replicate m (Step i)) s
    = Some (mkSys (sem_value s - Z.of_nat m) (sem_initial s) (lock_held s)
              (started s)
              (<[i:=mkThread test (S (a + m)) Ready (Z.of_nat (a + m)) 0]>
                 (threads s))).
Proof.
  induction m as [|m IH]; intros s i test a Hi Hlt Ham Hsem.
  - cbn [replicate run]. rewrite Nat.add_0_r, Z.sub_0_r.
    rewrite list_insert_id by assumption. destruct s; reflexivity.
  - cbn [replicate run step].
    destruct (Nat.ltb_spec i (started s)); [|lia]. rewrite Hi.
    cbn [th_phase th_test pc]. rewrite worker_lookup. cbv zeta.
    destruct (Nat.eqb_spec (S a) 0); [lia|].
    destruct (Nat.leb_spec (S a) (nprocs_used test)); [|lia].
    cbn [exec_instr]. destruct (Z.gtb_spec (sem_value s) 0); [|lia].
    cbn [th_test pc acquired released].
    rewrite (IH _ i test (S a)).
    + cbn [sem_value sem_initial lock_held started threads].
      rewrite list_insert_insert_eq.
      replace (S a + m)%nat with (a + S m)%nat by lia.
      replace (sem_value s - 1 - Z.of_nat m)
        with (sem_value s - Z.of_nat (S m)) by lia.
      reflexivity.
    + cbn [threads]. rewrite list_lookup_insert_eq
        by (eapply lookup_lt_Some; eassumption).
      do 2 f_equal. lia.
    + cbn [started]. assumption.
    + lia.
    + cbn [sem_value]. lia.
Qed.

Lemma step_lock_acquire (s : sys) (i : nat) (th : thread) :
  threads s !! i = Some th -> (i < started s)%nat ->
  th_phase th = Ready -> pc th = 0%nat -> lock_held s = false ->
  step (Step i) s
  = Some (mkSys (sem_value s) (sem_initial s) true (started s)
                (<[i:=next th]> (threads s))).
Proof.
  intros Hi Hlt Hph Hpc Hlock. cbn [step].
  destruct (Nat.ltb_spec i (started s)); [|lia]. rewrite Hi, Hph.
  worker_at. cbn [exec_instr]. rewrite Hlock. reflexivity.
Qed.

Lemma step_lock_release (s : sys) (i : nat) (th : thread) :
  threads s !! i = Some th -> (i < started s)%nat ->
  th_phase th = Ready -> pc th = (nprocs_used (th_test th) + 1)%nat ->
  lock_held s = true ->
  step (Step i) s
  = Some (mkSys (sem_value s) (sem_initial s) false (started s)
                (<[i:=next th]> (threads s))).
Proof.
  intros Hi Hlt Hph Hpc Hlock. cbn [step].
  pose proof (nprocs_used_pos (th_test th)).
  destruct (Nat.ltb_spec i (started s)); [|lia]. rewrite Hi, Hph.
  worker_at. cbn [exec_instr]. rewrite Hlock. reflexivity.
Qed.

Lemma step_call_run_test (s : sys) (i : nat) (th : thread) :
  threads s !! i = Some th -> (i < started s)%nat ->
  th_phase th = Ready -> pc th = (nprocs_used (th_test th) + 2)%nat ->
  step (Step i) s = Some (set_thread i (with_phase InRunTest th) s).
Proof.
  intros Hi Hlt Hph Hpc. cbn [step].
  pose proof (nprocs_used_pos (th_test th)).
  destruct (Nat.ltb_spec i (started s)); [|lia]. rewrite Hi, Hph.
  worker_at. reflexivity.
Qed.

(** A worker that finds the lock free and enough units in the semaphore
    registers and calls [test.run_test] without waiting. *)
Lemma run_enters (s : sys) (i : nat) (test : Test) :
  lock_held s = false ->
  threads s !! i = Some (mkThread test 0 Ready 0 0) ->
  (i < started s)%nat ->
  Z.of_nat (nprocs_used test) <= sem_value s ->
  run (replicate (nprocs_used test + 3) (Step i)) s
  = Some (mkSys (sem_value s - Z.of_nat (nprocs_used test)) (sem_initial s)
            false (started s)
            (<[i:=mkThread test (nprocs_used test + 2) InRunTest
                           (Z.of_nat (nprocs_used test)) 0]> (threads s))).
Proof.
  intros Hlock Hi Hlt Hsem.
  pose proof (nprocs_used_pos test) as Hn.
  pose proof (lookup_lt_Some _ _ _ Hi) as Hlen.
  replace (nprocs_used test + 3)%nat
    with (1 + (nprocs_used test + 2))%nat by lia.
  rewrite replicate_add, run_app. cbn [replicate run].
  rewrite (step_lock_acquire s i _ Hi Hlt eq_refl eq_refl Hlock).
  unfold next. cbn [th_test pc acquired released].
  rewrite replicate_add, run_app.
  rewrite (run_acquires (nprocs_used test) _ i test 0);
    [| cbn [threads]; apply list_lookup_insert_eq; assumption
     | cbn [started]; assumption | lia | cbn [sem_value]; assumption ].
  cbn [sem_value sem_initial lock_held started threads Nat.add].
  rewrite list_insert_insert_eq. cbn [replicate run].
  rewrite (step_lock_release _ i
             (mkThread test (S (nprocs_used test)) Ready
                       (Z.of_nat (nprocs_used test)) 0));
    [| cbn [threads]; apply list_lookup_insert_eq; assumption
     | cbn [started]; assumption | reflexivity | cbn [th_test pc]; lia
     | reflexivity ].
  unfold next. cbn [sem_value sem_initial started threads
                    th_test pc acquired released].
  rewrite list_insert_insert_eq.
  rewrite (step_call_run_test _ i
             (mkThread test (S (S (nprocs_used test))) Ready
                       (Z.of_nat (nprocs_used test)) 0));
    [| cbn [threads]; apply list_lookup_insert_eq; assumption
     | cbn [started]; assumption | reflexivity | cbn [th_test pc]; lia ].
  unfold set_thread, with_phase.
  cbn [sem_value sem_initial lock_held started threads
       th_test pc acquired released].
  rewrite list_insert_insert_eq.
  replace (S (S (nprocs_used test))) with (nprocs_used test + 2)%nat by lia.
  reflexivity.
Qed.

Lemma sumZ_take_le {A} (f : A -> Z) (l : list A) (k : nat) :
  (forall x, 0 <= f x) -> sumZ (map f (take k l)) <= sumZ (map f l).
Proof.
  intros Hpos. rewrite <- (take_drop k l) at 2.
  rewrite map_app, sumZ_app.
  assert (0 <= sumZ (map f (drop k l)))
    by (apply sumZ_map_nonneg; intros; apply Hpos).
  lia.
Qed.

Lemma admitted_start (l : launch) :
  run (replicate (length (jobs l)) Start) (initial l) = Some (admitted l 0).
Proof.
  rewrite run_starts
    by (unfold initial; cbn [started threads]; rewrite length_map; lia).
  unfold initial, admitted.
  cbn [sem_value sem_initial lock_held started threads Nat.add].
  rewrite take_0. cbn [map]. change (sumZ []) with 0. rewrite Z.sub_0_r.
  do 2 f_equal. apply list_eq. intros i.
  rewrite list_lookup_imap.
  change (map (fun test => mkThread test 0 Ready 0 0) (jobs l))
    with ((fun test => mkThread test 0 Ready 0 0) <$> jobs l).
  rewrite list_lookup_fmap. destruct (jobs l !! i); reflexivity.
Qed.

Lemma admitted_next (l : launch) (k : nat) (test : Test) :
  sumZ (map (fun t => Z.of_nat (nprocs_used t)) (jobs l)) <= capacity l ->
  jobs l !! k = Some test ->
  run (replicate (nprocs_used test + 3) (Step k)) (admitted l k)
  = Some (admitted l (S k)).
Proof.
  intros Hfit Hk. pose proof (lookup_lt_Some _ _ _ Hk) as Hlen.
  assert (sumZ (map (fun t => Z.of_nat (nprocs_used t)) (take (S k) (jobs l)))
          = sumZ (map (fun t => Z.of_nat (nprocs_used t)) (take k (jobs l)))
            + Z.of_nat (nprocs_used test)) as Hsum.
  { rewrite (take_S_r _ _ _ Hk), map_app, sumZ_app. cbn [map].
    rewrite sumZ_cons. change (sumZ []) with 0. lia. }
  pose proof (sumZ_take_le (fun t => Z.of_nat (nprocs_used t)) (jobs l) (S k)
                (fun t => Nat2Z.is_nonneg (nprocs_used t))) as Hle.
  rewrite (run_enters (admitted l k) k test).
  - unfold admitted.
    cbn [sem_value sem_initial lock_held started threads].
    rewrite Hsum. f_equal. f_equal; [lia|].
    apply list_eq. intros i. rewrite list_lookup_imap.
    destruct (decide (k = i)) as [<-|Hne].
    + rewrite list_lookup_insert_eq by (rewrite length_imap; assumption).
      rewrite Hk. cbn [fmap option_fmap option_map]. unfold admitted_thread.
      destruct (Nat.ltb_spec k (S k)); [reflexivity|lia].
    + rewrite list_lookup_insert_ne by assumption.
      rewrite list_lookup_imap. destruct (jobs l !! i) as [t|]; [|reflexivity].
      cbn [fmap option_fmap option_map]. unfold admitted_thread.
      destruct (Nat.ltb_spec i k), (Nat.ltb_spec i (S k));
        try reflexivity; lia.
  - reflexivity.
  - unfold admitted. cbn [threads]. rewrite list_lookup_imap, Hk.
    cbn [fmap option_fmap option_map]. unfold admitted_thread.
    destruct (Nat.ltb_spec k k); [lia|reflexivity].
  - unfold admitted. cbn [started]. assumption.
  - unfold admitted. cbn [sem_value]. lia.
Qed.

Lemma admitted_all (l : launch) (k : nat) :
  sumZ (map (fun t => Z.of_nat (nprocs_used t)) (jobs l)) <= capacity l ->
  (k <= length (jobs l))%nat ->
  exists sched, run sched (initial l) = Some (admitted l k).
Proof.
  intros Hfit. induction k as [|k IH]; intros Hk.
  - eexists. apply admitted_start.
  - destruct IH as (sched & Hrun); [lia|].
    destruct (lookup_lt_is_Some_2 (jobs l) k) as [test Htest]; [lia|].
    exists (sched ++ replicate (nprocs_used test + 3) (Step k)).
    rewrite run_app, Hrun. apply admitted_next; assumption.
Qed.

(** X23: when the units that the workers need, [max(1, test.nprocs)] summed
    over the tests, fit into the semaphore that [run_tests] creates, nothing
    serialises the tests: there is an interleaving in which every test is
    inside [test.run_test] at the same time. *)
Theorem all_tests_can_execute_at_once {W : Type} (E : Externals W)
    (verbose : bool) (cluster_queue : option string) (tot_nprocs : Z)
    (st st' : State W) (l : launch) :
  run_tests E verbose cluster_queue tot_nprocs st = (inr (Some l), st') ->
  sumZ (map (fun test => Z.max 1 (nprocs test)) (st_tests st)) <= capacity l ->
  exists sched s,
    run sched (initial l) = Some s /\
    map th_test (threads s) = st_tests st /\
    (forall i th, threads s !! i = Some th -> th_phase th = InRunTest).
Proof.
  intros Hrun Hfit.
  destruct (run_tests_launch E _ _ _ _ _ _ Hrun) as (_ & Hjobs & _ & _).
  destruct (admitted_all l (length (jobs l))) as (sched & Hsched); [|lia|].
  { rewrite Hjobs.
    erewrite map_ext; [exact Hfit|]. intros t. apply nprocs_used_Z. }
  exists sched, (admitted l (length (jobs l))).
  split; [assumption|]. split.
  - rewrite (run_tests_of sched _ _ Hsched), initial_tests. assumption.
  - intros i th Hi. unfold admitted in Hi. cbn [threads] in Hi.
    rewrite list_lookup_imap in Hi.
    destruct (jobs l !! i) as [t|] eqn:Ht; [|discriminate].
    pose proof (lookup_lt_Some _ _ _ Ht).
    cbn [fmap option_fmap option_map] in Hi. injection Hi as <-.
    unfold admitted_thread.
    destruct (Nat.ltb_spec i (length (jobs l))); [reflexivity|lia].
Qed.

Lemma all_tests_can_execute_at_once_scenario_A :
  run_tests sample_externals true None 5 scenario_B_state
    = (inr (Some scenario_A_launch), scenario_B_state) /\
  sumZ (map (fun test => Z.max 1 (nprocs test)) (st_tests scenario_B_state))
    <= capacity scenario_A_launch /\
  exists sched s,
    run sched (initial scenario_A_launch) = Some s /\
    map th_test (threads s) = st_tests scenario_B_state /\
    (forall i th, threads s !! i = Some th -> th_phase th = InRunTest).
Proof.
  split; [reflexivity|]. split; [discriminate|].
  apply (all_tests_can_execute_at_once sample_externals true None 5
           scenario_B_state scenario_B_state scenario_A_launch);
    [reflexivity | discriminate].
Defined.

Lemma sumZ_max1_id (l : list Z) :
  (forall x, In x l -> 1 <= x) -> sumZ (map (Z.max 1) l) = sumZ l.
Proof.
  induction l as [|x l IH]; intros H; [reflexivity|].
  cbn [map]. rewrite !sumZ_cons, IH by (intros; apply H; right; assumption).
  assert (1 <= x) by (apply H; left; reflexivity). lia.
Qed.

Lemma sumZ_ge_each (l : list Z) (x : Z) :
  (forall y, In y l -> 0 <= y) -> In x l -> x <= sumZ l.
Proof.
  induction l as [|a l IH]; intros Hpos Hin; [destruct Hin|].
  rewrite sumZ_cons.
  assert (0 <= a) by (apply Hpos; left; reflexivity).
  destruct Hin as [->|Hin].
  - assert (0 <= sumZ l); [|lia].
    rewrite <- (map_id l). apply sumZ_map_nonneg.
    intros y Hy. apply Hpos. right. assumption.
  - assert (x <= sumZ l)
      by (apply IH; [intros; apply Hpos; right; assumption|assumption]).
    lia.
Qed.

(** X24: when tests are sent to a cluster queue with no total number of
    processors given and every test asks for at least one processor, the
    semaphore is created with the sum of the processor counts, and all tests
    can then be inside [test.run_test] at the same time. *)
Theorem cluster_default_admits_all_parallel_tests {W : Type}
    (E : Externals W) (verbose : bool) (cluster_queue : option string)
    (tot_nprocs : Z) (st : State W) :
  tot_nprocs <= 0 -> truthy cluster_queue = true -> st_tests st <> [] ->
  (forall test, In test (st_tests st) -> 1 <= nprocs test) ->
  run_tests E verbose cluster_queue tot_nprocs st
    = (inr (Some (mkLaunch (sumZ (map nprocs (st_tests st))) (st_tests st))),
       st) /\
  exists sched s,
    run sched
        (initial (mkLaunch (sumZ (map nprocs (st_tests st))) (st_tests st)))
      = Some s /\
    map th_test (threads s) = st_tests st /\
    (forall i th, threads s !! i = Some th -> th_phase th = InRunTest).
Proof.
  intros Htot Hqueue Hne Hpar.
  assert (forall y, In y (map nprocs (st_tests st)) -> 1 <= y) as Hones.
  { intros y Hy. apply in_map_iff in Hy as (t & <- & Hin). apply Hpar, Hin. }
  assert (run_tests E verbose cluster_queue tot_nprocs st
          = (inr (Some (mkLaunch (sumZ (map nprocs (st_tests st)))
                                 (st_tests st))), st)) as Hrun.
  { unfold run_tests. unfold bind at 1. cbn [get_tests].
    assert ((tot_nprocs <=? 0) = true) as -> by lia. rewrite Hqueue.
    cbn [andb].
    destruct (st_tests st) as [|t ts] eqn:Hts; [congruence|].
    assert (1 <= nprocs t) by (apply Hones; left; reflexivity).
    assert (0 <= sumZ (map nprocs ts)).
    { rewrite <- (map_id (map nprocs ts)). apply sumZ_map_nonneg.
      intros y Hy.
      assert (1 <= y) by (apply Hones; right; assumption). unfold id. lia. }
    cbn [map] in *. rewrite sumZ_cons.
    assert ((nprocs t + sumZ (map nprocs ts) >? 0) = true) as -> by lia.
    cbn [py_max].
    assert (foldl Z.max (nprocs t) (map nprocs ts)
            <= nprocs t + sumZ (map nprocs ts)) as Hmax.
    { rewrite <- sumZ_cons. apply foldl_max_le.
      - apply sumZ_ge_each; [|left; reflexivity].
        intros y Hy. assert (1 <= y) by (apply Hones; assumption). lia.
      - intros y Hy. apply sumZ_ge_each; [|right; assumption].
        intros z Hz. assert (1 <= z) by (apply Hones; assumption). lia. }
    assert ((foldl Z.max (nprocs t) (map nprocs ts)
             >? nprocs t + sumZ (map nprocs ts)) = false) as -> by lia.
    reflexivity. }
  split; [exact Hrun|].
  apply (all_tests_can_execute_at_once E verbose cluster_queue tot_nprocs
           st st _ Hrun).
  cbn [capacity]. rewrite <- (sumZ_max1_id (map nprocs (st_tests st)) Hones).
  rewrite map_map. lia.
Qed.

Lemma cluster_default_admits_all_parallel_tests_example :
  0 <= 0 /\ truthy (Some "PBS") = true /\ st_tests scenario_B_state <> [] /\
  run_tests sample_externals true (Some "PBS") 0 scenario_B_state
    = (inr (Some scenario_A_launch), scenario_B_state) /\
  exists sched s,
    run sched (initial scenario_A_launch) = Some s /\
    map th_test (threads s) = st_tests scenario_B_state /\
    (forall i th, threads s !! i = Some th -> th_phase th = InRunTest).
Proof.
  split; [lia|]. split; [reflexivity|]. split; [discriminate|].
  apply (cluster_default_admits_all_parallel_tests sample_externals true
           (Some "PBS") 0 scenario_B_state);
    [lia | reflexivity | discriminate |].
  intros test [<-|[<-|[]]]; discriminate.
Defined.
